(** * Supreme Ruler Unit Model Browser: the unit parser, the list filters,
      the reverse picnum lookup and the mesh probe

    A shallow embedding of [unit_model_browser_r04.py].

    Text is [string]; a character is a code point below 256, so the
    embedding is exact for unit files whose text stays in that range.
    Exceptions are explicit: a fallible operation returns [res], a
    [try]/[except] is a [match] on it.  The interpreter's built-ins that the
    program calls ([str.strip], [str.isdigit], [int], [csv.reader], ...)
    are modelled in [Py] and [Csv] after CPython 3.11. *)

From Stdlib Require Import List String Ascii ZArith NArith Lia Bool.
From Stdlib Require Import DecimalString.
From Stdlib Require DecimalPos.
From Stdlib Require Import Sorted Permutation.
Import ListNotations.

Open Scope string_scope.
Open Scope Z_scope.

(** ** Exceptions *)

Inductive exn : Type :=
| ValueError
| IndexError
| OSError
| CsvError.

Inductive res (A : Type) : Type :=
| Ok (a : A)
| Raise (e : exn).

Arguments Ok {A} a.
Arguments Raise {A} e.

Definition bind {A B : Type} (m : res A) (k : A -> res B) : res B :=
  match m with
  | Ok a => k a
  | Raise e => Raise e
  end.

Notation "x <- m ;; k" := (bind m (fun x => k))
  (at level 61, m at next level, right associativity).

(** ** Built-ins of the interpreter *)

Module Py.

Definition code (c : ascii) : N := N_of_ascii c.

(** [str.isspace] on one character: the white space that [str.strip]
    removes. *)
Definition isspace (c : ascii) : bool :=
  let n := code c in
  ((9 <=? n) && (n <=? 13) || (28 <=? n) && (n <=? 32)
   || (n =? 133) || (n =? 160))%N.

(** The white space that [int] skips: the separators 28..31 are not in
    it. *)
Definition int_space (c : ascii) : bool :=
  let n := code c in
  ((9 <=? n) && (n <=? 13) || (n =? 32) || (n =? 133) || (n =? 160))%N.

Definition isdecimal (c : ascii) : bool :=
  let n := code c in ((48 <=? n) && (n <=? 57))%N.

(** [str.isdigit] on one character: the decimal digits and the
    superscripts 1, 2, 3. *)
Definition isdigit_char (c : ascii) : bool :=
  let n := code c in
  (isdecimal c || (n =? 178) || (n =? 179) || (n =? 185))%N.

Definition digit_value (c : ascii) : Z := Z.of_N (code c) - 48.

Definition nonempty (s : string) : bool :=
  match s with
  | EmptyString => false
  | String _ _ => true
  end.

Fixpoint forallb_str (p : ascii -> bool) (s : string) : bool :=
  match s with
  | EmptyString => true
  | String c r => p c && forallb_str p r
  end.

(** [s.isdigit()] *)
Definition isdigit (s : string) : bool :=
  nonempty s && forallb_str isdigit_char s.

Fixpoint lskip (p : ascii -> bool) (s : string) : string :=
  match s with
  | EmptyString => EmptyString
  | String c r => if p c then lskip p r else s
  end.

Fixpoint rskip (p : ascii -> bool) (s : string) : string :=
  match s with
  | EmptyString => EmptyString
  | String c r =>
      match rskip p r with
      | EmptyString => if p c then EmptyString else String c EmptyString
      | r' => String c r'
      end
  end.

(** [s.strip()] *)
Definition strip (s : string) : string := rskip isspace (lskip isspace s).

(** [s.startswith(p)] *)
Fixpoint startswith (s p : string) : bool :=
  match p, s with
  | EmptyString, _ => true
  | String a p', String b s' => Ascii.eqb a b && startswith s' p'
  | String _ _, EmptyString => false
  end.

(** [sub in s] *)
Fixpoint str_in (sub s : string) : bool :=
  startswith s sub ||
  match s with
  | EmptyString => false
  | String _ r => str_in sub r
  end.

Definition lower_char (c : ascii) : ascii :=
  let n := code c in
  if ((65 <=? n) && (n <=? 90)
      || (192 <=? n) && (n <=? 222) && negb (n =? 215))%N
  then ascii_of_N (n + 32)
  else c.

(** [s.lower()] *)
Fixpoint lower (s : string) : string :=
  match s with
  | EmptyString => EmptyString
  | String c r => String (lower_char c) (lower r)
  end.

(** The digits of an integer literal: decimal digits, with single
    underscores between them.  Returns the value read so far, the number
    of digits and the unread rest; [None] when an underscore is not
    followed by a digit. *)
Fixpoint scan_digits (s : string) (acc : Z) (n : nat)
  : option (Z * nat * string) :=
  match s with
  | EmptyString => Some (acc, n, EmptyString)
  | String c r =>
      if isdecimal c then scan_digits r (10 * acc + digit_value c) (S n)
      else if Ascii.eqb c "_" then
        match r with
        | String d _ => if isdecimal d then scan_digits r acc n else None
        | EmptyString => None
        end
      else Some (acc, n, s)
  end.

(** [sys.get_int_max_str_digits()] *)
Definition max_str_digits : nat := 4300.

Definition starts_decimal (s : string) : bool :=
  match s with
  | String c _ => isdecimal c
  | EmptyString => false
  end.

(** An optional sign: whether it is a minus, and the text after it. *)
Definition split_sign (s : string) : bool * string :=
  match s with
  | String c r =>
      if Ascii.eqb c "+" then (false, r)
      else if Ascii.eqb c "-" then (true, r)
      else (false, s)
  | EmptyString => (false, s)
  end.

(** [int(s)] in base 10: white space, an optional sign, the digits, white
    space. *)
Definition int (s : string) : res Z :=
  let '(negative, digits) := split_sign (lskip int_space s) in
  if negb (starts_decimal digits) then Raise ValueError
  else
    match scan_digits digits 0 0 with
    | None => Raise ValueError
    | Some (v, n, rest) =>
        if nonempty (lskip int_space rest) then Raise ValueError
        else if (max_str_digits <? n)%nat then Raise ValueError
        else Ok (if negative then - v else v)
    end.

(** [str(n)] *)
Definition str (n : Z) : string := NilZero.string_of_int (Z.to_int n).

Fixpoint zeros (n : nat) : string :=
  match n with
  | O => EmptyString
  | S k => String "0" (zeros k)
  end.

(** [format(n, "03d")]: the sign counts in the width of 3. *)
Definition format_03d (n : Z) : string :=
  if n <? 0 then
    let d := str (- n) in
    String "-" (zeros (2 - String.length d) ++ d)
  else
    let d := str n in
    zeros (3 - String.length d) ++ d.

(** [row[i]] *)
Definition getitem {A : Type} (l : list A) (i : nat) : res A :=
  match nth_error l i with
  | Some a => Ok a
  | None => Raise IndexError
  end.

End Py.

(** ** [csv.reader] with the default dialect

    Comma as delimiter, the double quote as quote character (doubled inside
    a quoted field to stand for itself), no escape character,
    not strict.  After [Reader_iternext] and [parse_process_char] of
    CPython's [_csv] module; the states that need an escape character are
    left out. *)

Module Csv.

Inductive ParserState : Type :=
| START_RECORD
| START_FIELD
| IN_FIELD
| IN_QUOTED_FIELD
| QUOTE_IN_QUOTED_FIELD
| EAT_CRNL.

Record Reader : Type := mkReader {
  state : ParserState;
  fields : list string;
  field : string
}.

(** [csv.field_size_limit()] *)
Definition field_limit : N := 131072.

Definition parse_reset : Reader :=
  {| state := START_RECORD; fields := []; field := EmptyString |}.

Definition set_state (r : Reader) (s : ParserState) : Reader :=
  {| state := s; fields := fields r; field := field r |}.

Definition parse_save_field (r : Reader) : Reader :=
  {| state := state r; fields := fields r ++ [field r]; field := EmptyString |}.

Definition parse_add_char (r : Reader) (c : ascii) : res Reader :=
  if (field_limit <=? N.of_nat (String.length (field r)))%N
  then Raise CsvError
  else Ok {| state := state r; fields := fields r;
             field := field r ++ String c EmptyString |}.

Definition is_newline (c : ascii) : bool :=
  Ascii.eqb c "010" || Ascii.eqb c "013".

Definition delimiter : ascii := ",".
Definition quotechar : ascii := "034".

(** The end of a line is [None]. *)
Definition start_field (r : Reader) (c : option ascii) : res Reader :=
  match c with
  | None => Ok (set_state (parse_save_field r) START_RECORD)
  | Some ch =>
      if is_newline ch then Ok (set_state (parse_save_field r) EAT_CRNL)
      else if Ascii.eqb ch quotechar then Ok (set_state r IN_QUOTED_FIELD)
      else if Ascii.eqb ch delimiter then Ok (parse_save_field r)
      else r' <- parse_add_char r ch ;; Ok (set_state r' IN_FIELD)
  end.

Definition parse_process_char (r : Reader) (c : option ascii)
  : res Reader :=
  match state r with
  | START_RECORD =>
      match c with
      | None => Ok r
      | Some ch =>
          if is_newline ch then Ok (set_state r EAT_CRNL)
          else start_field (set_state r START_FIELD) c
      end
  | START_FIELD => start_field r c
  | IN_FIELD =>
      match c with
      | None => Ok (set_state (parse_save_field r) START_RECORD)
      | Some ch =>
          if is_newline ch then Ok (set_state (parse_save_field r) EAT_CRNL)
          else if Ascii.eqb ch delimiter
          then Ok (set_state (parse_save_field r) START_FIELD)
          else parse_add_char r ch
      end
  | IN_QUOTED_FIELD =>
      match c with
      | None => Ok r
      | Some ch =>
          if Ascii.eqb ch quotechar
          then Ok (set_state r QUOTE_IN_QUOTED_FIELD)
          else parse_add_char r ch
      end
  | QUOTE_IN_QUOTED_FIELD =>
      match c with
      | None => Ok (set_state (parse_save_field r) START_RECORD)
      | Some ch =>
          if Ascii.eqb ch quotechar
          then r' <- parse_add_char r ch ;; Ok (set_state r' IN_QUOTED_FIELD)
          else if Ascii.eqb ch delimiter
          then Ok (set_state (parse_save_field r) START_FIELD)
          else if is_newline ch
          then Ok (set_state (parse_save_field r) EAT_CRNL)
          else r' <- parse_add_char r ch ;; Ok (set_state r' IN_FIELD)
      end
  | EAT_CRNL =>
      match c with
      | None => Ok (set_state r START_RECORD)
      | Some ch => if is_newline ch then Ok r else Raise CsvError
      end
  end.

(** One line of the input, then the end-of-line mark. *)
Fixpoint process_line (r : Reader) (line : string) : res Reader :=
  match line with
  | EmptyString => parse_process_char r None
  | String c rest =>
      r' <- parse_process_char r (Some c) ;; process_line r' rest
  end.

Definition in_quoted_field (r : Reader) : bool :=
  match state r with
  | IN_QUOTED_FIELD => true
  | _ => false
  end.

(** The rows that iterating the reader yields, and the exception that ends
    the iteration when one is raised.  A record goes on with the next line
    while the line ends inside a quoted field. *)
Fixpoint rows_from (r : Reader) (lines : list string)
  : list (list string) * option exn :=
  match lines with
  | [] =>
      if Py.nonempty (field r) || in_quoted_field r
      then ([fields (parse_save_field r)], None)
      else ([], None)
  | line :: rest =>
      match process_line r line with
      | Raise e => ([], Some e)
      | Ok r' =>
          match state r' with
          | START_RECORD =>
              let '(rows, e) := rows_from parse_reset rest in
              (fields r' :: rows, e)
          | _ => rows_from r' rest
          end
      end
  end.

(** [csv.reader(lines)] *)
Definition reader (lines : list string)
  : list (list string) * option exn :=
  rows_from parse_reset lines.

End Csv.

(** ** The data parser *)

Record SimpleUnit : Type := mkSimpleUnit {
  id : Z;
  name : string;
  picnum : Z;
  unit_class : Z;
  category : string;
  regions : string
}.

Definition MARKER : string := "&&UNITS".

(** The [if]/[elif]/[else] on [u_class]. *)
Definition category_of (u_class : Z) : string :=
  if u_class <=? 6 then "land"
  else if u_class <=? 12 then "air"
  else "naval".

(** The two local variables that the loop updates. *)
Record locals : Type := mkLocals {
  start_parsing : bool;
  units : list SimpleUnit
}.

(** The body of the inner [try]. *)
Definition try_block (row : list string) : res SimpleUnit :=
  f0 <- Py.getitem row 0 ;;
  unit_id <- Py.int f0 ;;
  f1 <- Py.getitem row 1 ;;
  let name := Py.strip f1 in
  f2 <- Py.getitem row 2 ;;
  u_class <- (if Py.nonempty (Py.strip f2) then Py.int (Py.strip f2)
              else Ok 0) ;;
  f3 <- Py.getitem row 3 ;;
  pic <- (if Py.nonempty (Py.strip f3) then Py.int (Py.strip f3)
          else Ok 0) ;;
  regions <- (if (12 <? List.length row)%nat
              then f12 <- Py.getitem row 12 ;; Ok (Py.strip f12)
              else Ok EmptyString) ;;
  Ok (mkSimpleUnit unit_id name pic u_class (category_of u_class) regions).

(** One turn of [for row in reader]; every [continue] returns the locals. *)
Definition loop_body (row : list string) (s : locals) : res locals :=
  match row with
  | [] => Ok s
  | _ :: _ =>
      is_marker <- (if (0 <? List.length row)%nat
                    then f0 <- Py.getitem row 0 ;; Ok (Py.str_in MARKER f0)
                    else Ok false) ;;
      if is_marker
      then Ok {| start_parsing := true; units := units s |}
      else if negb (start_parsing s) then Ok s
      else if (List.length row <? 4)%nat then Ok s
      else
        f0 <- Py.getitem row 0 ;;
        if Py.startswith (Py.strip f0) "//" || negb (Py.isdigit (Py.strip f0))
        then Ok s
        else
          match try_block row with
          | Ok u =>
              Ok {| start_parsing := start_parsing s;
                    units := units s ++ [u] |}
          | Raise ValueError => Ok s
          | Raise e => Raise e
          end
  end.

(** The loop over the rows that the reader yields; [stop] is the exception
    that the reader raises after them, if it does.  The result is the locals
    when the loop is left and the exception that left it. *)
Fixpoint for_rows (rows : list (list string)) (stop : option exn)
  (s : locals) : locals * option exn :=
  match rows with
  | [] => (s, stop)
  | row :: rest =>
      match loop_body row s with
      | Ok s' => for_rows rest stop s'
      | Raise e => (s, Some e)
      end
  end.

(** A path names nothing, a file that [open] and [readlines] read as lines,
    or something that [open] fails on (a directory, a file without read
    permission). *)
Inductive file : Type :=
| Readable (lines : list string)
| Unreadable.

Definition filesystem : Type := string -> option file.

Definition os_path_exists (fs : filesystem) (path : string) : bool :=
  match fs path with
  | Some _ => true
  | None => false
  end.

Definition open_readlines (fs : filesystem) (path : string)
  : res (list string) :=
  match fs path with
  | Some (Readable lines) => Ok lines
  | _ => Raise OSError
  end.

Definition initial_locals : locals :=
  {| start_parsing := false; units := [] |}.

(** The outer [try] with the locals it leaves behind; [except Exception]
    prints the exception and goes on to [return units]. *)
Definition parse_units_robust (fs : filesystem) (filepath : string)
  : res (list SimpleUnit) :=
  if negb (os_path_exists fs filepath) then Ok []
  else
    let '(s, _) :=
      match open_readlines fs filepath with
      | Raise e => (initial_locals, Some e)
      | Ok lines =>
          let '(rows, stop) := Csv.reader lines in
          for_rows rows stop initial_locals
      end in
    Ok (units s).

(** The records of a list of rows, for statements about rows. *)
Definition parse_rows (rows : list (list string)) : list SimpleUnit :=
  units (fst (for_rows rows None initial_locals)).

(** ** The parser as the specification words it

    Rows before the first row whose first field contains the marker are
    ignored; from then on a row is a candidate when it has at least four
    fields and its first field, trimmed, is made of decimal digits only; a
    candidate whose integer conversions succeed gives a record.  There is no
    marker test after the first marker and no test for comment rows. *)

Definition first_field_has_marker (row : list string) : bool :=
  match row with
  | f0 :: _ => Py.str_in MARKER f0
  | [] => false
  end.

Definition spec_decimal_digits (s : string) : bool :=
  Py.nonempty s && Py.forallb_str Py.isdecimal s.

Definition spec_candidate (row : list string) : bool :=
  (4 <=? List.length row)%nat &&
  spec_decimal_digits (Py.strip (nth 0 row EmptyString)).

(** The integer that a field converts to, when [int] accepts it. *)
Definition integer_of (field : string) : option Z :=
  match Py.int field with
  | Ok n => Some n
  | Raise _ => None
  end.

(** The same, with 0 for a field that is blank after trimming. *)
Definition integer_or_zero (field : string) : option Z :=
  if Py.nonempty (Py.strip field) then integer_of (Py.strip field)
  else Some 0.

Definition spec_extract (row : list string) : option SimpleUnit :=
  match integer_of (nth 0 row EmptyString),
        integer_or_zero (nth 2 row EmptyString),
        integer_or_zero (nth 3 row EmptyString) with
  | Some i, Some c, Some p =>
      Some (mkSimpleUnit i (Py.strip (nth 1 row EmptyString)) p c
              (category_of c) (Py.strip (nth 12 row EmptyString)))
  | _, _, _ => None
  end.

Fixpoint spec_after_marker (rows : list (list string)) : list SimpleUnit :=
  match rows with
  | [] => []
  | row :: rest =>
      match (if spec_candidate row then spec_extract row else None) with
      | Some u => u :: spec_after_marker rest
      | None => spec_after_marker rest
      end
  end.

Fixpoint spec_parse (rows : list (list string)) : list SimpleUnit :=
  match rows with
  | [] => []
  | row :: rest =>
      if first_field_has_marker row then spec_after_marker rest
      else spec_parse rest
  end.

(** ** The main window

    The widgets are the fields of [Browser]: a line edit or a combo box is
    its current text, a label its text, the list widget its items.  Glyphs
    beyond code point 255 in the texts of the window are spelled as their
    UTF-8 bytes: such texts are only built, compared and tested for a
    prefix. *)

Module UnitModelBrowser.

Definition glyph (bytes : list ascii) : string :=
  fold_right String EmptyString bytes.

Definition BOX_DASH : string := glyph ["226"; "148"; "128"]%char.
Definition ARROW_UP : string := glyph ["226"; "134"; "145"]%char.
Definition ARROW_DOWN : string := glyph ["226"; "134"; "147"]%char.
Definition CHECK_MARK : string := glyph ["226"; "156"; "133"]%char.
Definition WARNING_SIGN : string :=
  glyph ["226"; "154"; "160"; "239"; "184"; "143"]%char.
Definition CROSS_MARK : string := glyph ["226"; "157"; "140"]%char.
Definition DIRECT_HIT : string := glyph ["240"; "159"; "142"; "175"]%char.
Definition LINK : string := glyph ["240"; "159"; "148"; "151"]%char.
Definition BULLET : string := glyph ["226"; "128"; "162"]%char.
Definition NL : string := String "010" EmptyString.

Definition separator (title : string) : string :=
  BOX_DASH ++ BOX_DASH ++ " " ++ title ++ " " ++ BOX_DASH ++ BOX_DASH.

(** Region codes for SR2030 (supports lowercase) *)
Definition REGIONS_SR2030 : list (string * option string) :=
  [ ("All Regions", None);
    ("*/@ (Global/Export)", Some "*");
    (separator "UPPERCASE", None);
    ("A (South Africa)", Some "A");
    ("B (Argentina)", Some "B");
    ("C (China)", Some "C");
    ("D (Netherlands)", Some "D");
    ("E (Europe/Ireland)", Some "E");
    ("F (France)", Some "F");
    ("G (Germany)", Some "G");
    ("H (Italy)", Some "H");
    ("I (Israel)", Some "I");
    ("J (Japan)", Some "J");
    ("K (South Korea)", Some "K");
    ("L (North Korea)", Some "L");
    ("M (UK/British)", Some "M");
    ("N (Canada)", Some "N");
    ("O (Other)", Some "O");
    ("P (Philippines)", Some "P");
    ("Q (India)", Some "Q");
    ("R (Russia)", Some "R");
    ("S (Sweden)", Some "S");
    ("T (Czech)", Some "T");
    ("U (USA)", Some "U");
    ("V (Taiwan)", Some "V");
    ("W (World Export)", Some "W");
    ("X (Balkans/Yugoslavia)", Some "X");
    ("Y (Singapore)", Some "Y");
    ("Z (Arab)", Some "Z");
    (separator "LOWERCASE", None);
    ("a (Austria)", Some "a");
    ("b (Brazil)", Some "b");
    ("c (Belgium)", Some "c");
    ("d (Denmark)", Some "d");
    ("e (Spain)", Some "e");
    ("f (Finland)", Some "f");
    ("g (Greece)", Some "g");
    ("h (Poland)", Some "h");
    ("i (Iran)", Some "i");
    ("j (Romania)", Some "j");
    ("k (Norway)", Some "k");
    ("l (Indonesia)", Some "l");
    ("m (Pakistan)", Some "m");
    ("n (Australia)", Some "n");
    ("o (E. Europe Generic)", Some "o");
    ("p (Portugal)", Some "p");
    ("q (Iraq)", Some "q");
    ("r (Former Soviet/Belarus)", Some "r");
    ("s (Switzerland)", Some "s");
    ("t (Turkey)", Some "t");
    ("u (Ukraine)", Some "u");
    ("v (Oceania/Pacific)", Some "v");
    ("w (Sub-Saharan Africa)", Some "w");
    ("x (SE Asia Generic)", Some "x");
    ("z (New Zealand)", Some "z");
    (separator "OTHER", None);
    ("Custom...", Some "CUSTOM") ].

(** Region codes for SRU (uppercase only) *)
Definition REGIONS_SRU : list (string * option string) :=
  [ ("All Regions", None);
    ("*/@ (Global/Export)", Some "*");
    ("A (South Africa)", Some "A");
    ("B (Brazil/Argentina)", Some "B");
    ("C (China)", Some "C");
    ("D (BeNeLux)", Some "D");
    ("E (Europe/Ireland/Spain/Portugal/Turkey/Greece)", Some "E");
    ("F (France)", Some "F");
    ("G (Germany)", Some "G");
    ("H (Italy)", Some "H");
    ("I (Israel)", Some "I");
    ("J (Japan)", Some "J");
    ("K (South Korea)", Some "K");
    ("L (North Korea)", Some "L");
    ("M (UK/British)", Some "M");
    ("N (Canada/Australia)", Some "N");
    ("O (Other)", Some "O");
    ("Q (India)", Some "Q");
    ("R (Russia/Ukraine/Soviet/Belarus)", Some "R");
    ("S (Sweden/Swiss/Denmark/Norway)", Some "S");
    ("T (Czech/Austria/Yugoslavia/Finland/Poland/Romania)", Some "T");
    ("U (USA)", Some "U");
    ("V (Taiwan/Philippines)", Some "V");
    ("W (World Export)", Some "W");
    ("X (Yugoslav)", Some "X");
    ("Y (Pacific/Singapore)", Some "Y");
    ("Z (Arab/Iran/Iraq/Pakistan)", Some "Z");
    (separator "OTHER", None);
    ("Custom...", Some "CUSTOM") ].

Record Item : Type := mkItem {
  text : string;
  data : SimpleUnit;
  highlighted : bool
}.

(** A [pathlib.Path]: built from a string, or a path joined with a name by
    [/]. *)
Inductive Path : Type :=
| PathOf (s : string)
| Join (dir : Path) (name : string).

(** What the program asks of the disk: [Path.exists] and the text of a path
    in a message. *)
Record Disk : Type := mkDisk {
  path_exists : Path -> bool;
  path_str : Path -> string
}.

Record Browser : Type := mkBrowser {
  current_mode : string;
  (** [config.get_game_config(mode).get("meshes_path", "")] *)
  meshes_path : string -> string;
  units : list SimpleUnit;
  search_input : string;
  cat_combo : string;
  sort_combo : string;
  region_combo : string;
  picnum_input : string;
  unit_list : list Item;
  lbl_count : string;
  txt_textures : string;
  status_mesh : string;
  lbl_mesh_file : string;
  btn_view : bool;
  selected_mesh_path : option Path;
  (** The message boxes shown, latest last: title and text. *)
  message_boxes : list (string * string);
  (** The replies of the user to the input dialogs to come: the text when
      the dialog is accepted, [None] when it is cancelled. *)
  input_dialog : list (option string)
}.

Definition set_search_input (b : Browser) (v : string) : Browser :=
  mkBrowser (current_mode b) (meshes_path b) (units b) v (cat_combo b)
    (sort_combo b) (region_combo b) (picnum_input b) (unit_list b)
    (lbl_count b) (txt_textures b) (status_mesh b) (lbl_mesh_file b)
    (btn_view b) (selected_mesh_path b) (message_boxes b) (input_dialog b).

Definition set_cat_combo (b : Browser) (v : string) : Browser :=
  mkBrowser (current_mode b) (meshes_path b) (units b) (search_input b) v
    (sort_combo b) (region_combo b) (picnum_input b) (unit_list b)
    (lbl_count b) (txt_textures b) (status_mesh b) (lbl_mesh_file b)
    (btn_view b) (selected_mesh_path b) (message_boxes b) (input_dialog b).

Definition set_region_combo (b : Browser) (v : string) : Browser :=
  mkBrowser (current_mode b) (meshes_path b) (units b) (search_input b)
    (cat_combo b) (sort_combo b) v (picnum_input b) (unit_list b)
    (lbl_count b) (txt_textures b) (status_mesh b) (lbl_mesh_file b)
    (btn_view b) (selected_mesh_path b) (message_boxes b) (input_dialog b).

Definition set_unit_list (b : Browser) (v : list Item) : Browser :=
  mkBrowser (current_mode b) (meshes_path b) (units b) (search_input b)
    (cat_combo b) (sort_combo b) (region_combo b) (picnum_input b) v
    (lbl_count b) (txt_textures b) (status_mesh b) (lbl_mesh_file b)
    (btn_view b) (selected_mesh_path b) (message_boxes b) (input_dialog b).

Definition set_lbl_count (b : Browser) (v : string) : Browser :=
  mkBrowser (current_mode b) (meshes_path b) (units b) (search_input b)
    (cat_combo b) (sort_combo b) (region_combo b) (picnum_input b)
    (unit_list b) v (txt_textures b) (status_mesh b) (lbl_mesh_file b)
    (btn_view b) (selected_mesh_path b) (message_boxes b) (input_dialog b).

Definition set_txt_textures (b : Browser) (v : string) : Browser :=
  mkBrowser (current_mode b) (meshes_path b) (units b) (search_input b)
    (cat_combo b) (sort_combo b) (region_combo b) (picnum_input b)
    (unit_list b) (lbl_count b) v (status_mesh b) (lbl_mesh_file b)
    (btn_view b) (selected_mesh_path b) (message_boxes b) (input_dialog b).

(** The four widgets and attributes that a mesh probe sets. *)
Definition set_mesh (b : Browser) (status file : string) (enabled : bool)
  (final_path : option Path) : Browser :=
  mkBrowser (current_mode b) (meshes_path b) (units b) (search_input b)
    (cat_combo b) (sort_combo b) (region_combo b) (picnum_input b)
    (unit_list b) (lbl_count b) (txt_textures b) status file enabled
    final_path (message_boxes b) (input_dialog b).

(** [QMessageBox.warning(self, title, text)] *)
Definition warning (b : Browser) (title msg : string) : Browser :=
  mkBrowser (current_mode b) (meshes_path b) (units b) (search_input b)
    (cat_combo b) (sort_combo b) (region_combo b) (picnum_input b)
    (unit_list b) (lbl_count b) (txt_textures b) (status_mesh b)
    (lbl_mesh_file b) (btn_view b) (selected_mesh_path b)
    (message_boxes b ++ [(title, msg)]) (input_dialog b).

(** [QInputDialog.getText]: the next reply of the user; no reply left counts
    as a cancelled dialog. *)
Definition getText (b : Browser) : option string * Browser :=
  let rest :=
    mkBrowser (current_mode b) (meshes_path b) (units b) (search_input b)
      (cat_combo b) (sort_combo b) (region_combo b) (picnum_input b)
      (unit_list b) (lbl_count b) (txt_textures b) (status_mesh b)
      (lbl_mesh_file b) (btn_view b) (selected_mesh_path b)
      (message_boxes b) (tl (input_dialog b)) in
  match input_dialog b with
  | reply :: _ => (reply, rest)
  | [] => (None, rest)
  end.

(** *** [filter_list] *)

Definition REGIONS (mode : string) : list (string * option string) :=
  if String.eqb mode "SRU" then REGIONS_SRU else REGIONS_SR2030.

(** The code that the loop over the table finds for a label; [None] when no
    entry has the label. *)
Definition table_code (table : list (string * option string))
  (label : string) : option string :=
  match find (fun entry => String.eqb (fst entry) label) table with
  | Some (_, code) => code
  | None => None
  end.

(** The three tests of the filter loop, each the condition of a
    [continue]. *)
Definition category_skip (cat : string) (u : SimpleUnit) : bool :=
  negb (String.eqb cat "all") && negb (String.eqb (category u) cat).

Definition search_skip (txt : string) (u : SimpleUnit) : bool :=
  Py.nonempty txt &&
  (negb (Py.str_in txt (Py.lower (name u))) &&
   negb (Py.str_in txt (Py.str (id u)))).

Definition region_skip (region_code : option string) (u : SimpleUnit)
  : bool :=
  match region_code with
  | None => false
  | Some code =>
      if Py.nonempty code then
        if String.eqb code "*" then
          negb (Py.str_in "*" (regions u)) && negb (Py.str_in "@" (regions u))
        else
          negb (Py.str_in code (regions u)) &&
          negb (Py.str_in "*" (regions u)) && negb (Py.str_in "@" (regions u))
      else false
  end.

Definition keep (txt cat : string) (region_code : option string)
  (u : SimpleUnit) : bool :=
  negb (category_skip cat u) && negb (search_skip txt u) &&
  negb (region_skip region_code u).

(** [list.sort(key=...)]: a stable sort; [le] is the order of the keys, and
    for [reverse=True] the converse order, which keeps units with equal keys
    in their order too. *)
Fixpoint insert_by {K : Type} (le : K -> K -> bool) (key : SimpleUnit -> K)
  (x : SimpleUnit) (l : list SimpleUnit) : list SimpleUnit :=
  match l with
  | [] => [x]
  | y :: rest =>
      if le (key x) (key y) then x :: l
      else y :: insert_by le key x rest
  end.

Definition sort_by {K : Type} (le : K -> K -> bool) (key : SimpleUnit -> K)
  (l : list SimpleUnit) : list SimpleUnit :=
  fold_right (insert_by le key) [] l.

Definition converse {K : Type} (le : K -> K -> bool) : K -> K -> bool :=
  fun a b => le b a.

Definition pair_leb (a b : Z * string) : bool :=
  (fst a <? fst b) || ((fst a =? fst b) && String.leb (snd a) (snd b)).

Definition sort_units (sort_mode : string) (l : list SimpleUnit)
  : list SimpleUnit :=
  if String.eqb sort_mode ("ID " ++ ARROW_UP) then sort_by Z.leb id l
  else if String.eqb sort_mode ("ID " ++ ARROW_DOWN)
  then sort_by (converse Z.leb) id l
  else if String.eqb sort_mode "Name A-Z"
  then sort_by String.leb (fun u => Py.lower (name u)) l
  else if String.eqb sort_mode "Name Z-A"
  then sort_by (converse String.leb) (fun u => Py.lower (name u)) l
  else if String.eqb sort_mode "Class"
  then sort_by pair_leb (fun u => (unit_class u, Py.lower (name u))) l
  else if String.eqb sort_mode "Picnum" then sort_by Z.leb picnum l
  else l.

Definition len {A : Type} (l : list A) : Z := Z.of_nat (List.length l).

(** From [# Filter units] to the end of [filter_list], for the region code
    found. *)
Definition show_filtered (b : Browser) (region_code : option string)
  : Browser :=
  let txt := Py.lower (search_input b) in
  let cat := Py.lower (cat_combo b) in
  let filtered :=
    sort_units (sort_combo b) (filter (keep txt cat region_code) (units b)) in
  let items :=
    map (fun u =>
           mkItem ("[" ++ Py.str (id u) ++ "] " ++ name u) u false)
      filtered in
  set_lbl_count (set_unit_list b items)
    (Py.str (len filtered) ++ " units loaded").

(** [region_combo.setCurrentIndex(0)] where the current entry is a separator
    or the custom entry: the text becomes that of entry 0, the combo box
    signals the change and [filter_list] runs again, now for all regions. *)
Definition reset_region_combo (b : Browser) : Browser :=
  show_filtered (set_region_combo b "All Regions") None.

Definition filter_list (b : Browser) : Browser :=
  let region_filter := region_combo b in
  if Py.startswith region_filter (BOX_DASH ++ BOX_DASH)
  then reset_region_combo b
  else if String.eqb region_filter "All Regions" then show_filtered b None
  else
    match table_code (REGIONS (current_mode b)) region_filter with
    | Some code =>
        if String.eqb code "CUSTOM" then
          let '(reply, b') := getText b in
          match reply with
          | Some txt =>
              if Py.nonempty txt then show_filtered b' (Some txt)
              else reset_region_combo b'
          | None => reset_region_combo b'
          end
        else show_filtered b (Some code)
    | None => show_filtered b None
    end.

(** *** [check_textures] and [show_shared_mesh_info]

    A function that asks the disk returns, next to the window, the paths it
    asked for, in order. *)

Definition texture_patterns (base : string) : list string :=
  [base ++ ".dds"; base ++ ".png"] ++
  flat_map (fun c => [base ++ String c ".dds"; base ++ String c ".png"])
    (list_ascii_of_string "ABCDEFGHIJKLMNOPQRSTUVWXYZ").

Definition check_textures (disk : Disk) (b : Browser) (mesh_dir : Path)
  (picnum : Z) : Browser * list Path :=
  if negb (path_exists disk mesh_dir) then
    (set_txt_textures b
       ("Meshes folder not found:" ++ NL ++ path_str disk mesh_dir),
     [mesh_dir])
  else
    let base := "UNIT" ++ Py.format_03d picnum in
    let patterns := texture_patterns base in
    let found :=
      map (fun p => CHECK_MARK ++ " " ++ p)
        (filter (fun p => path_exists disk (Join mesh_dir p)) patterns) in
    (set_txt_textures b
       (match found with
        | [] => "No textures found for " ++ base ++ ".*"
        | _ :: _ => String.concat NL found
        end),
     mesh_dir :: map (Join mesh_dir) patterns).

Definition show_shared_mesh_info (b : Browser) (picnum0 current_id : Z)
  : Browser :=
  let shared :=
    filter (fun u => (picnum u =? picnum0) && negb (id u =? current_id))
      (units b) in
  match shared with
  | [] => b
  | _ :: _ =>
      let current_text := txt_textures b in
      let shared_names :=
        map (fun u =>
               "  " ++ BULLET ++ " [" ++ Py.str (id u) ++ "] " ++ name u)
          (firstn 10 shared) in
      let shared_info :=
        NL ++ NL ++ LINK ++ " Shared mesh (" ++ Py.str (len shared) ++
        " other unit" ++ (if 1 <? len shared then "s" else EmptyString) ++
        "):" ++ NL ++ String.concat NL shared_names in
      let shared_info :=
        if 10 <? len shared
        then shared_info ++ NL ++ "  ... and " ++
             Py.str (len shared - 10) ++ " more"
        else shared_info in
      set_txt_textures b (current_text ++ shared_info)
  end.

(** *** [search_by_picnum] *)

(** [search_input.clear()]: the line edit signals a change of its text, and
    [filter_list] is connected to the signal. *)
Definition search_input_clear (b : Browser) : Browser :=
  if Py.nonempty (search_input b)
  then filter_list (set_search_input b EmptyString)
  else b.

(** [cat_combo.setCurrentIndex(0)]: entry 0 is [All]; the combo box signals
    a change of its text, and [filter_list] is connected to the signal. *)
Definition cat_combo_setCurrentIndex_0 (b : Browser) : Browser :=
  if String.eqb (cat_combo b) "All" then b
  else filter_list (set_cat_combo b "All").

Definition search_by_picnum (disk : Disk) (b : Browser)
  : res (Browser * list Path) :=
  let picnum_text := Py.strip (picnum_input b) in
  if negb (Py.nonempty picnum_text) then Ok (b, [])
  else
    match Py.int picnum_text with
    | Raise ValueError =>
        Ok (warning b "Invalid Input" "Please enter a valid picnum number.",
            [])
    | Raise e => Raise e
    | Ok target_picnum =>
        let b := search_input_clear b in
        let b := cat_combo_setCurrentIndex_0 b in
        let found := filter (fun u => picnum u =? target_picnum) (units b) in
        let items :=
          map (fun u =>
                 mkItem ("[" ++ Py.str (id u) ++ "] " ++ name u ++
                         " (class: " ++ Py.str (unit_class u) ++ ")") u true)
            found in
        let b := set_unit_list b items in
        let count := len found in
        if count =? 0 then
          Ok (set_txt_textures
                (set_lbl_count b
                   ("No units found with picnum " ++ Py.str target_picnum))
                ("Picnum " ++ Py.str target_picnum ++
                 " is not used by any unit."),
              [])
        else
          let b :=
            set_lbl_count b
              (DIRECT_HIT ++ " " ++ Py.str count ++
               " unit(s) using picnum " ++ Py.str target_picnum) in
          let mesh_dir := PathOf (meshes_path b (current_mode b)) in
          Ok (check_textures disk b mesh_dir target_picnum)
    end.

(** *** [on_selection_changed], from the mesh directory on

    [sel] is the selection of the list widget.  The statements before the
    mesh directory copy the name, the id, the class, the picnum and the
    regions of the unit to five labels; they are left out. *)

Definition primary_ext (mode : string) : string :=
  if String.eqb mode "SRU" then ".x" else ".cmo".

Definition secondary_ext (mode : string) : string :=
  if String.eqb mode "SRU" then ".cmo" else ".x".

Definition mesh_name (picnum : Z) (ext : string) : string :=
  "UNIT" ++ Py.format_03d picnum ++ ext.

(** The [if]/[elif]/[else] on the two paths; [elif] asks for the secondary
    path only when the primary one is absent. *)
Definition probe_mesh (disk : Disk) (b : Browser) (mesh_dir : Path)
  (picnum : Z) : Browser * list Path :=
  let primary_name := mesh_name picnum (primary_ext (current_mode b)) in
  let secondary_name := mesh_name picnum (secondary_ext (current_mode b)) in
  let primary_path := Join mesh_dir primary_name in
  let secondary_path := Join mesh_dir secondary_name in
  if path_exists disk primary_path then
    (set_mesh b (CHECK_MARK ++ " MESH FOUND") primary_name true
       (Some primary_path),
     [primary_path])
  else if path_exists disk secondary_path then
    (set_mesh b (WARNING_SIGN ++ " ALT FORMAT FOUND") secondary_name true
       (Some secondary_path),
     [primary_path; secondary_path])
  else
    (set_mesh b (CROSS_MARK ++ " MESH MISSING") primary_name false None,
     [primary_path; secondary_path]).

Definition on_selection_changed (disk : Disk) (b : Browser)
  (sel : list Item) : Browser * list Path :=
  match sel with
  | [] => (b, [])
  | item :: _ =>
      let u := data item in
      let mesh_dir := PathOf (meshes_path b (current_mode b)) in
      let '(b, asked_mesh) := probe_mesh disk b mesh_dir (picnum u) in
      let '(b, asked_textures) := check_textures disk b mesh_dir (picnum u) in
      (show_shared_mesh_info b (picnum u) (id u),
       (asked_mesh ++ asked_textures)%list)
  end.

(** *** [clear_picnum_search]

    Nothing is connected to a change of the text of [picnum_input]. *)

Definition set_picnum_input (b : Browser) (v : string) : Browser :=
  mkBrowser (current_mode b) (meshes_path b) (units b) (search_input b)
    (cat_combo b) (sort_combo b) (region_combo b) v (unit_list b)
    (lbl_count b) (txt_textures b) (status_mesh b) (lbl_mesh_file b)
    (btn_view b) (selected_mesh_path b) (message_boxes b) (input_dialog b).

Definition clear_picnum_search (b : Browser) : Browser :=
  filter_list (set_picnum_input b EmptyString).

(** *** [load_data]

    [unit_file] is [config.get_game_config(mode).get("unit_file", "")];
    [tab] is the index of the tab that is shown. *)

Definition set_units (b : Browser) (v : list SimpleUnit) : Browser :=
  mkBrowser (current_mode b) (meshes_path b) v (search_input b)
    (cat_combo b) (sort_combo b) (region_combo b) (picnum_input b)
    (unit_list b) (lbl_count b) (txt_textures b) (status_mesh b)
    (lbl_mesh_file b) (btn_view b) (selected_mesh_path b) (message_boxes b)
    (input_dialog b).

Definition load_data (fs : filesystem) (unit_file : string -> string)
  (b : Browser) (tab : nat) (switch_tab : bool) : res (Browser * nat) :=
  let path := unit_file (current_mode b) in
  if negb (os_path_exists fs path) then
    Ok (warning b "File Not Found"
          ("Unit file not found for " ++ current_mode b ++ ":" ++ NL ++
           path ++ NL ++ "Please check Settings."),
        if switch_tab then 1%nat else tab)
  else
    parsed <- parse_units_robust fs path ;;
    let b := filter_list (set_units b parsed) in
    Ok (b, if switch_tab then 0%nat else tab).

(** *** The viewers: [launch_viewer], [update_viewer_count],
    [close_all_viewers], [closeEvent]

    A viewer process is its handle, a number.  [running] is the answer of
    [poll() is None] for a process when a method asks it; no method asks the
    same process twice.  [popen] is [subprocess.Popen] on the argument list
    and the working directory: the new process, or the text of the exception
    it raises. *)

Record OS : Type := mkOS {
  exe_exists : string -> bool;
  parent_dir : string -> string;
  running : nat -> bool;
  popen : list string -> string -> nat + string
}.

Record Viewers : Type := mkViewers {
  active_viewers : list nat;
  lbl_viewers : string;
  (** The style of the label: green and bold, or grey. *)
  lbl_viewers_green : bool;
  (** The boxes of [QMessageBox.critical], latest last: title and text. *)
  critical_boxes : list (string * string);
  (** The processes that [kill()] was called on, latest last. *)
  killed : list nat
}.

Definition critical (v : Viewers) (title msg : string) : Viewers :=
  mkViewers (active_viewers v) (lbl_viewers v) (lbl_viewers_green v)
    (critical_boxes v ++ [(title, msg)]) (killed v).

Definition update_viewer_count (os : OS) (v : Viewers) : Viewers :=
  let alive := filter (running os) (active_viewers v) in
  let count := len alive in
  mkViewers alive ("Viewers open: " ++ Py.str count) (0 <? count)
    (critical_boxes v) (killed v).

(** The loop of [close_all_viewers] and of [closeEvent]: [kill()] on each
    tracked process that is running; what [kill()] raises is dropped. *)
Definition kill_running (os : OS) (v : Viewers) : Viewers :=
  mkViewers (active_viewers v) (lbl_viewers v) (lbl_viewers_green v)
    (critical_boxes v)
    (killed v ++ filter (running os) (active_viewers v)).

Definition close_all_viewers (os : OS) (v : Viewers) : Viewers :=
  let v := kill_running os v in
  let v :=
    mkViewers [] (lbl_viewers v) (lbl_viewers_green v) (critical_boxes v)
      (killed v) in
  update_viewer_count os v.

Definition closeEvent (os : OS) (v : Viewers) : Viewers := kill_running os v.

(** [viewer] is [config.get_game_config(mode).get("viewer_path", "")],
    [selected] the attribute [selected_mesh_path] of the window. *)
Definition launch_viewer (os : OS) (disk : Disk) (viewer : string)
  (selected : option Path) (v : Viewers) : Viewers :=
  match selected with
  | None => v
  | Some mesh =>
      if negb (exe_exists os viewer) then
        critical v "Error" ("Viewer executable not found:" ++ NL ++ viewer)
      else
        match popen os [viewer; path_str disk mesh] (parent_dir os viewer) with
        | inl proc =>
            update_viewer_count os
              (mkViewers (active_viewers v ++ [proc]) (lbl_viewers v)
                 (lbl_viewers_green v) (critical_boxes v) (killed v))
        | inr e => critical v "Error" ("Could not launch viewer: " ++ e)
        end
  end.

(** The viewers of a window that has just opened: none tracked, and the
    label as [setup_browser_tab] makes it, grey. *)
Definition initial_viewers : Viewers :=
  mkViewers [] "Viewers open: 0" false [] [].

(** What makes the window run one of these methods: a double click on a unit
    or the view button, the timer, the button that closes the viewers, the
    closing of the window; each with the answers of the system at that
    time, and the first with the viewer of the profile and the mesh path of
    the window. *)
Inductive Event : Type :=
| ViewClicked (os : OS) (disk : Disk) (viewer : string)
    (selected : option Path)
| TimerTimeout (os : OS)
| CloseAllClicked (os : OS)
| WindowClosed (os : OS).

Definition handle (v : Viewers) (e : Event) : Viewers :=
  match e with
  | ViewClicked os disk viewer selected =>
      launch_viewer os disk viewer selected v
  | TimerTimeout os => update_viewer_count os v
  | CloseAllClicked os => close_all_viewers os v
  | WindowClosed os => closeEvent os v
  end.

End UnitModelBrowser.

(** ** [ConfigManager]

    The manager keeps a dict [data] of str keys.  Some of its values are
    dicts themselves, and these are objects: [DEFAULTS.copy()] copies the
    outer dict only, so that [data] and the class attribute [DEFAULTS]
    share the two profile dicts.  The model keeps such dicts in a heap and
    [data] refers to them by their place; what is inside a profile dict is
    never shared and is kept as the JSON value it is. *)

Module ConfigManager.

(** What [json.load] returns and [json.dump] takes; a number is its
    literal. *)
#[warnings="-register-all"]
Inductive JSON : Type :=
| JNull
| JBool (b : bool)
| JNumber (literal : string)
| JString (s : string)
| JArray (elements : list JSON)
| JObject (items : list (string * JSON)).

(** A dict with str keys: its items in their order. *)
Definition dict (V : Type) : Type := list (string * V).

(** [d.get(key)] *)
Fixpoint dict_get {V : Type} (d : dict V) (key : string) : option V :=
  match d with
  | [] => None
  | (k, v) :: rest => if String.eqb k key then Some v else dict_get rest key
  end.

(** [d[key] = v]: a key that is there keeps its place. *)
Fixpoint dict_set {V : Type} (d : dict V) (key : string) (v : V) : dict V :=
  match d with
  | [] => [(key, v)]
  | (k, v') :: rest =>
      if String.eqb k key then (k, v) :: rest
      else (k, v') :: dict_set rest key v
  end.

(** [d.update(other)] for a dict [other] *)
Definition dict_update {V : Type} (d other : dict V) : dict V :=
  fold_left (fun d kv => dict_set d (fst kv) (snd kv)) other d.

(** A value of [data]: a dict object, or a str, a number, a bool, None or a
    list. *)
Inductive value : Type :=
| Ref (a : nat)
| Plain (j : JSON).

Definition Heap : Type := list (dict JSON).

Definition deref (h : Heap) (a : nat) : dict JSON := nth a h [].

Fixpoint heap_set (h : Heap) (a : nat) (d : dict JSON) : Heap :=
  match h, a with
  | [], _ => []
  | _ :: rest, O => d :: rest
  | x :: rest, S a => x :: heap_set rest a d
  end.

(** [obj[key] = j] for the dict object at [a] *)
Definition setitem (h : Heap) (a : nat) (key : string) (j : JSON) : Heap :=
  heap_set h a (dict_set (deref h a) key j).

Inductive error : Type := TypeError | AttributeError | KeyError.

Inductive outcome (A : Type) : Type :=
| Return (a : A)
| Raises (e : error).

Arguments Return {A} a.
Arguments Raises {A} e.

(** The file [config.json]: absent; there, but [open] or [json.load]
    raises; or there and [json.load] returns a dict with these items.  A
    file that holds another JSON value than an object is outside the
    model.  What [json.dump] writes, [json.load] reads back. *)
Inductive File : Type :=
| Absent
| Broken
| Holds (loaded : dict JSON).

(** The manager and what it acts on: the dict objects, the file, and
    whether the file can be opened for writing. *)
Record Self : Type := mkSelf {
  data : dict value;
  heap : Heap;
  config_json : File;
  writable : bool
}.

(** The two profile dicts of [DEFAULTS], at the places 0 and 1 of the heap
    as the class statement leaves it. *)
Definition SRU_PROFILE : dict JSON :=
  [("unit_file",
    JString "C:\Program Files (x86)\Steam\steamapps\common\Supreme Ruler Ultimate\Maps\DATA\default.unit");
   ("meshes_path",
    JString "C:\Program Files (x86)\Steam\steamapps\common\Supreme Ruler Ultimate\Graphics\Meshes");
   ("viewer_path", JString "mview.exe")].

Definition SR2030_PROFILE : dict JSON :=
  [("unit_file",
    JString "C:\Program Files (x86)\Steam\steamapps\common\Supreme Ruler 2030\Maps\DATA\default.unit");
   ("meshes_path",
    JString "C:\Program Files (x86)\Steam\steamapps\common\Supreme Ruler 2030\Graphics\Meshes");
   ("viewer_path", JString "DirectXTKModelViewer.exe")].

Definition DEFAULTS : dict value :=
  [("mode", Plain (JString "SR2030")); ("SRU", Ref 0); ("SR2030", Ref 1)].

Definition class_heap : Heap := [SRU_PROFILE; SR2030_PROFILE].

(** [json.dump(self.data, f, indent=4)]: the value that is written. *)
Definition json_of (h : Heap) (v : value) : JSON :=
  match v with
  | Ref a => JObject (deref h a)
  | Plain j => j
  end.

Definition json_dump (c : Self) : dict JSON :=
  map (fun kv => (fst kv, json_of (heap c) (snd kv))) (data c).

(** What [open] or [json.dump] raises is printed and dropped. *)
Definition save (c : Self) : Self :=
  if writable c then
    mkSelf (data c) (heap c) (Holds (json_dump c)) (writable c)
  else c.

(** [json.load] makes a dict object of each object of the file. *)
Definition object (h : Heap) (j : JSON) : Heap * value :=
  match j with
  | JObject items => ((h ++ [items])%list, Ref (List.length h))
  | _ => (h, Plain j)
  end.

Fixpoint json_load (h : Heap) (loaded : dict JSON) : Heap * dict value :=
  match loaded with
  | [] => (h, [])
  | (k, j) :: rest =>
      let '(h, v) := object h j in
      let '(h, rest) := json_load h rest in
      (h, (k, v) :: rest)
  end.

Definition load (c : Self) : Self :=
  match config_json c with
  | Absent => save c
  | Broken => c
  | Holds loaded =>
      let '(h, loaded) := json_load (heap c) loaded in
      mkSelf (dict_update (data c) loaded) h (config_json c) (writable c)
  end.

(** [DEFAULTS.copy()] is a dict with the items of [DEFAULTS]: the same
    profile dicts. *)
Definition __init__ (h : Heap) (file : File) (can_write : bool) : Self :=
  load (mkSelf DEFAULTS h file can_write).

(** [self.DEFAULTS["SR2030"]] is the dict at place 1; [DEFAULTS] itself is
    never written to. *)
Definition get_game_config (c : Self) (mode : string) : value :=
  match dict_get (data c) mode with
  | Some v => v
  | None => Ref 1
  end.

Definition update_game_config (c : Self)
  (mode unit_file meshes_path viewer_path : string) : outcome Self :=
  let c :=
    match dict_get (data c) mode with
    | Some _ => c
    | None =>
        mkSelf (dict_set (data c) mode (Ref (List.length (heap c))))
          (heap c ++ [[]])%list (config_json c) (writable c)
    end in
  match dict_get (data c) mode with
  | Some (Ref a) =>
      let h := setitem (heap c) a "unit_file" (JString unit_file) in
      let h := setitem h a "meshes_path" (JString meshes_path) in
      let h := setitem h a "viewer_path" (JString viewer_path) in
      Return (save (mkSelf (data c) h (config_json c) (writable c)))
  | Some (Plain _) => Raises TypeError
  | None => Raises KeyError
  end.

Definition set_mode (c : Self) (mode : string) : Self :=
  save
    (mkSelf (dict_set (data c) "mode" (Plain (JString mode))) (heap c)
       (config_json c) (writable c)).

(** [v.get(key, default)] for a value [v] of [data]: only a dict has the
    method. *)
Definition get (h : Heap) (v : value) (key : string) (default : JSON)
  : outcome JSON :=
  match v with
  | Ref a =>
      Return match dict_get (deref h a) key with
             | Some j => j
             | None => default
             end
  | Plain _ => Raises AttributeError
  end.

(** How the window reads a path of a profile:
    [self.config.get_game_config(mode).get(key, "")], in [load_data],
    [refresh_settings_ui], [on_selection_changed], [launch_viewer] and
    others. *)
Definition setting (c : Self) (mode key : string) : outcome JSON :=
  get (heap c) (get_game_config c mode) key (JString EmptyString).

End ConfigManager.

(** ** Notions that the statements use *)

(** [sub] occurs in [s], as a proposition. *)
Definition occurs (sub s : string) : Prop :=
  exists before after, s = before ++ sub ++ after.

(** The characters of a string. *)
Definition chars (s : string) : list ascii := list_ascii_of_string s.

Definition no_marker (rows : list (list string)) : Prop :=
  Forall (fun row => first_field_has_marker row = false) rows.

(** The test that [loop_body] puts on a row after the marker before it tries
    the conversions. *)
Definition passes_digit_check (row : list string) : bool :=
  (4 <=? List.length row)%nat &&
  negb (Py.startswith (Py.strip (nth 0 row EmptyString)) "//") &&
  Py.isdigit (Py.strip (nth 0 row EmptyString)).

Definition fails (m : res Z) : Prop := exists e, m = Raise e.

(** A required integer conversion of the row fails. *)
Definition conversion_fails (row : list string) : Prop :=
  fails (Py.int (nth 0 row EmptyString)) \/
  (Py.strip (nth 2 row EmptyString) <> EmptyString /\
   fails (Py.int (Py.strip (nth 2 row EmptyString)))) \/
  (Py.strip (nth 3 row EmptyString) <> EmptyString /\
   fails (Py.int (Py.strip (nth 3 row EmptyString)))).

(** A row that is not data: too short, a first field that is not digits, or
    a conversion that fails. *)
Definition malformed (row : list string) : Prop :=
  (List.length row < 4)%nat \/
  Py.isdigit (Py.strip (nth 0 row EmptyString)) = false \/
  conversion_fails row.

(** A row without the marker that the digit check turns away. *)
Definition ordinary_non_data (row : list string) : Prop :=
  first_field_has_marker row = false /\ passes_digit_check row = false.

(** [rows'] is [rows] with each marker row replaced by some ordinary row that
    is not data. *)
Definition markers_replaced (rows rows' : list (list string)) : Prop :=
  Forall2 (fun row row' =>
             if first_field_has_marker row then ordinary_non_data row'
             else row' = row)
    rows rows'.

(** The characters that an integer literal is made of. *)
Definition int_char (c : ascii) : bool :=
  Py.int_space c || Ascii.eqb c "+" || Ascii.eqb c "-" || Ascii.eqb c "_" ||
  Py.isdecimal c.

(** The locals after one turn of the loop, as a function. *)
Definition after_row (row : list string) (s : locals) : locals :=
  if first_field_has_marker row
  then {| start_parsing := true; units := units s |}
  else if start_parsing s && passes_digit_check row then
    match spec_extract row with
    | Some u =>
        {| start_parsing := start_parsing s; units := units s ++ [u] |}
    | None => s
    end
  else s.

(** A disk with one file. *)
Definition one_file (path : string) (lines : list string) : filesystem :=
  fun p => if String.eqb p path then Some (Readable lines) else None.

Definition line (s : string) : string := s ++ UnitModelBrowser.NL.

(** A unit passes the region filter for a code. *)
Definition region_matches (code : string) (u : SimpleUnit) : bool :=
  negb (UnitModelBrowser.region_skip (Some code) u).

Definition with_regions (r : string) : SimpleUnit :=
  mkSimpleUnit 1 "Unit" 7 3 "land" r.

(** Each entry of a region table with a code is found under its label, and
    its label is neither a separator nor the entry for all regions. *)
Definition entry_selectable (table : list (string * option string))
  (entry : string * option string) : bool :=
  match snd entry with
  | None => true
  | Some code =>
      negb (Py.startswith (fst entry)
              (UnitModelBrowser.BOX_DASH ++ UnitModelBrowser.BOX_DASH)) &&
      negb (String.eqb (fst entry) "All Regions") &&
      match UnitModelBrowser.table_code table (fst entry) with
      | Some code' => String.eqb code' code
      | None => false
      end
  end.

Fixpoint Path_eqb (p q : UnitModelBrowser.Path) : bool :=
  match p, q with
  | UnitModelBrowser.PathOf s, UnitModelBrowser.PathOf t => String.eqb s t
  | UnitModelBrowser.Join d n, UnitModelBrowser.Join e m =>
      Path_eqb d e && String.eqb n m
  | _, _ => false
  end.

Fixpoint render (p : UnitModelBrowser.Path) : string :=
  match p with
  | UnitModelBrowser.PathOf s => s
  | UnitModelBrowser.Join d n => render d ++ "/" ++ n
  end.

(** A disk on which the paths of a list exist, and no other. *)
Definition disk_with (paths : list UnitModelBrowser.Path)
  : UnitModelBrowser.Disk :=
  UnitModelBrowser.mkDisk (fun p => existsb (Path_eqb p) paths) render.

(** A window on three units, with filters set and a list shown. *)
Definition sample_units : list SimpleUnit :=
  [mkSimpleUnit 1 "Tank" 7 3 "land" "G";
   mkSimpleUnit 2 "Jet" 12 8 "air" "U";
   mkSimpleUnit 3 "Tank Mk2" 7 3 "land" "*"].

Definition sample_browser (mode picnum_text : string)
  : UnitModelBrowser.Browser :=
  UnitModelBrowser.mkBrowser mode (fun _ => "Meshes") sample_units
    "jet" "Air" "Name A-Z" "U (USA)" picnum_text
    [UnitModelBrowser.mkItem "[2] Jet" (mkSimpleUnit 2 "Jet" 12 8 "air" "U")
       false]
    "1 units loaded" EmptyString EmptyString EmptyString false None [] [].

(** The item that [search_by_picnum] makes of a unit. *)
Definition picnum_item (u : SimpleUnit) : UnitModelBrowser.Item :=
  UnitModelBrowser.mkItem
    ("[" ++ Py.str (id u) ++ "] " ++ name u ++ " (class: " ++
     Py.str (unit_class u) ++ ")") u true.

(** What the window shows of a mesh: the status, the file name, whether the
    view button is enabled, and the path kept for the viewer. *)
Definition mesh_view (b : UnitModelBrowser.Browser)
  : string * string * bool * option UnitModelBrowser.Path :=
  (UnitModelBrowser.status_mesh b, UnitModelBrowser.lbl_mesh_file b,
   UnitModelBrowser.btn_view b, UnitModelBrowser.selected_mesh_path b).

(** A picnum formats to three decimal digits that read back as the
    picnum. *)
Definition three_digits (n : Z) : bool :=
  (String.length (Py.format_03d n) =? 3)%nat &&
  Py.forallb_str Py.isdecimal (Py.format_03d n) &&
  match Py.int (Py.format_03d n) with
  | Ok m => m =? n
  | Raise _ => false
  end.

(** The three texts of the mesh status. *)
Definition MESH_FOUND : string := UnitModelBrowser.CHECK_MARK ++ " MESH FOUND".
Definition ALT_FORMAT_FOUND : string :=
  UnitModelBrowser.WARNING_SIGN ++ " ALT FORMAT FOUND".
Definition MESH_MISSING : string :=
  UnitModelBrowser.CROSS_MARK ++ " MESH MISSING".

(** A character that stands for itself in a line of the file: no comma, no
    double quote, no line feed and no carriage return. *)
Definition plain_char (c : ascii) : bool :=
  negb (Ascii.eqb c Csv.delimiter) && negb (Ascii.eqb c Csv.quotechar) &&
  negb (Csv.is_newline c).

(** A field of such characters, within the limit of the reader. *)
Definition plain_field (f : string) : bool :=
  Py.forallb_str plain_char f &&
  (N.of_nat (String.length f) <=? Csv.field_limit)%N.

(** Fields that a line of text can stand for: plain, one at least, and not
    the empty field alone, whose line is blank. *)
Definition plain_row (fields : list string) : Prop :=
  Forall (fun f => plain_field f = true) fields /\
  fields <> [] /\ fields <> [EmptyString].

(** The fields joined by commas, with the line feed that [readlines]
    keeps. *)
Definition csv_line (fields : list string) : string :=
  String.concat "," fields ++ UnitModelBrowser.NL.

(** A reader at the start of a record or of a field, nothing read of the
    field. *)
Definition at_field_start (r : Csv.Reader) : Prop :=
  Csv.field r = EmptyString /\
  (Csv.state r = Csv.START_FIELD \/
   (Csv.state r = Csv.START_RECORD /\ Csv.fields r = [])).

(** The key that a sort order compares, as a pair: a number, then a
    text. *)
Definition sort_key (sort_mode : string) (u : SimpleUnit) : Z * string :=
  if String.eqb sort_mode ("ID " ++ UnitModelBrowser.ARROW_UP) ||
     String.eqb sort_mode ("ID " ++ UnitModelBrowser.ARROW_DOWN)
  then (id u, EmptyString)
  else if String.eqb sort_mode "Name A-Z" || String.eqb sort_mode "Name Z-A"
  then (0, Py.lower (name u))
  else if String.eqb sort_mode "Class"
  then (unit_class u, Py.lower (name u))
  else if String.eqb sort_mode "Picnum" then (picnum u, EmptyString)
  else (0, EmptyString).

(** The units behind the items of the list. *)
Definition shown (b : UnitModelBrowser.Browser) : list SimpleUnit :=
  map UnitModelBrowser.data (UnitModelBrowser.unit_list b).

(** The settings of the window that showing a list leaves alone. *)
Definition settings (b : UnitModelBrowser.Browser)
  : string * list SimpleUnit * string * string * string * string :=
  (UnitModelBrowser.current_mode b, UnitModelBrowser.units b,
   UnitModelBrowser.search_input b, UnitModelBrowser.cat_combo b,
   UnitModelBrowser.sort_combo b, UnitModelBrowser.picnum_input b).

Definition is_upper (c : ascii) : bool :=
  (65 <=? Py.code c)%N && (Py.code c <=? 90)%N.

(** The names that [check_textures] looks for: the base or the base and one
    capital letter, with one of two extensions. *)
Definition texture_candidate (base name : string) : Prop :=
  exists ext,
    (ext = ".dds" \/ ext = ".png") /\
    (name = base ++ ext \/
     exists c, is_upper c = true /\ name = base ++ String c ext).

(** No text of a list occurs twice in it. *)
Fixpoint distinctb (l : list string) : bool :=
  match l with
  | [] => true
  | x :: rest => negb (existsb (String.eqb x) rest) && distinctb rest
  end.

(** What the window shows of the viewers that it tracks. *)
Definition viewers_label (n : nat) : string :=
  "Viewers open: " ++ Py.str (Z.of_nat n).

(** The process that an event makes [Popen] return, if it does. *)
Definition started (e : UnitModelBrowser.Event) : list nat :=
  match e with
  | UnitModelBrowser.ViewClicked os disk viewer (Some mesh) =>
      if UnitModelBrowser.exe_exists os viewer then
        match
          UnitModelBrowser.popen os
            [viewer; UnitModelBrowser.path_str disk mesh]
            (UnitModelBrowser.parent_dir os viewer)
        with
        | inl proc => [proc]
        | inr _ => []
        end
      else []
  | _ => []
  end.

(** The viewers of a window after the events, the earliest first. *)
Definition after_events (events : list UnitModelBrowser.Event)
  : UnitModelBrowser.Viewers :=
  fold_left UnitModelBrowser.handle events UnitModelBrowser.initial_viewers.

(** What every event keeps: the label counts the tracked viewers, and the
    tracked and the killed ones are among the processes [from]. *)
Definition viewers_kept (v : UnitModelBrowser.Viewers) (from : list nat)
  : Prop :=
  UnitModelBrowser.lbl_viewers v =
  viewers_label (List.length (UnitModelBrowser.active_viewers v)) /\
  (UnitModelBrowser.lbl_viewers_green v = true <->
   UnitModelBrowser.active_viewers v <> []) /\
  (forall p, In p (UnitModelBrowser.active_viewers v) -> In p from) /\
  (forall p, In p (UnitModelBrowser.killed v) -> In p from).

(** The manager of a program that starts with the file [file]. *)
Definition start (file : ConfigManager.File) (can_write : bool)
  : ConfigManager.Self :=
  ConfigManager.__init__ ConfigManager.class_heap file can_write.

(** The calls that the window makes on its manager. *)
Inductive Call : Type :=
| UpdateGameConfig (mode unit_file meshes_path viewer_path : string)
| SetMode (mode : string).

Definition call (c : ConfigManager.Self) (x : Call)
  : ConfigManager.outcome ConfigManager.Self :=
  match x with
  | UpdateGameConfig mode unit_file meshes_path viewer_path =>
      ConfigManager.update_game_config c mode unit_file meshes_path
        viewer_path
  | SetMode mode => ConfigManager.Return (ConfigManager.set_mode c mode)
  end.

(** The calls one after the other, up to the first that raises. *)
Fixpoint calls (c : ConfigManager.Self) (l : list Call)
  : ConfigManager.outcome ConfigManager.Self :=
  match l with
  | [] => ConfigManager.Return c
  | x :: rest =>
      match call c x with
      | ConfigManager.Return c => calls c rest
      | ConfigManager.Raises e => ConfigManager.Raises e
      end
  end.

(** What the manager holds under a key, with the dicts written out. *)
Definition view (c : ConfigManager.Self) (key : string)
  : option ConfigManager.JSON :=
  ConfigManager.dict_get (ConfigManager.json_dump c) key.

(** The file has an item for the key. *)
Definition has_key (file : ConfigManager.File) (key : string) : bool :=
  match file with
  | ConfigManager.Holds loaded => existsb (String.eqb key) (map fst loaded)
  | _ => false
  end.

(** What [key] reads as in a dict: the text of [d.get(key, "")]. *)
Definition read (d : ConfigManager.dict ConfigManager.JSON) (key : string)
  : ConfigManager.JSON :=
  match ConfigManager.dict_get d key with
  | Some j => j
  | None => ConfigManager.JString EmptyString
  end.

(** One item of the file taken into the manager: the two steps of [load],
    [json.load] and [update], for this item. *)
Definition load_item (c : ConfigManager.Self)
  (kv : string * ConfigManager.JSON) : ConfigManager.Self :=
  let '(h, v) := ConfigManager.object (ConfigManager.heap c) (snd kv) in
  ConfigManager.mkSelf
    (ConfigManager.dict_set (ConfigManager.data c) (fst kv) v) h
    (ConfigManager.config_json c) (ConfigManager.writable c).

(** What holds of every manager that the program reaches: the dicts that
    [data] refers to exist, no two keys refer to the same dict, the two
    profile dicts of [DEFAULTS] are referred to under their own keys only,
    the keys of [DEFAULTS] are there, and no key is there twice. *)
Record sound (c : ConfigManager.Self) : Prop := mkSound {
  refs_valid :
    forall k a,
      ConfigManager.dict_get (ConfigManager.data c) k =
      Some (ConfigManager.Ref a) ->
      (a < List.length (ConfigManager.heap c))%nat;
  refs_apart :
    forall k k' a,
      ConfigManager.dict_get (ConfigManager.data c) k =
      Some (ConfigManager.Ref a) ->
      ConfigManager.dict_get (ConfigManager.data c) k' =
      Some (ConfigManager.Ref a) ->
      k = k';
  default_refs :
    forall k a,
      ConfigManager.dict_get (ConfigManager.data c) k =
      Some (ConfigManager.Ref a) ->
      (a < 2)%nat ->
      ConfigManager.dict_get ConfigManager.DEFAULTS k =
      Some (ConfigManager.Ref a);
  defaults_exist : (2 <= List.length (ConfigManager.heap c))%nat;
  defaults_kept :
    forall k,
      ConfigManager.dict_get ConfigManager.DEFAULTS k <> None ->
      ConfigManager.dict_get (ConfigManager.data c) k <> None;
  keys_once : NoDup (map fst (ConfigManager.data c));
  plain_values :
    forall k items,
      ConfigManager.dict_get (ConfigManager.data c) k <>
      Some (ConfigManager.Plain (ConfigManager.JObject items))
}.

(** The file holds what the manager holds, when it can be written. *)
Definition saved (c : ConfigManager.Self) : Prop :=
  ConfigManager.writable c = true ->
  ConfigManager.config_json c = ConfigManager.Holds (ConfigManager.json_dump c).

(** The manager after the first step of [update_game_config], which gives
    a mode that has no item an empty dict of its own. *)
Definition with_profile (c : ConfigManager.Self) (mode : string)
  : ConfigManager.Self :=
  match ConfigManager.dict_get (ConfigManager.data c) mode with
  | Some _ => c
  | None =>
      ConfigManager.mkSelf
        (ConfigManager.dict_set (ConfigManager.data c) mode
           (ConfigManager.Ref (List.length (ConfigManager.heap c))))
        (ConfigManager.heap c ++ [[]])%list (ConfigManager.config_json c)
        (ConfigManager.writable c)
  end.

(** The three paths written into the dict at [a]. *)
Definition with_paths (h : ConfigManager.Heap) (a : nat)
  (unit_file meshes_path viewer_path : string) : ConfigManager.Heap :=
  ConfigManager.setitem
    (ConfigManager.setitem
       (ConfigManager.setitem h a "unit_file"
          (ConfigManager.JString unit_file))
       a "meshes_path" (ConfigManager.JString meshes_path))
    a "viewer_path" (ConfigManager.JString viewer_path).

(** The profile dict of [DEFAULTS] for SR2030 is out of the reach of
    [data] and as the class statement made it. *)
Definition default_apart (c : ConfigManager.Self) : Prop :=
  (forall k,
     ConfigManager.dict_get (ConfigManager.data c) k <>
     Some (ConfigManager.Ref 1)) /\
  ConfigManager.deref (ConfigManager.heap c) 1 = ConfigManager.SR2030_PROFILE.

(** * Properties *)

(** ** Strings *)

Section StringFacts.

Lemma append_nil_r (s : string) : s ++ EmptyString = s.
Proof. induction s as [|c s IH]; simpl; [reflexivity | now rewrite IH]. Qed.

Lemma append_assoc (a b c : string) : (a ++ b) ++ c = a ++ b ++ c.
Proof. induction a as [|x a IH]; simpl; [reflexivity | now rewrite IH]. Qed.

Lemma append_inv_head (a b c : string) : a ++ b = a ++ c -> b = c.
Proof.
  induction a as [|x a IH]; simpl; intros H; [exact H |].
  injection H as H. auto.
Qed.

Lemma chars_app (a b : string) : chars (a ++ b) = (chars a ++ chars b)%list.
Proof.
  induction a as [|x a IH]; simpl; [reflexivity |].
  unfold chars in *. simpl. now rewrite IH.
Qed.

Lemma forallb_str_chars (p : ascii -> bool) (s : string) :
  Py.forallb_str p s = true <-> (forall c, In c (chars s) -> p c = true).
Proof.
  unfold chars. induction s as [|x s IH]; simpl.
  - split; [intros _ c [] | reflexivity].
  - rewrite andb_true_iff, IH. split.
    + intros [Hx Hs] c [<- | Hc]; auto.
    + intros H. split; [apply H; now left | intros c Hc; apply H; now right].
Qed.

Lemma startswith_iff (s p : string) :
  Py.startswith s p = true <-> exists r, s = p ++ r.
Proof.
  revert s. induction p as [|a p IH]; intros s; simpl.
  - split; [intros _; now exists s | intros _; now destruct s].
  - destruct s as [|b s].
    + split; [discriminate | intros [r Hr]; discriminate].
    + simpl. rewrite andb_true_iff, Ascii.eqb_eq, IH. split.
      * intros [-> [r ->]]. now exists r.
      * intros [r Hr]. injection Hr as -> ->.
        split; [reflexivity | now exists r].
Qed.

Lemma str_in_iff (sub s : string) : Py.str_in sub s = true <-> occurs sub s.
Proof.
  unfold occurs. induction s as [|c s IH].
  - change (Py.str_in sub EmptyString)
      with (Py.startswith EmptyString sub || false).
    rewrite orb_false_r, startswith_iff. split.
    + intros [r Hr]. exists EmptyString, r. exact Hr.
    + intros (a & b & H). destruct a; [| discriminate].
      simpl in H. now exists b.
  - change (Py.str_in sub (String c s))
      with (Py.startswith (String c s) sub || Py.str_in sub s).
    rewrite orb_true_iff, startswith_iff, IH. split.
    + intros [[r Hr] | (a & b & H)].
      * exists EmptyString, r. exact Hr.
      * exists (String c a), b. simpl. now rewrite H.
    + intros (a & b & H). destruct a as [|x a]; simpl in H.
      * left. now exists b.
      * right. injection H as _ H. now exists a, b.
Qed.

Lemma occurs_chars (c : ascii) (sub s : string) :
  occurs (String c sub) s -> In c (chars s).
Proof.
  intros (a & b & ->). rewrite chars_app. apply in_or_app. right.
  unfold chars. simpl. now left.
Qed.

Lemma lskip_split (p : ascii -> bool) (s : string) :
  exists w, s = w ++ Py.lskip p s /\ Py.forallb_str p w = true.
Proof.
  induction s as [|c s (w & Hw & Hp)]; simpl.
  - now exists EmptyString.
  - destruct (p c) eqn:Hc.
    + exists (String c w). simpl. rewrite Hc, Hp. now rewrite <- Hw.
    + now exists EmptyString.
Qed.

Lemma lskip_head (p : ascii -> bool) (s : string) (c : ascii) (r : string) :
  Py.lskip p s = String c r -> p c = false.
Proof.
  induction s as [|x s IH]; simpl; [discriminate |].
  destruct (p x) eqn:Hx; [exact IH |].
  intros H. injection H as <- _. exact Hx.
Qed.

Lemma lskip_fixed (p : ascii -> bool) (s : string) :
  match s with String c _ => p c = false | EmptyString => True end ->
  Py.lskip p s = s.
Proof. destruct s as [|c s]; simpl; [reflexivity | now intros ->]. Qed.

Lemma rskip_split (p : ascii -> bool) (s : string) :
  exists w, s = Py.rskip p s ++ w /\ Py.forallb_str p w = true.
Proof.
  induction s as [|c s (w & Hw & Hp)]; simpl.
  - now exists EmptyString.
  - destruct (Py.rskip p s) as [|d r] eqn:Hr.
    + simpl in Hw. subst w. destruct (p c) eqn:Hc.
      * exists (String c s). simpl. now rewrite Hc, Hp.
      * exists s. now split.
    + exists w. split; [| exact Hp]. simpl. f_equal. exact Hw.
Qed.

Lemma rskip_head (p : ascii -> bool) (c : ascii) (s : string) :
  Py.rskip p (String c s) = EmptyString \/
  exists r, Py.rskip p (String c s) = String c r.
Proof.
  simpl. destruct (Py.rskip p s).
  - destruct (p c); [now left | right; now eexists].
  - right. now eexists.
Qed.

Lemma rskip_idem (p : ascii -> bool) (s : string) :
  Py.rskip p (Py.rskip p s) = Py.rskip p s.
Proof.
  induction s as [|c s IH]; simpl; [reflexivity |].
  destruct (Py.rskip p s) as [|d r] eqn:Hr.
  - destruct (p c) eqn:Hc; simpl; [reflexivity | now rewrite Hc].
  - change (Py.rskip p (String c (String d r)))
      with (match Py.rskip p (String d r) with
            | EmptyString => if p c then EmptyString else String c EmptyString
            | r' => String c r'
            end).
    now rewrite IH.
Qed.

Lemma strip_split (s : string) :
  exists w1 w2,
    s = w1 ++ Py.strip s ++ w2 /\
    Py.forallb_str Py.isspace w1 = true /\
    Py.forallb_str Py.isspace w2 = true.
Proof.
  destruct (lskip_split Py.isspace s) as (w1 & H1 & P1).
  destruct (rskip_split Py.isspace (Py.lskip Py.isspace s)) as (w2 & H2 & P2).
  exists w1, w2. unfold Py.strip. now rewrite <- H2, <- H1.
Qed.

Lemma strip_head (s : string) (c : ascii) (r : string) :
  Py.strip s = String c r -> Py.isspace c = false.
Proof.
  unfold Py.strip. destruct (Py.lskip Py.isspace s) as [|x t] eqn:Hl.
  - discriminate.
  - destruct (rskip_head Py.isspace x t) as [-> | [r' ->]]; [discriminate |].
    intros H. injection H as <- _. exact (lskip_head _ _ _ _ Hl).
Qed.

Lemma strip_idem (s : string) : Py.strip (Py.strip s) = Py.strip s.
Proof.
  unfold Py.strip at 1. rewrite lskip_fixed.
  - unfold Py.strip. apply rskip_idem.
  - destruct (Py.strip s) eqn:H; [exact I | exact (strip_head _ _ _ H)].
Qed.

Lemma strip_chars (s : string) (c : ascii) :
  In c (chars (Py.strip s)) -> In c (chars s).
Proof.
  destruct (strip_split s) as (w1 & w2 & H & _). intros Hc.
  rewrite H, !chars_app. apply in_or_app. right. apply in_or_app. now left.
Qed.

Lemma strip_keeps (s : string) (c : ascii) :
  In c (chars s) -> Py.isspace c = false -> In c (chars (Py.strip s)).
Proof.
  destruct (strip_split s) as (w1 & w2 & H & P1 & P2). intros Hc Hs.
  rewrite H, !chars_app in Hc.
  rewrite forallb_str_chars in P1, P2.
  apply in_app_or in Hc. destruct Hc as [Hc | Hc].
  - apply P1 in Hc. congruence.
  - apply in_app_or in Hc. destruct Hc as [Hc | Hc]; [exact Hc |].
    apply P2 in Hc. congruence.
Qed.

End StringFacts.

(** ** Integer literals *)

Section IntFacts.

Lemma int_raises (s : string) (e : exn) : Py.int s = Raise e -> e = ValueError.
Proof.
  unfold Py.int. destruct (Py.split_sign _) as [negative digits].
  destruct (negb _); [congruence |].
  destruct (Py.scan_digits _ _ _) as [[[v n] rest]|]; [| congruence].
  destruct (Py.nonempty _); [congruence |].
  destruct (_ <? _)%nat; congruence.
Qed.

Lemma digit_value_nonneg (c : ascii) :
  Py.isdecimal c = true -> 0 <= Py.digit_value c.
Proof.
  unfold Py.isdecimal, Py.digit_value. rewrite andb_true_iff, !N.leb_le. lia.
Qed.

Lemma scan_digits_nonneg (s : string) :
  forall acc n v m rest,
    0 <= acc -> Py.scan_digits s acc n = Some (v, m, rest) -> 0 <= v.
Proof.
  induction s as [|c r IH]; intros acc n v m rest Hacc;
    cbn [Py.scan_digits].
  - intros H. injection H as <- _ _. exact Hacc.
  - destruct (Py.isdecimal c) eqn:Hc.
    + apply IH. pose proof (digit_value_nonneg c Hc). lia.
    + destruct (Ascii.eqb c "_").
      * destruct r as [|d r']; [discriminate |].
        destruct (Py.isdecimal d); [now apply IH | discriminate].
      * intros H. injection H as <- _ _. exact Hacc.
Qed.

Lemma scan_digits_split (s : string) :
  forall acc n v m rest,
    Py.scan_digits s acc n = Some (v, m, rest) ->
    exists ds, s = ds ++ rest /\ Py.forallb_str int_char ds = true.
Proof.
  induction s as [|c r IH]; intros acc n v m rest; cbn [Py.scan_digits].
  - intros H. injection H as _ _ <-. now exists EmptyString.
  - destruct (Py.isdecimal c) eqn:Hc.
    + intros H. apply IH in H as (ds & -> & Hds).
      exists (String c ds). split; [reflexivity |].
      simpl. rewrite Hds. unfold int_char. rewrite Hc.
      now rewrite !orb_true_r.
    + destruct (Ascii.eqb c "_") eqn:Hu.
      * destruct r as [|d r']; [discriminate |].
        destruct (Py.isdecimal d); [| discriminate].
        intros H. apply IH in H as (ds & -> & Hds).
        exists (String c ds). split; [reflexivity |].
        simpl. rewrite Hds. unfold int_char. rewrite Hu.
        now rewrite !orb_true_r.
      * intros H. injection H as _ _ <-. now exists EmptyString.
Qed.

Lemma lskip_empty (p : ascii -> bool) (s : string) :
  Py.nonempty (Py.lskip p s) = false -> Py.forallb_str p s = true.
Proof.
  destruct (lskip_split p s) as (w & Hw & Hp).
  destruct (Py.lskip p s); [| discriminate].
  intros _. rewrite append_nil_r in Hw. now subst.
Qed.

Lemma int_space_char (c : ascii) : Py.int_space c = true -> int_char c = true.
Proof. unfold int_char. now intros ->. Qed.

Lemma forallb_str_impl (p q : ascii -> bool) (s : string) :
  (forall c, p c = true -> q c = true) ->
  Py.forallb_str p s = true -> Py.forallb_str q s = true.
Proof.
  intros Hpq. rewrite !forallb_str_chars. intros H c Hc. auto.
Qed.

Lemma split_sign_chars (s : string) (negative : bool) (digits : string) :
  Py.split_sign s = (negative, digits) ->
  Py.forallb_str int_char digits = true -> Py.forallb_str int_char s = true.
Proof.
  destruct s as [|c r]; simpl.
  - intros H. now injection H as _ <-.
  - destruct (Ascii.eqb c "+") eqn:Hp.
    + intros H. injection H as _ <-. intros ->.
      unfold int_char. rewrite Hp. now rewrite !orb_true_r.
    + destruct (Ascii.eqb c "-") eqn:Hm.
      * intros H. injection H as _ <-. intros ->.
        unfold int_char. rewrite Hm. now rewrite !orb_true_r.
      * intros H. now injection H as _ <-.
Qed.

(** Every character of a text that [int] accepts belongs to an integer
    literal. *)
Lemma int_ok_chars (s : string) (v : Z) :
  Py.int s = Ok v -> Py.forallb_str int_char s = true.
Proof.
  unfold Py.int.
  destruct (lskip_split Py.int_space s) as (w & Hw & Hp).
  destruct (Py.split_sign _) as [negative digits] eqn:Hsign.
  destruct (negb _); [discriminate |].
  destruct (Py.scan_digits _ _ _) as [[[v' n] rest]|] eqn:Hscan;
    [| discriminate].
  destruct (Py.nonempty _) eqn:Hrest; [discriminate |].
  intros _. apply scan_digits_split in Hscan as (ds & Hds & Pds).
  apply lskip_empty in Hrest.
  assert (Hdigits : Py.forallb_str int_char digits = true).
  { rewrite forallb_str_chars. intros c. rewrite Hds, chars_app.
    intros Hc. apply in_app_or in Hc as [Hc | Hc].
    - now apply (proj1 (forallb_str_chars _ _) Pds).
    - apply int_space_char. now apply (proj1 (forallb_str_chars _ _) Hrest). }
  apply (split_sign_chars _ _ _ Hsign) in Hdigits.
  rewrite forallb_str_chars. intros c. rewrite Hw, chars_app.
  intros Hc. apply in_app_or in Hc as [Hc | Hc].
  - apply int_space_char. now apply (proj1 (forallb_str_chars _ _) Hp).
  - now apply (proj1 (forallb_str_chars _ _) Hdigits).
Qed.

(** A negative result comes from a minus sign after the leading white
    space. *)
Lemma int_negative (s : string) (v : Z) :
  Py.int s = Ok v -> v < 0 ->
  Py.startswith (Py.lskip Py.int_space s) "-" = true.
Proof.
  unfold Py.int.
  destruct (Py.split_sign _) as [negative digits] eqn:Hsign.
  destruct (negb _); [discriminate |].
  destruct (Py.scan_digits _ _ _) as [[[v' n] rest]|] eqn:Hscan;
    [| discriminate].
  destruct (Py.nonempty _); [discriminate |].
  destruct (_ <? _)%nat; [discriminate |].
  apply scan_digits_nonneg in Hscan; [| lia].
  intros H Hv. injection H as <-.
  destruct negative; [| lia].
  destruct (Py.lskip Py.int_space s) as [|c r]; simpl in Hsign;
    [discriminate |].
  destruct (Ascii.eqb c "+"); [discriminate |].
  destruct (Ascii.eqb c "-") eqn:Hm; [| discriminate].
  apply Ascii.eqb_eq in Hm. subst c. now destruct r.
Qed.



(** A superscript digit passes [str.isdigit] and is no part of an integer
    literal. *)
Lemma isdigit_int_char (c : ascii) :
  Py.isdigit_char c = true -> int_char c = true -> Py.isdecimal c = true.
Proof.
  destruct c as [[] [] [] [] [] [] [] []]; vm_compute; congruence.
Qed.

Lemma isdecimal_isdigit (c : ascii) :
  Py.isdecimal c = true -> Py.isdigit_char c = true.
Proof. unfold Py.isdigit_char. now intros ->. Qed.

End IntFacts.

(** ** The loop of the parser *)

Section ParserFacts.

Lemma getitem_nth {A : Type} (l : list A) (i : nat) (d : A) :
  (i < List.length l)%nat -> Py.getitem l i = Ok (nth i l d).
Proof.
  intros H. unfold Py.getitem.
  destruct (nth_error l i) as [a|] eqn:E.
  - now rewrite (nth_error_nth _ _ d E).
  - apply nth_error_None in E. lia.
Qed.

Lemma int_integer_of (field : string) :
  Py.int field = match integer_of field with
                 | Some n => Ok n
                 | None => Raise ValueError
                 end.
Proof.
  unfold integer_of. destruct (Py.int field) eqn:E; [reflexivity |].
  now rewrite (int_raises _ _ E).
Qed.

Lemma int_integer_or_zero (field : string) :
  (if Py.nonempty (Py.strip field) then Py.int (Py.strip field) else Ok 0) =
  match integer_or_zero field with
  | Some n => Ok n
  | None => Raise ValueError
  end.
Proof.
  unfold integer_or_zero.
  destruct (Py.nonempty _); [apply int_integer_of | reflexivity].
Qed.

Lemma nth_beyond_strip (row : list string) (i : nat) :
  (List.length row <= i)%nat -> Py.strip (nth i row EmptyString) = EmptyString.
Proof. intros H. now rewrite nth_overflow. Qed.

(** The inner [try] computes the record that the specification extracts, and
    raises [ValueError] when there is none. *)
Lemma try_block_spec (row : list string) :
  (4 <= List.length row)%nat ->
  try_block row = match spec_extract row with
                  | Some u => Ok u
                  | None => Raise ValueError
                  end.
Proof.
  intros Hlen. unfold try_block, spec_extract.
  rewrite !(getitem_nth row _ EmptyString) by lia. cbn [bind].
  rewrite int_integer_of.
  destruct (integer_of _) as [i|]; [cbn [bind] | reflexivity].
  rewrite int_integer_or_zero.
  destruct (integer_or_zero (nth 2 _ _)) as [c|];
    [cbn [bind] | reflexivity].
  rewrite int_integer_or_zero.
  destruct (integer_or_zero (nth 3 _ _)) as [p|];
    [cbn [bind] | reflexivity].
  destruct (12 <? List.length row)%nat eqn:H12.
  - apply Nat.ltb_lt in H12.
    now rewrite (getitem_nth row 12 EmptyString) by lia.
  - apply Nat.ltb_ge in H12. cbn [bind].
    now rewrite (nth_beyond_strip row 12) by lia.
Qed.

(** One turn of the loop never raises. *)
Lemma loop_body_eq (row : list string) (s : locals) :
  loop_body row s = Ok (after_row row s).
Proof.
  unfold after_row, passes_digit_check.
  destruct row as [|f0 rest].
  - cbn. now rewrite andb_false_r.
  - set (row := f0 :: rest).
    assert (Hpos : (0 <? List.length row)%nat = true) by reflexivity.
    assert (Hf0 : Py.getitem row 0 = Ok f0) by reflexivity.
    assert (Hn0 : nth 0 row EmptyString = f0) by reflexivity.
    unfold loop_body. fold row. rewrite Hpos, Hf0, Hn0. cbn [bind].
    change (first_field_has_marker row) with (Py.str_in MARKER f0).
    destruct (Py.str_in MARKER f0); [reflexivity |].
    destruct (start_parsing s); cbn [negb andb]; [| reflexivity].
    destruct (Nat.ltb_spec (List.length row) 4) as [Hshort | Hlong].
    + replace (4 <=? List.length row)%nat with false
        by (symmetry; apply Nat.leb_gt; lia).
      reflexivity.
    + replace (4 <=? List.length row)%nat with true
        by (symmetry; apply Nat.leb_le; lia).
      cbn [andb].
      destruct (Py.startswith _ _); cbn [orb negb andb]; [reflexivity |].
      destruct (Py.isdigit _); cbn [negb]; [| reflexivity].
      rewrite try_block_spec by lia.
      now destruct (spec_extract _).
Qed.

Lemma for_rows_eq (rows : list (list string)) (stop : option exn) :
  forall s,
    for_rows rows stop s = (fold_left (fun s row => after_row row s) rows s,
                            stop).
Proof.
  induction rows as [|row rest IH]; intros s; cbn [for_rows fold_left].
  - reflexivity.
  - rewrite loop_body_eq. apply IH.
Qed.

Lemma after_row_started (row : list string) (s : locals) :
  start_parsing s = true -> start_parsing (after_row row s) = true.
Proof.
  intros H. unfold after_row.
  destruct (first_field_has_marker row); [reflexivity |].
  destruct (_ && _); [| exact H].
  now destruct (spec_extract row).
Qed.

Lemma after_row_no_marker (row : list string) (s : locals) :
  first_field_has_marker row = false -> start_parsing s = false ->
  after_row row s = s.
Proof. intros Hm Hs. unfold after_row. now rewrite Hm, Hs. Qed.

Lemma fold_no_marker (rows : list (list string)) (s : locals) :
  no_marker rows -> start_parsing s = false ->
  fold_left (fun s row => after_row row s) rows s = s.
Proof.
  intros H Hs. induction H as [|row rest Hrow _ IH]; cbn [fold_left].
  - reflexivity.
  - now rewrite after_row_no_marker.
Qed.

(** Where the records of the loop come from. *)
Lemma fold_provenance (rows : list (list string)) :
  forall s u,
    In u (units (fold_left (fun s row => after_row row s) rows s)) ->
    In u (units s) \/
    exists row, In row rows /\ passes_digit_check row = true /\
                spec_extract row = Some u.
Proof.
  induction rows as [|row rest IH]; intros s u; cbn [fold_left].
  - now left.
  - intros H. apply IH in H as [H | (r & Hr & Hc & He)].
    + unfold after_row in H.
      destruct (first_field_has_marker row); [now left |].
      destruct (start_parsing s); cbn [andb] in H; [| now left].
      destruct (passes_digit_check row) eqn:Hc; [| now left].
      destruct (spec_extract row) as [u'|] eqn:He; [| now left].
      cbn [units] in H. apply in_app_or in H as [H | [<- | []]].
      * now left.
      * right. exists row. split; [now left | now split].
    + right. exists r. split; [now right | now split].
Qed.

End ParserFacts.

(** ** The parser on a file *)

Section ParseFacts.

Lemma parse_rows_eq (rows : list (list string)) :
  parse_rows rows =
  units (fold_left (fun s row => after_row row s) rows initial_locals).
Proof. unfold parse_rows. now rewrite for_rows_eq. Qed.

Lemma parse_units_robust_readable (fs : filesystem) (filepath : string)
  (lines : list string) :
  fs filepath = Some (Readable lines) ->
  parse_units_robust fs filepath = Ok (parse_rows (fst (Csv.reader lines))).
Proof.
  intros H. unfold parse_units_robust, os_path_exists, open_readlines.
  rewrite H. cbn [negb]. destruct (Csv.reader lines) as [rows stop].
  rewrite parse_rows_eq, for_rows_eq. reflexivity.
Qed.

Lemma parse_units_robust_other (fs : filesystem) (filepath : string) :
  (forall lines, fs filepath <> Some (Readable lines)) ->
  parse_units_robust fs filepath = Ok [].
Proof.
  intros H. unfold parse_units_robust, os_path_exists, open_readlines.
  destruct (fs filepath) as [[lines|]|]; try reflexivity.
  now destruct (H lines).
Qed.

Lemma parse_units_robust_cases (fs : filesystem) (filepath : string) :
  parse_units_robust fs filepath = Ok [] \/
  exists lines,
    fs filepath = Some (Readable lines) /\
    parse_units_robust fs filepath = Ok (parse_rows (fst (Csv.reader lines))).
Proof.
  destruct (fs filepath) as [[lines|]|] eqn:E.
  - right. exists lines. split; [reflexivity |].
    now apply parse_units_robust_readable.
  - left. apply parse_units_robust_other. congruence.
  - left. apply parse_units_robust_other. congruence.
Qed.

(** Every record of the result was extracted from a row of the file that
    passed the digit check. *)
Lemma parse_provenance (fs : filesystem) (filepath : string)
  (us : list SimpleUnit) (u : SimpleUnit) :
  parse_units_robust fs filepath = Ok us -> In u us ->
  exists lines row,
    fs filepath = Some (Readable lines) /\
    In row (fst (Csv.reader lines)) /\
    passes_digit_check row = true /\ spec_extract row = Some u.
Proof.
  intros Hparse Hu.
  destruct (parse_units_robust_cases fs filepath) as [H | (lines & Hfs & H)];
    rewrite H in Hparse; injection Hparse as <-; [destruct Hu |].
  rewrite parse_rows_eq in Hu.
  apply fold_provenance in Hu as [[] | (row & Hrow & Hc & He)].
  now exists lines, row.
Qed.

Lemma spec_extract_fields (row : list string) (u : SimpleUnit) :
  spec_extract row = Some u ->
  integer_of (nth 0 row EmptyString) = Some (id u) /\
  name u = Py.strip (nth 1 row EmptyString) /\
  integer_or_zero (nth 2 row EmptyString) = Some (unit_class u) /\
  integer_or_zero (nth 3 row EmptyString) = Some (picnum u) /\
  category u = category_of (unit_class u) /\
  regions u = Py.strip (nth 12 row EmptyString).
Proof.
  unfold spec_extract.
  destruct (integer_of _) as [i|]; [| discriminate].
  destruct (integer_or_zero (nth 2 _ _)) as [c|]; [| discriminate].
  destruct (integer_or_zero (nth 3 _ _)) as [p|]; [| discriminate].
  intros H. injection H as <-. now cbn.
Qed.

Lemma category_of_cases (c : Z) :
  (category_of c = "land" <-> c <= 6) /\
  (category_of c = "air" <-> 6 < c <= 12) /\
  (category_of c = "naval" <-> 12 < c).
Proof.
  unfold category_of.
  destruct (Z.leb_spec c 6); [| destruct (Z.leb_spec c 12)];
    repeat split; intros; try lia; try discriminate; reflexivity.
Qed.

End ParseFacts.

(** ** C1: no marker, no record *)

(** C1.  When no row of the file has the marker in its first field,
    [parse_units_robust] returns the empty list, whatever the rows are: rows
    that pass the digit check and convert give no record either. *)
Theorem parse_without_marker_is_empty (fs : filesystem) (filepath : string) :
  (forall lines,
     fs filepath = Some (Readable lines) ->
     no_marker (fst (Csv.reader lines))) ->
  parse_units_robust fs filepath = Ok [].
Proof.
  intros H.
  destruct (parse_units_robust_cases fs filepath) as [E | (lines & Hfs & E)];
    [exact E |].
  rewrite E, parse_rows_eq, fold_no_marker; [reflexivity | auto | reflexivity].
Qed.

(** Two rows that would be data after a marker, in a file without one. *)
Lemma parse_without_marker_is_empty_witness :
  parse_units_robust
    (one_file "default.unit" [line "1,Tank,3,450"; line "2,Jet,8,12"])
    "default.unit" = Ok [].
Proof.
  apply parse_without_marker_is_empty.
  intros lines H. vm_compute in H. injection H as <-.
  vm_compute. repeat constructor.
Defined.

(** ** C2: the category of a record *)

(** C2.  In every record that [parse_units_robust] returns the category is
    the one computed from the class: land up to 6, air from 7 to 12, naval
    above. *)
Theorem category_is_function_of_class (fs : filesystem) (filepath : string)
  (us : list SimpleUnit) (u : SimpleUnit) :
  parse_units_robust fs filepath = Ok us -> In u us ->
  category u = category_of (unit_class u) /\
  (category u = "land" <-> unit_class u <= 6) /\
  (category u = "air" <-> 6 < unit_class u <= 12) /\
  (category u = "naval" <-> 12 < unit_class u).
Proof.
  intros Hparse Hu.
  destruct (parse_provenance _ _ _ _ Hparse Hu)
    as (lines & row & _ & _ & _ & He).
  apply spec_extract_fields in He as (_ & _ & _ & _ & Hcat & _).
  split; [exact Hcat |]. rewrite Hcat. apply category_of_cases.
Qed.

Lemma category_is_function_of_class_witness :
  let u := mkSimpleUnit 7 "Jet" 12 8 "air" "U" in
  category u = category_of (unit_class u) /\
  (category u = "land" <-> unit_class u <= 6) /\
  (category u = "air" <-> 6 < unit_class u <= 12) /\
  (category u = "naval" <-> 12 < unit_class u).
Proof.
  apply (category_is_function_of_class
           (one_file "default.unit"
              [line "&&UNITS"; line "7,Jet,8,12,,,,,,,,,U"])
           "default.unit"
           [mkSimpleUnit 7 "Jet" 12 8 "air" "U"]).
  - vm_compute. reflexivity.
  - simpl. left. reflexivity.
Defined.

(** ** C3: the hand-built row *)

(** C3.  The line [42,TestUnit,3,450,,,,,,,,,G] is one row of thirteen
    fields; one turn of the loop on it, the marker seen, appends exactly the
    record with id 42, name TestUnit, class 3, picnum 450, category land and
    regions G; and so does [parse_units_robust] on a file with the marker
    line and this line. *)
Theorem hand_built_row_yields_record :
  let text := "42,TestUnit,3,450,,,,,,,,,G" in
  let row :=
    ["42"; "TestUnit"; "3"; "450"; EmptyString; EmptyString; EmptyString;
     EmptyString; EmptyString; EmptyString; EmptyString; EmptyString; "G"] in
  let u := mkSimpleUnit 42 "TestUnit" 450 3 "land" "G" in
  Csv.reader [text] = ([row], None) /\
  (forall us,
     loop_body row {| start_parsing := true; units := us |} =
     Ok {| start_parsing := true; units := us ++ [u] |}) /\
  parse_units_robust (one_file "default.unit" [line "&&UNITS"; text])
    "default.unit" = Ok [u].
Proof.
  intros text row u. split; [| split].
  - vm_compute. reflexivity.
  - intros us. rewrite loop_body_eq. reflexivity.
  - vm_compute. reflexivity.
Qed.

(** ** C6: the parser raises nothing *)

Section Malformed.

Lemma fails_integer_of (field : string) :
  fails (Py.int field) -> integer_of field = None.
Proof. intros [e H]. unfold integer_of. now rewrite H. Qed.

Lemma nonempty_iff (s : string) : Py.nonempty s = true <-> s <> EmptyString.
Proof. destruct s; simpl; split; congruence. Qed.

Lemma conversion_fails_extract (row : list string) :
  conversion_fails row -> spec_extract row = None.
Proof.
  unfold conversion_fails, spec_extract, integer_or_zero.
  intros [H | [[Hne H] | [Hne H]]].
  - now rewrite (fails_integer_of _ H).
  - apply nonempty_iff in Hne. rewrite Hne, (fails_integer_of _ H).
    now destruct (integer_of _).
  - apply nonempty_iff in Hne. rewrite Hne, (fails_integer_of _ H).
    destruct (integer_of _); [| reflexivity].
    now destruct (if Py.nonempty _ then _ else _).
Qed.

(** A malformed row adds no record. *)
Lemma after_row_malformed_units (row : list string) (s : locals) :
  malformed row -> units (after_row row s) = units s.
Proof.
  intros H. unfold after_row, passes_digit_check.
  destruct (first_field_has_marker row); [reflexivity |].
  destruct (start_parsing s); cbn [andb]; [| reflexivity].
  destruct H as [H | [H | H]].
  - replace (4 <=? List.length row)%nat with false
      by (symmetry; apply Nat.leb_gt; lia).
    reflexivity.
  - rewrite H, andb_false_r. reflexivity.
  - rewrite (conversion_fails_extract _ H). now destruct (_ && _).
Qed.

(** A malformed row without the marker changes nothing. *)
Lemma after_row_malformed (row : list string) (s : locals) :
  malformed row -> first_field_has_marker row = false -> after_row row s = s.
Proof.
  intros H Hm. pose proof (after_row_malformed_units row s H) as Hu.
  unfold after_row in *. rewrite Hm in *.
  destruct (_ && _); [| reflexivity].
  destruct (spec_extract row); [| reflexivity].
  cbn [units] in Hu. apply (f_equal (@List.length _)) in Hu.
  rewrite length_app in Hu. cbn in Hu. lia.
Qed.

End Malformed.

(** C6.  [parse_units_robust] returns for every disk and path, and raises
    nothing; a path that names nothing gives the empty list; the loop passes
    on to the caller no exception of its own; a malformed row (fewer than
    four fields, a first field that is not digits, or a conversion that
    fails) adds no record and the loop goes on with the rows after it, and
    the result is that of the input without the row when the row has no
    marker. *)
Theorem parse_never_raises :
  (forall fs filepath, exists us, parse_units_robust fs filepath = Ok us) /\
  (forall fs filepath,
     fs filepath = None -> parse_units_robust fs filepath = Ok []) /\
  (forall rows stop s, snd (for_rows rows stop s) = stop) /\
  (forall row rest stop s,
     malformed row ->
     exists s',
       loop_body row s = Ok s' /\ units s' = units s /\
       for_rows (row :: rest) stop s = for_rows rest stop s') /\
  (forall before row rest stop,
     malformed row -> first_field_has_marker row = false ->
     for_rows (before ++ row :: rest) stop initial_locals =
     for_rows (before ++ rest) stop initial_locals).
Proof.
  repeat split.
  - intros fs filepath.
    destruct (parse_units_robust_cases fs filepath) as [E | (lines & _ & E)];
      eauto.
  - intros fs filepath H. apply parse_units_robust_other. congruence.
  - intros rows stop s. now rewrite for_rows_eq.
  - intros row rest stop s H. exists (after_row row s).
    split; [apply loop_body_eq | split].
    + now apply after_row_malformed_units.
    + cbn [for_rows]. now rewrite loop_body_eq.
  - intros before row rest stop H Hm.
    rewrite !for_rows_eq, !fold_left_app. cbn [fold_left].
    now rewrite after_row_malformed.
Qed.

(** A row whose class is not a number, between two data rows. *)
Lemma parse_never_raises_witness :
  for_rows
    ([[MARKER]; ["1"; "Tank"; "3"; "450"]] ++
     ["2"; "Jet"; "x"; "12"] :: [["3"; "Ship"; "14"; "20"]])
    None initial_locals =
  for_rows
    ([[MARKER]; ["1"; "Tank"; "3"; "450"]] ++ [["3"; "Ship"; "14"; "20"]])
    None initial_locals.
Proof.
  apply (proj2 (proj2 (proj2 (proj2 parse_never_raises)))).
  - right. right. right. left. split.
    + vm_compute. discriminate.
    + exists ValueError. vm_compute. reflexivity.
  - vm_compute. reflexivity.
Defined.

(** ** C7: the name of a record *)




(** ** C8: the picnum of a record *)




(** ** C9: markers after the first *)

Section LaterMarkers.

Lemma marker_fails_digit_check (row : list string) :
  first_field_has_marker row = true -> passes_digit_check row = false.
Proof.
  destruct row as [|f0 rest]; [discriminate |].
  cbn [first_field_has_marker]. intros H. unfold passes_digit_check.
  cbn [nth]. destruct (Py.isdigit (Py.strip f0)) eqn:Hd;
    [| now rewrite andb_false_r].
  exfalso. unfold Py.isdigit in Hd. apply andb_true_iff in Hd as [_ Hd].
  apply str_in_iff in H. apply occurs_chars in H.
  apply strip_keeps in H; [| reflexivity].
  apply (proj1 (forallb_str_chars _ _) Hd) in H. discriminate.
Qed.

Lemma decimal_passes (s : string) :
  spec_decimal_digits s = true ->
  Py.isdigit s = true /\ Py.startswith s "//" = false.
Proof.
  unfold spec_decimal_digits, Py.isdigit.
  intros H. apply andb_true_iff in H as [Hne Hd]. split.
  - rewrite Hne. apply (forallb_str_impl _ _ _ isdecimal_isdigit Hd).
  - destruct s as [|c r]; [reflexivity |].
    cbn [Py.forallb_str] in Hd. apply andb_true_iff in Hd as [Hc _].
    cbn [Py.startswith]. destruct (Ascii.eqb "/" c) eqn:E; [| reflexivity].
    apply Ascii.eqb_eq in E. subst c. discriminate.
Qed.

Lemma digits_that_convert_are_decimal (f0 : string) (v : Z) :
  Py.isdigit (Py.strip f0) = true -> Py.int f0 = Ok v ->
  spec_decimal_digits (Py.strip f0) = true.
Proof.
  unfold Py.isdigit, spec_decimal_digits. intros Hd Hint.
  apply andb_true_iff in Hd as [Hne Hd]. rewrite Hne. cbn [andb].
  apply int_ok_chars in Hint.
  rewrite forallb_str_chars in *. intros c Hc.
  apply isdigit_int_char; [now apply Hd |].
  apply Hint. now apply strip_chars.
Qed.

(** The digit check with the conversions accepts the rows that the
    candidate test of the specification with the conversions accepts. *)
Lemma digit_check_is_candidate_test (row : list string) :
  (if passes_digit_check row then spec_extract row else None) =
  (if spec_candidate row then spec_extract row else None).
Proof.
  unfold passes_digit_check, spec_candidate.
  destruct (4 <=? List.length row)%nat; cbn [andb]; [| reflexivity].
  destruct (spec_decimal_digits _) eqn:Hdec.
  - apply decimal_passes in Hdec as [-> ->]. reflexivity.
  - destruct (negb _ && Py.isdigit _) eqn:Hpass; [| reflexivity].
    apply andb_true_iff in Hpass as [_ Hd].
    unfold spec_extract, integer_of.
    destruct (Py.int (nth 0 row EmptyString)) as [v|] eqn:Hint;
      [| reflexivity].
    rewrite (digits_that_convert_are_decimal _ _ Hd Hint) in Hdec.
    discriminate.
Qed.

Lemma after_row_started_eq (row : list string) (s : locals) :
  start_parsing s = true ->
  after_row row s =
  match (if spec_candidate row then spec_extract row else None) with
  | Some u => {| start_parsing := true; units := units s ++ [u] |}
  | None => s
  end.
Proof.
  intros Hs. rewrite <- digit_check_is_candidate_test. unfold after_row.
  rewrite Hs. cbn [andb].
  destruct (first_field_has_marker row) eqn:Hm.
  - rewrite (marker_fails_digit_check _ Hm).
    destruct s as [sp us]. cbn in *. now subst sp.
  - destruct (passes_digit_check row); [| reflexivity].
    now destruct (spec_extract row).
Qed.

Lemma fold_started (rows : list (list string)) :
  forall s,
    start_parsing s = true ->
    units (fold_left (fun s row => after_row row s) rows s) =
    (units s ++ spec_after_marker rows)%list.
Proof.
  induction rows as [|row rest IH]; intros s Hs;
    cbn [fold_left spec_after_marker].
  - now rewrite app_nil_r.
  - rewrite IH by now apply after_row_started.
    rewrite after_row_started_eq by exact Hs.
    destruct (if spec_candidate row then spec_extract row else None);
      [| reflexivity].
    cbn [units]. now rewrite <- app_assoc.
Qed.

Lemma fold_not_started (rows : list (list string)) :
  forall s,
    start_parsing s = false ->
    units (fold_left (fun s row => after_row row s) rows s) =
    (units s ++ spec_parse rows)%list.
Proof.
  induction rows as [|row rest IH]; intros s Hs; cbn [fold_left spec_parse].
  - now rewrite app_nil_r.
  - destruct (first_field_has_marker row) eqn:Hm.
    + rewrite fold_started; unfold after_row; rewrite Hm; reflexivity.
    + rewrite after_row_no_marker by assumption. now apply IH.
Qed.

Lemma later_marker_ignored (row : list string) (s : locals) :
  first_field_has_marker row = true -> start_parsing s = true ->
  after_row row s = s.
Proof.
  intros Hm Hs. rewrite after_row_started_eq by exact Hs.
  rewrite <- digit_check_is_candidate_test.
  now rewrite (marker_fails_digit_check _ Hm).
Qed.

Lemma ordinary_non_data_ignored (row : list string) (s : locals) :
  ordinary_non_data row -> after_row row s = s.
Proof.
  intros [Hm Hc]. unfold after_row. rewrite Hm, Hc.
  now rewrite andb_false_r.
Qed.

Lemma fold_markers_replaced (rows rows' : list (list string)) :
  markers_replaced rows rows' ->
  forall s,
    start_parsing s = true ->
    fold_left (fun s row => after_row row s) rows s =
    fold_left (fun s row => after_row row s) rows' s.
Proof.
  induction 1 as [|row row' rest rest' Hrow _ IH]; intros s Hs;
    cbn [fold_left]; [reflexivity |].
  destruct (first_field_has_marker row) eqn:Hm.
  - rewrite later_marker_ignored, ordinary_non_data_ignored by assumption.
    now apply IH.
  - subst row'. apply IH. now apply after_row_started.
Qed.

Lemma fold_after_marker (before : list (list string)) (m : list string)
  (rest rest' : list (list string)) :
  first_field_has_marker m = true -> markers_replaced rest rest' ->
  fold_left (fun s row => after_row row s) (before ++ m :: rest)
    initial_locals =
  fold_left (fun s row => after_row row s) (before ++ m :: rest')
    initial_locals.
Proof.
  intros Hm Hrep. rewrite !fold_left_app. cbn [fold_left].
  apply fold_markers_replaced; [exact Hrep |].
  unfold after_row. now rewrite Hm.
Qed.

End LaterMarkers.

(** C9.  The loop computes what the parser of the specification computes,
    which tests for the marker only until it has seen one.  After a marker a
    row with the marker in its first field leaves the locals as they are;
    the records are the same when every marker row after a marker row is
    replaced by any ordinary row that is not data, for the loop and for
    [parse_units_robust] on two files that differ that way. *)
Theorem later_markers_are_ordinary_rows :
  (forall rows, parse_rows rows = spec_parse rows) /\
  (forall row s,
     first_field_has_marker row = true -> start_parsing s = true ->
     loop_body row s = Ok s) /\
  (forall before m rest rest' stop stop',
     first_field_has_marker m = true -> markers_replaced rest rest' ->
     units (fst (for_rows (before ++ m :: rest) stop initial_locals)) =
     units (fst (for_rows (before ++ m :: rest') stop' initial_locals))) /\
  (forall fs fs' filepath lines lines' before m rest rest',
     fs filepath = Some (Readable lines) ->
     fs' filepath = Some (Readable lines') ->
     fst (Csv.reader lines) = (before ++ m :: rest)%list ->
     fst (Csv.reader lines') = (before ++ m :: rest')%list ->
     first_field_has_marker m = true -> markers_replaced rest rest' ->
     parse_units_robust fs filepath = parse_units_robust fs' filepath).
Proof.
  repeat split.
  - intros rows. rewrite parse_rows_eq. now rewrite fold_not_started.
  - intros row s Hm Hs. rewrite loop_body_eq.
    now rewrite later_marker_ignored.
  - intros before m rest rest' stop stop' Hm Hrep.
    rewrite !for_rows_eq. cbn [fst].
    now rewrite (fold_after_marker before m rest rest').
  - intros fs fs' filepath lines lines' before m rest rest'
      Hfs Hfs' Hrows Hrows' Hm Hrep.
    rewrite (parse_units_robust_readable _ _ _ Hfs).
    rewrite (parse_units_robust_readable _ _ _ Hfs').
    rewrite Hrows, Hrows', !parse_rows_eq.
    now rewrite (fold_after_marker before m rest rest').
Qed.

(** A second marker line between two data lines, and a comment line in its
    place. *)
Lemma later_markers_are_ordinary_rows_witness :
  parse_units_robust
    (one_file "default.unit"
       [line "&&UNITS"; line "1,Tank,3,450"; line "&&UNITS,,,,";
        line "2,Jet,8,12"])
    "default.unit" =
  parse_units_robust
    (one_file "default.unit"
       [line "&&UNITS"; line "1,Tank,3,450"; line "// more,,,,";
        line "2,Jet,8,12"])
    "default.unit".
Proof.
  eapply (proj2 (proj2 (proj2 later_markers_are_ordinary_rows))
            _ _ _ _ _
            [] ["&&UNITS"]
            [["1"; "Tank"; "3"; "450"];
             ["&&UNITS"; EmptyString; EmptyString; EmptyString; EmptyString];
             ["2"; "Jet"; "8"; "12"]]
            [["1"; "Tank"; "3"; "450"];
             ["// more"; EmptyString; EmptyString; EmptyString; EmptyString];
             ["2"; "Jet"; "8"; "12"]]).
  - vm_compute. reflexivity.
  - vm_compute. reflexivity.
  - vm_compute. reflexivity.
  - vm_compute. reflexivity.
  - vm_compute. reflexivity.
  - repeat constructor.
Defined.

(** ** C4: the region filter *)

Section RegionFilter.

Import UnitModelBrowser.

Lemma occurs_empty (s : string) : occurs EmptyString s.
Proof. now exists EmptyString, s. Qed.

Lemma region_matches_wildcard (u : SimpleUnit) :
  region_matches "*" u = true <->
  occurs "*" (regions u) \/ occurs "@" (regions u).
Proof.
  unfold region_matches, region_skip. cbn [Py.nonempty].
  rewrite String.eqb_refl, negb_true_iff, andb_false_iff, !negb_false_iff.
  now rewrite !str_in_iff.
Qed.

Lemma region_matches_code (code : string) (u : SimpleUnit) :
  code <> "*" ->
  (region_matches code u = true <->
   occurs code (regions u) \/ occurs "*" (regions u) \/
   occurs "@" (regions u)).
Proof.
  intros Hcode. unfold region_matches, region_skip.
  destruct code as [|c r].
  - cbn [Py.nonempty negb]. split; [intros _ | reflexivity].
    left. apply occurs_empty.
  - cbn [Py.nonempty]. apply String.eqb_neq in Hcode. rewrite Hcode.
    rewrite negb_true_iff, !andb_false_iff, !negb_false_iff.
    rewrite !str_in_iff. tauto.
Qed.

Lemma In_insert_by {K : Type} (le : K -> K -> bool) (key : SimpleUnit -> K)
  (x y : SimpleUnit) (l : list SimpleUnit) :
  In x (insert_by le key y l) <-> x = y \/ In x l.
Proof.
  induction l as [|z l IH]; cbn [insert_by].
  - cbn. intuition.
  - destruct (le (key y) (key z)); cbn [In] in *; [intuition |].
    rewrite IH. intuition.
Qed.

Lemma In_sort_by {K : Type} (le : K -> K -> bool) (key : SimpleUnit -> K)
  (x : SimpleUnit) (l : list SimpleUnit) :
  In x (sort_by le key l) <-> In x l.
Proof.
  unfold sort_by. induction l as [|y l IH]; cbn [fold_right In].
  - reflexivity.
  - rewrite In_insert_by, IH. intuition.
Qed.

Lemma In_sort_units (mode : string) (x : SimpleUnit) (l : list SimpleUnit) :
  In x (sort_units mode l) <-> In x l.
Proof.
  unfold sort_units.
  repeat (match goal with
          | |- context [if ?c then _ else _] => destruct c
          end; [apply In_sort_by |]).
  reflexivity.
Qed.

(** The units behind the items that [show_filtered] puts in the list. *)
Lemma shown_units (b : Browser) (region_code : option string) :
  map data (unit_list (show_filtered b region_code)) =
  sort_units (sort_combo b)
    (filter (keep (Py.lower (search_input b)) (Py.lower (cat_combo b))
               region_code)
       (units b)).
Proof.
  unfold show_filtered. cbn [unit_list set_lbl_count set_unit_list].
  rewrite map_map. cbn [data]. apply map_id.
Qed.

Lemma tables_selectable (mode : string) :
  forallb (entry_selectable (REGIONS mode)) (REGIONS mode) = true.
Proof.
  unfold REGIONS. destruct (String.eqb mode "SRU"); vm_compute; reflexivity.
Qed.

Lemma filter_list_table_code (b : Browser) (label code : string) :
  In (label, Some code) (REGIONS (current_mode b)) ->
  code <> "CUSTOM" -> region_combo b = label ->
  filter_list b = show_filtered b (Some code).
Proof.
  intros Hin Hcode Hlabel.
  pose proof (tables_selectable (current_mode b)) as Ht.
  rewrite forallb_forall in Ht. apply Ht in Hin.
  unfold entry_selectable in Hin. cbn [fst snd] in Hin.
  apply andb_true_iff in Hin as [Hin Hfound].
  apply andb_true_iff in Hin as [Hsep Hall].
  apply negb_true_iff in Hsep, Hall.
  unfold filter_list. rewrite Hlabel, Hsep, Hall.
  destruct (table_code _ label) as [code'|]; [| discriminate].
  apply String.eqb_eq in Hfound. subst code'.
  apply String.eqb_neq in Hcode. now rewrite Hcode.
Qed.

Lemma custom_entry (mode : string) :
  table_code (REGIONS mode) "Custom..." = Some "CUSTOM".
Proof.
  unfold REGIONS. destruct (String.eqb mode "SRU"); vm_compute; reflexivity.
Qed.

Lemma filter_list_custom (b : Browser) (txt : string)
  (rest : list (option string)) :
  region_combo b = "Custom..." -> input_dialog b = Some txt :: rest ->
  txt <> EmptyString ->
  filter_list b = show_filtered (snd (getText b)) (Some txt).
Proof.
  intros Hlabel Hreply Htxt. unfold filter_list.
  rewrite Hlabel, custom_entry.
  change (Py.startswith "Custom..." (BOX_DASH ++ BOX_DASH)) with false.
  change (String.eqb "Custom..." "All Regions") with false.
  change (String.eqb "CUSTOM" "CUSTOM") with true. cbv iota.
  unfold getText. rewrite Hreply. cbn [snd].
  apply nonempty_iff in Htxt. now rewrite Htxt.
Qed.

End RegionFilter.

(** C4.  The filter for the code [*] lets a unit through exactly when [*] or
    [@] occurs in its regions; the filter for any other code, exactly when the
    code, [*] or [@] occurs in its regions, the letters compared as they
    are.  A unit in the list that [filter_list] shows for a code passes this
    test; a label of the region table selects its code, and the custom entry
    the text that the user types.  Regions [*] pass the codes [U] and [*];
    regions [G] pass [G] and not [U]; regions [g] do not pass [G]. *)
Theorem region_filter_matches :
  (forall u,
     region_matches "*" u = true <->
     occurs "*" (regions u) \/ occurs "@" (regions u)) /\
  (forall code u,
     code <> "*" ->
     (region_matches code u = true <->
      occurs code (regions u) \/ occurs "*" (regions u) \/
      occurs "@" (regions u))) /\
  (forall b code u,
     In u (map UnitModelBrowser.data
             (UnitModelBrowser.unit_list
                (UnitModelBrowser.show_filtered b (Some code)))) ->
     region_matches code u = true) /\
  (forall b label code,
     In (label, Some code)
       (UnitModelBrowser.REGIONS (UnitModelBrowser.current_mode b)) ->
     code <> "CUSTOM" -> UnitModelBrowser.region_combo b = label ->
     UnitModelBrowser.filter_list b =
     UnitModelBrowser.show_filtered b (Some code)) /\
  (forall b txt rest,
     UnitModelBrowser.region_combo b = "Custom..." ->
     UnitModelBrowser.input_dialog b = Some txt :: rest ->
     txt <> EmptyString ->
     UnitModelBrowser.filter_list b =
     UnitModelBrowser.show_filtered (snd (UnitModelBrowser.getText b))
       (Some txt)) /\
  region_matches "U" (with_regions "*") = true /\
  region_matches "*" (with_regions "*") = true /\
  region_matches "G" (with_regions "G") = true /\
  region_matches "U" (with_regions "G") = false /\
  region_matches "G" (with_regions "g") = false.
Proof.
  split; [exact region_matches_wildcard |].
  split; [exact region_matches_code |].
  split.
  { intros b code u Hu. rewrite shown_units, In_sort_units in Hu.
    apply filter_In in Hu as [_ Hkeep]. unfold UnitModelBrowser.keep in Hkeep.
    apply andb_true_iff in Hkeep as [_ Hregion]. exact Hregion. }
  split; [exact filter_list_table_code |].
  split; [exact filter_list_custom |].
  repeat split; vm_compute; reflexivity.
Qed.

(** The code [G] on regions [FG]. *)
Lemma region_filter_matches_witness :
  region_matches "G" (with_regions "FG") = true <->
  occurs "G" (regions (with_regions "FG")) \/
  occurs "*" (regions (with_regions "FG")) \/
  occurs "@" (regions (with_regions "FG")).
Proof.
  apply (proj1 (proj2 region_filter_matches)). discriminate.
Defined.

(** ** C10: the reverse picnum lookup *)

Section PicnumLookup.

Import UnitModelBrowser.

Lemma units_show_filtered (b : Browser) (region_code : option string) :
  units (show_filtered b region_code) = units b.
Proof. reflexivity. Qed.

Lemma units_getText (b : Browser) : units (snd (getText b)) = units b.
Proof. unfold getText. now destruct (input_dialog b). Qed.

(** [filter_list] shows units and leaves the units of the window alone. *)
Lemma units_filter_list (b : Browser) : units (filter_list b) = units b.
Proof.
  unfold filter_list, reset_region_combo.
  destruct (Py.startswith _ _); [reflexivity |].
  destruct (String.eqb (region_combo b) _); [reflexivity |].
  destruct (table_code _ _) as [code|]; [| reflexivity].
  destruct (String.eqb code _); [| reflexivity].
  pose proof (units_getText b) as H.
  destruct (getText b) as [[txt|] b']; cbn [snd] in H.
  - destruct (Py.nonempty txt); now rewrite units_show_filtered.
  - now rewrite units_show_filtered.
Qed.

Lemma units_search_input_clear (b : Browser) :
  units (search_input_clear b) = units b.
Proof.
  unfold search_input_clear. destruct (Py.nonempty _); [| reflexivity].
  now rewrite units_filter_list.
Qed.

Lemma units_cat_combo_setCurrentIndex_0 (b : Browser) :
  units (cat_combo_setCurrentIndex_0 b) = units b.
Proof.
  unfold cat_combo_setCurrentIndex_0. destruct (String.eqb _ _);
    [reflexivity |].
  now rewrite units_filter_list.
Qed.

Lemma check_textures_list (disk : Disk) (b : Browser) (mesh_dir : Path)
  (n : Z) :
  unit_list (fst (check_textures disk b mesh_dir n)) = unit_list b /\
  units (fst (check_textures disk b mesh_dir n)) = units b.
Proof. unfold check_textures. now destruct (negb _). Qed.

Lemma int_ok_nonempty (s : string) (v : Z) :
  Py.int s = Ok v -> Py.nonempty s = true.
Proof. destruct s; [discriminate | reflexivity]. Qed.

Lemma search_by_picnum_found (disk : Disk) (b : Browser) (target : Z) :
  Py.int (Py.strip (picnum_input b)) = Ok target ->
  exists b' asked,
    search_by_picnum disk b = Ok (b', asked) /\
    units b' = units b /\
    unit_list b' =
    map picnum_item (filter (fun u => picnum u =? target) (units b)).
Proof.
  intros Hint. unfold search_by_picnum.
  rewrite (int_ok_nonempty _ _ Hint), Hint. cbn [negb].
  set (b2 := cat_combo_setCurrentIndex_0 (search_input_clear b)).
  assert (Hunits : units b2 = units b).
  { unfold b2.
    now rewrite units_cat_combo_setCurrentIndex_0, units_search_input_clear. }
  destruct (len _ =? 0).
  - eexists. eexists. split; [reflexivity |]. cbn. now rewrite Hunits.
  - match goal with
    | |- context [check_textures ?d ?w ?p ?n] =>
        destruct (check_textures_list d w p n) as [Hl Hu];
        destruct (check_textures d w p n) as [b' asked]
    end.
    exists b', asked. cbn [fst] in Hl, Hu.
    split; [reflexivity |]. rewrite Hl, Hu. cbn. now rewrite Hunits.
Qed.

Lemma search_by_picnum_invalid (disk : Disk) (b : Browser) :
  Py.strip (picnum_input b) <> EmptyString ->
  fails (Py.int (Py.strip (picnum_input b))) ->
  search_by_picnum disk b =
  Ok (warning b "Invalid Input" "Please enter a valid picnum number.", []).
Proof.
  intros Hne [e He]. unfold search_by_picnum.
  apply nonempty_iff in Hne. rewrite Hne, He. cbn [negb].
  now rewrite (int_raises _ _ He).
Qed.

End PicnumLookup.

(** C10, as stated, fails for a query that is empty or white space: it is no
    integer, and the lookup returns at once with the window as it was and
    no message box. *)
Lemma blank_picnum_query_counterexample :
  fails (Py.int "   ") /\
  UnitModelBrowser.search_by_picnum (disk_with [])
    (sample_browser "SR2030" "   ") =
  Ok (sample_browser "SR2030" "   ", []) /\
  UnitModelBrowser.message_boxes (sample_browser "SR2030" "   ") = [].
Proof.
  split; [| split].
  - exists ValueError. vm_compute. reflexivity.
  - vm_compute. reflexivity.
  - reflexivity.
Qed.

(** C10, amended.  For a query that converts to an integer the list shows
    one item for each unit of the window with that picnum, in the order of
    the units and whatever the search text, the category, the region and
    the sort order are; the units stay as they are.  A query that is not
    blank and does not convert shows the message box for an invalid input
    and leaves the list as it is.  A blank query leaves the window as it
    is. *)
Theorem picnum_lookup_lists_matching_units :
  (forall disk b target,
     Py.int (Py.strip (UnitModelBrowser.picnum_input b)) = Ok target ->
     exists b' asked,
       UnitModelBrowser.search_by_picnum disk b = Ok (b', asked) /\
       UnitModelBrowser.units b' = UnitModelBrowser.units b /\
       UnitModelBrowser.unit_list b' =
       map picnum_item
         (filter (fun u => picnum u =? target) (UnitModelBrowser.units b))) /\
  (forall disk b,
     Py.strip (UnitModelBrowser.picnum_input b) <> EmptyString ->
     fails (Py.int (Py.strip (UnitModelBrowser.picnum_input b))) ->
     exists b',
       UnitModelBrowser.search_by_picnum disk b = Ok (b', []) /\
       UnitModelBrowser.unit_list b' = UnitModelBrowser.unit_list b /\
       UnitModelBrowser.message_boxes b' =
       (UnitModelBrowser.message_boxes b ++
        [("Invalid Input", "Please enter a valid picnum number.")])%list) /\
  (forall disk b,
     Py.strip (UnitModelBrowser.picnum_input b) = EmptyString ->
     UnitModelBrowser.search_by_picnum disk b = Ok (b, [])).
Proof.
  split; [exact search_by_picnum_found | split].
  - intros disk b Hne Hfail. eexists. split.
    + now apply search_by_picnum_invalid.
    + split; reflexivity.
  - intros disk b Hblank. unfold UnitModelBrowser.search_by_picnum.
    now rewrite Hblank.
Qed.

(** The query [7] on the sample window, which shows the unit named Jet only:
    the two units with picnum 7 are listed. *)
Lemma picnum_lookup_lists_matching_units_witness :
  exists b' asked,
    UnitModelBrowser.search_by_picnum (disk_with [])
      (sample_browser "SR2030" " 7 ") = Ok (b', asked) /\
    UnitModelBrowser.units b' =
    UnitModelBrowser.units (sample_browser "SR2030" " 7 ") /\
    UnitModelBrowser.unit_list b' =
    map picnum_item
      (filter (fun u => picnum u =? 7)
         (UnitModelBrowser.units (sample_browser "SR2030" " 7 "))).
Proof.
  apply (proj1 picnum_lookup_lists_matching_units).
  vm_compute. reflexivity.
Defined.

(** ** C5: the mesh probe *)

Section MeshProbe.

Import UnitModelBrowser.

Lemma three_digits_below_1000 (n : Z) : 0 <= n < 1000 -> three_digits n = true.
Proof.
  intros Hn.
  assert (H : forallb (fun k => three_digits (Z.of_nat k)) (seq 0 1000) = true)
    by (vm_compute; reflexivity).
  rewrite forallb_forall in H. specialize (H (Z.to_nat n)).
  rewrite Z2Nat.id in H by lia. apply H. apply in_seq. lia.
Qed.

Lemma check_textures_mesh_view (disk : Disk) (b : Browser) (mesh_dir : Path)
  (n : Z) :
  mesh_view (fst (check_textures disk b mesh_dir n)) = mesh_view b.
Proof. unfold check_textures. now destruct (negb _). Qed.

Lemma show_shared_mesh_info_mesh_view (b : Browser) (n current_id : Z) :
  mesh_view (show_shared_mesh_info b n current_id) = mesh_view b.
Proof. unfold show_shared_mesh_info. now destruct (filter _ _). Qed.

Lemma on_selection_changed_mesh (disk : Disk) (b : Browser) (item : Item)
  (sel : list Item) :
  let probe :=
    probe_mesh disk b (PathOf (meshes_path b (current_mode b)))
      (picnum (data item)) in
  mesh_view (fst (on_selection_changed disk b (item :: sel))) =
  mesh_view (fst probe) /\
  exists asked_textures,
    snd (on_selection_changed disk b (item :: sel)) =
    (snd probe ++ asked_textures)%list.
Proof.
  intros probe. unfold on_selection_changed. fold probe.
  destruct probe as [b1 asked_mesh].
  pose proof (check_textures_mesh_view disk b1
                (PathOf (meshes_path b (current_mode b)))
                (picnum (data item))) as H.
  destruct (check_textures _ _ _ _) as [b2 asked_textures].
  cbn [fst snd] in *. split.
  - now rewrite show_shared_mesh_info_mesh_view.
  - now exists asked_textures.
Qed.

Lemma texture_patterns_suffixes (base : string) :
  texture_patterns base =
  map (String.append base) (texture_patterns EmptyString).
Proof. reflexivity. Qed.

Lemma mesh_name_base (n : Z) (ext : string) :
  mesh_name n ext = ("UNIT" ++ Py.format_03d n) ++ ext.
Proof. unfold mesh_name. now rewrite append_assoc. Qed.

(** No texture has the name of a mesh. *)
Lemma mesh_name_not_texture (n : Z) (mode : string) :
  ~ In (mesh_name n (secondary_ext mode))
      (texture_patterns ("UNIT" ++ Py.format_03d n)).
Proof.
  rewrite texture_patterns_suffixes, mesh_name_base, in_map_iff.
  intros (suffix & Heq & Hin). apply append_inv_head in Heq. subst suffix.
  assert (H : existsb (String.eqb (secondary_ext mode))
                (texture_patterns EmptyString) = false)
    by (unfold secondary_ext; destruct (String.eqb mode "SRU");
        vm_compute; reflexivity).
  apply Bool.not_true_iff_false in H. apply H. apply existsb_exists.
  exists (secondary_ext mode). split; [exact Hin | apply String.eqb_refl].
Qed.

Lemma extensions_differ (mode : string) :
  primary_ext mode <> secondary_ext mode.
Proof.
  unfold primary_ext, secondary_ext.
  destruct (String.eqb mode "SRU"); discriminate.
Qed.

(** When the primary path exists the selection never asks for the
    secondary one. *)
Lemma secondary_not_asked (disk : Disk) (b : Browser) (item : Item)
  (sel : list Item) :
  let n := picnum (data item) in
  let mesh_dir := PathOf (meshes_path b (current_mode b)) in
  path_exists disk
    (Join mesh_dir (mesh_name n (primary_ext (current_mode b)))) = true ->
  ~ In (Join mesh_dir (mesh_name n (secondary_ext (current_mode b))))
      (snd (on_selection_changed disk b (item :: sel))).
Proof.
  intros n mesh_dir Hprimary. unfold on_selection_changed. fold n mesh_dir.
  unfold probe_mesh. rewrite Hprimary.
  set (b1 := set_mesh _ _ _ _ _).
  assert (Hmode : current_mode b1 = current_mode b) by reflexivity.
  unfold check_textures.
  destruct (negb (path_exists disk mesh_dir)); cbn [snd]; intros Hin.
  - cbn [app In] in Hin. destruct Hin as [H | [H | []]]; [| discriminate].
    injection H as H. apply append_inv_head in H.
    now apply (extensions_differ (current_mode b)).
  - cbn [app In] in Hin. destruct Hin as [H | [H | Hin]]; [| discriminate |].
    + injection H as H. apply append_inv_head in H.
      now apply (extensions_differ (current_mode b)).
    + apply in_map_iff in Hin as (pattern & Heq & Hin).
      injection Heq as ->. now apply mesh_name_not_texture in Hin.
Qed.

End MeshProbe.

Section Decimal.

Lemma of_lu_bound (d : Decimal.uint) :
  (DecimalPos.Unsigned.of_lu d < 10 ^ DecimalPos.Unsigned.usize d)%N.
Proof.
  induction d; cbn [DecimalPos.Unsigned.of_lu DecimalPos.Unsigned.usize];
    rewrite ?N.pow_succ_r'; lia.
Qed.

Lemma usize_revapp (d d' : Decimal.uint) :
  DecimalPos.Unsigned.usize (Decimal.revapp d d') =
  (DecimalPos.Unsigned.usize d + DecimalPos.Unsigned.usize d')%N.
Proof.
  revert d'.
  induction d; intros d';
    cbn [Decimal.revapp DecimalPos.Unsigned.usize];
    rewrite ?IHd; cbn [DecimalPos.Unsigned.usize]; lia.
Qed.

Lemma string_of_uint_length (d : Decimal.uint) :
  N.of_nat (String.length (NilEmpty.string_of_uint d)) =
  DecimalPos.Unsigned.usize d.
Proof.
  induction d;
    cbn [NilEmpty.string_of_uint String.length DecimalPos.Unsigned.usize];
    rewrite ?Nat2N.inj_succ, ?IHd; reflexivity.
Qed.

(** A number is below the power of ten of the length of [str]. *)
Lemma str_bound (n : Z) :
  0 <= n -> n < 10 ^ Z.of_nat (String.length (Py.str n)).
Proof.
  intros Hn. destruct n as [|p|p]; [cbn; lia | | lia].
  unfold Py.str. cbn [Z.to_int NilZero.string_of_int].
  unfold NilZero.string_of_uint.
  pose proof (DecimalPos.Unsigned.to_uint_nonnil p) as Hnil.
  pose proof (DecimalPos.Unsigned.of_to p) as Hof.
  rewrite DecimalPos.Unsigned.of_uint_alt in Hof.
  pose proof (of_lu_bound (Decimal.rev (Pos.to_uint p))) as Hb.
  rewrite Hof in Hb. unfold Decimal.rev in Hb. rewrite usize_revapp in Hb.
  cbn [DecimalPos.Unsigned.usize] in Hb. rewrite N.add_0_r in Hb.
  rewrite <- string_of_uint_length in Hb.
  destruct (Pos.to_uint p) eqn:E; try congruence;
    rewrite <- E in *;
    (rewrite <- nat_N_Z; change 10 with (Z.of_N 10); rewrite <- N2Z.inj_pow;
     change (Z.pos p) with (Z.of_N (N.pos p)); apply N2Z.inj_lt; exact Hb).
Qed.

Lemma str_length_from (k : nat) (n : Z) :
  10 ^ Z.of_nat k <= n -> (k < String.length (Py.str n))%nat.
Proof.
  intros Hn.
  assert (H0 : 0 < 10 ^ Z.of_nat k) by (apply Z.pow_pos_nonneg; lia).
  pose proof (str_bound n ltac:(lia)) as Hb.
  destruct (Nat.le_gt_cases (String.length (Py.str n)) k) as [H | H];
    [| exact H].
  exfalso.
  assert (10 ^ Z.of_nat (String.length (Py.str n)) <= 10 ^ Z.of_nat k)
    by (apply Z.pow_le_mono_r; lia).
  lia.
Qed.

Lemma format_03d_from_100 (n : Z) :
  100 <= n ->
  Py.format_03d n = Py.str n /\ (3 <= String.length (Py.str n))%nat.
Proof.
  intros Hn. pose proof (str_length_from 2 n ltac:(cbn; lia)) as Hl.
  split; [| lia]. unfold Py.format_03d.
  destruct (Z.ltb_spec n 0); [lia |].
  replace (3 - String.length (Py.str n))%nat with 0%nat by lia.
  reflexivity.
Qed.

Lemma three_digits_from_1000 (n : Z) : 1000 <= n -> three_digits n = false.
Proof.
  intros Hn. unfold three_digits.
  rewrite (proj1 (format_03d_from_100 n ltac:(lia))).
  pose proof (str_length_from 3 n ltac:(cbn; lia)) as Hl.
  destruct (Nat.eqb_spec (String.length (Py.str n)) 3) as [E | _]; [lia |].
  reflexivity.
Qed.

Lemma format_03d_negative (n : Z) :
  n < 0 ->
  three_digits n = false /\
  Py.format_03d n =
  "-" ++ Py.zeros (2 - String.length (Py.str (- n))) ++ Py.str (- n) /\
  (n <= -10 -> Py.format_03d n = "-" ++ Py.str (- n)) /\
  (-10 < n -> Py.format_03d n = "-0" ++ Py.str (- n)).
Proof.
  intros Hn.
  assert (Hf : Py.format_03d n =
               "-" ++ Py.zeros (2 - String.length (Py.str (- n))) ++
               Py.str (- n))
    by (unfold Py.format_03d; destruct (Z.ltb_spec n 0); [reflexivity | lia]).
  split; [| split; [exact Hf | split]].
  - unfold three_digits. rewrite Hf. cbn [append Py.forallb_str].
    replace (Py.isdecimal "-") with false by (vm_compute; reflexivity).
    cbn [andb]. now rewrite andb_false_r.
  - intros Hten. rewrite Hf.
    pose proof (str_length_from 1 (- n) ltac:(cbn; lia)) as Hl.
    replace (2 - String.length (Py.str (- n)))%nat with 0%nat by lia.
    reflexivity.
  - intros Hten. rewrite Hf.
    assert (H : - n = 1 \/ - n = 2 \/ - n = 3 \/ - n = 4 \/ - n = 5 \/
                - n = 6 \/ - n = 7 \/ - n = 8 \/ - n = 9) by lia.
    repeat destruct H as [H | H]; rewrite H; reflexivity.
Qed.

End Decimal.

(** C5, as stated, fails: the parser returns a negative picnum for a fourth
    field with a minus sign, and the stem of such a picnum is not [UNIT]
    and three digits.  Picnum -7 is looked for as [UNIT-07]: with the file
    [UNIT-07.cmo] on the disk the selection of the unit shows it as the
    mesh, and a file [UNIT-007.cmo] is never asked for. *)
Lemma negative_picnum_stem_counterexample :
  parse_units_robust
    (one_file "default.unit" [line "&&UNITS"; line "1,Tank,3,-7"])
    "default.unit" =
  Ok [mkSimpleUnit 1 "Tank" (-7) 3 "land" EmptyString] /\
  three_digits (-7) = false /\
  Py.format_03d (-7) = "-07" /\
  mesh_view
    (fst
       (UnitModelBrowser.on_selection_changed
          (disk_with
             [UnitModelBrowser.Join (UnitModelBrowser.PathOf "Meshes")
                "UNIT-07.cmo"])
          (sample_browser "SR2030" EmptyString)
          [UnitModelBrowser.mkItem "[1] Tank"
             (mkSimpleUnit 1 "Tank" (-7) 3 "land" EmptyString) false])) =
  (MESH_FOUND, "UNIT-07.cmo", true,
   Some
     (UnitModelBrowser.Join (UnitModelBrowser.PathOf "Meshes")
        "UNIT-07.cmo")) /\
  mesh_view
    (fst
       (UnitModelBrowser.on_selection_changed
          (disk_with
             [UnitModelBrowser.Join (UnitModelBrowser.PathOf "Meshes")
                "UNIT-007.cmo"])
          (sample_browser "SR2030" EmptyString)
          [UnitModelBrowser.mkItem "[1] Tank"
             (mkSimpleUnit 1 "Tank" (-7) 3 "land" EmptyString) false])) =
  (MESH_MISSING, "UNIT-07.cmo", false, None).
Proof. repeat split; vm_compute; reflexivity. Qed.

(** C5, amended.  The name of a mesh is [UNIT], the picnum in the format
    [03d] and the extension.  A picnum from 0 to 999 formats to three
    decimal digits that read back as the picnum; a picnum from 100 on
    formats to its own digits, which are more than three from 1000 on; a
    negative picnum, which the parser can return, never formats to three
    digits: the minus sign takes one of the three places, so that a zero is
    put in only from -1 to -9.  Picnum 7 gives [UNIT007], 1234 gives
    [UNIT1234], -7 gives [UNIT-07].  For every picnum and profile the probe
    asks for the primary path first and for the secondary path only when
    the primary one is absent; it ends in one of three outcomes with
    different texts: the primary path exists (mesh found), only the
    secondary exists (alternate format), neither exists (missing, the view
    button disabled).  [on_selection_changed] shows the outcome of the
    probe and asks the disk for the paths of the probe first; when the
    primary path exists it never asks for the secondary one.  With
    [UNIT007.cmo] alone in the mesh directory, picnum 7 gives the alternate
    format and this file in the profile whose primary extension is [.x],
    and a found mesh in the other. *)
Theorem mesh_probe_outcomes :
  (forall n, 0 <= n < 1000 -> three_digits n = true) /\
  (forall n,
     100 <= n ->
     Py.format_03d n = Py.str n /\ (3 <= String.length (Py.str n))%nat /\
     (1000 <= n -> three_digits n = false)) /\
  (forall n,
     n < 0 ->
     three_digits n = false /\
     Py.format_03d n =
     "-" ++ Py.zeros (2 - String.length (Py.str (- n))) ++ Py.str (- n) /\
     (n <= -10 -> Py.format_03d n = "-" ++ Py.str (- n)) /\
     (-10 < n -> Py.format_03d n = "-0" ++ Py.str (- n))) /\
  (UnitModelBrowser.mesh_name 7 ".x" = "UNIT007.x" /\
   UnitModelBrowser.mesh_name 450 ".cmo" = "UNIT450.cmo" /\
   UnitModelBrowser.mesh_name 1234 ".cmo" = "UNIT1234.cmo" /\
   UnitModelBrowser.mesh_name (-7) ".x" = "UNIT-07.x") /\
  (forall disk b mesh_dir n,
     let primary_name :=
       "UNIT" ++ Py.format_03d n ++
       UnitModelBrowser.primary_ext (UnitModelBrowser.current_mode b) in
     let secondary_name :=
       "UNIT" ++ Py.format_03d n ++
       UnitModelBrowser.secondary_ext (UnitModelBrowser.current_mode b) in
     let primary := UnitModelBrowser.Join mesh_dir primary_name in
     let secondary := UnitModelBrowser.Join mesh_dir secondary_name in
     let b' := fst (UnitModelBrowser.probe_mesh disk b mesh_dir n) in
     let asked := snd (UnitModelBrowser.probe_mesh disk b mesh_dir n) in
     (UnitModelBrowser.path_exists disk primary = true ->
      mesh_view b' = (MESH_FOUND, primary_name, true, Some primary) /\
      asked = [primary]) /\
     (UnitModelBrowser.path_exists disk primary = false ->
      UnitModelBrowser.path_exists disk secondary = true ->
      mesh_view b' = (ALT_FORMAT_FOUND, secondary_name, true, Some secondary) /\
      asked = [primary; secondary]) /\
     (UnitModelBrowser.path_exists disk primary = false ->
      UnitModelBrowser.path_exists disk secondary = false ->
      mesh_view b' = (MESH_MISSING, primary_name, false, None) /\
      asked = [primary; secondary])) /\
  (MESH_FOUND <> ALT_FORMAT_FOUND /\ MESH_FOUND <> MESH_MISSING /\
   ALT_FORMAT_FOUND <> MESH_MISSING) /\
  (forall disk b item sel,
     let probe :=
       UnitModelBrowser.probe_mesh disk b
         (UnitModelBrowser.PathOf
            (UnitModelBrowser.meshes_path b (UnitModelBrowser.current_mode b)))
         (picnum (UnitModelBrowser.data item)) in
     mesh_view (fst (UnitModelBrowser.on_selection_changed disk b
                       (item :: sel))) = mesh_view (fst probe) /\
     exists asked_textures,
       snd (UnitModelBrowser.on_selection_changed disk b (item :: sel)) =
       (snd probe ++ asked_textures)%list) /\
  (forall disk b item sel,
     let n := picnum (UnitModelBrowser.data item) in
     let mesh_dir :=
       UnitModelBrowser.PathOf
         (UnitModelBrowser.meshes_path b (UnitModelBrowser.current_mode b)) in
     UnitModelBrowser.path_exists disk
       (UnitModelBrowser.Join mesh_dir
          (UnitModelBrowser.mesh_name n
             (UnitModelBrowser.primary_ext
                (UnitModelBrowser.current_mode b)))) = true ->
     ~ In (UnitModelBrowser.Join mesh_dir
             (UnitModelBrowser.mesh_name n
                (UnitModelBrowser.secondary_ext
                   (UnitModelBrowser.current_mode b))))
         (snd (UnitModelBrowser.on_selection_changed disk b (item :: sel)))) /\
  (let root := UnitModelBrowser.PathOf "Meshes" in
   let file := UnitModelBrowser.Join root "UNIT007.cmo" in
   let item := UnitModelBrowser.mkItem "[1] Tank"
                 (mkSimpleUnit 1 "Tank" 7 3 "land" "G") false in
   mesh_view (fst (UnitModelBrowser.on_selection_changed (disk_with [file])
                     (sample_browser "SRU" EmptyString) [item])) =
   (ALT_FORMAT_FOUND, "UNIT007.cmo", true, Some file) /\
   mesh_view (fst (UnitModelBrowser.on_selection_changed (disk_with [file])
                     (sample_browser "SR2030" EmptyString) [item])) =
   (MESH_FOUND, "UNIT007.cmo", true, Some file)).
Proof.
  split; [exact three_digits_below_1000 |].
  split.
  { intros n Hn. destruct (format_03d_from_100 n Hn) as [Hf Hl].
    split; [exact Hf | split; [exact Hl |]].
    apply three_digits_from_1000. }
  split; [exact format_03d_negative |].
  split; [repeat split; vm_compute; reflexivity |].
  split.
  { intros disk b mesh_dir n. cbv zeta.
    unfold UnitModelBrowser.probe_mesh, UnitModelBrowser.mesh_name.
    repeat split; intros; repeat match goal with
                                 | H : _ = _ |- _ => rewrite H
                                 end; reflexivity. }
  split; [repeat split; discriminate |].
  split; [exact on_selection_changed_mesh |].
  split; [exact secondary_not_asked |].
  split; vm_compute; reflexivity.
Qed.

(** Picnum 7 in the profile [SRU], with the secondary file alone on the
    disk. *)
Lemma mesh_probe_outcomes_witness :
  let disk :=
    disk_with
      [UnitModelBrowser.Join (UnitModelBrowser.PathOf "Meshes")
         "UNIT007.cmo"] in
  let b := sample_browser "SRU" EmptyString in
  let mesh_dir := UnitModelBrowser.PathOf "Meshes" in
  mesh_view (fst (UnitModelBrowser.probe_mesh disk b mesh_dir 7)) =
  (ALT_FORMAT_FOUND, "UNIT007.cmo", true,
   Some (UnitModelBrowser.Join mesh_dir "UNIT007.cmo")) /\
  snd (UnitModelBrowser.probe_mesh disk b mesh_dir 7) =
  [UnitModelBrowser.Join mesh_dir "UNIT007.x";
   UnitModelBrowser.Join mesh_dir "UNIT007.cmo"].
Proof.
  intros disk b mesh_dir.
  apply (proj1 (proj2 (proj1 (proj2 (proj2 (proj2 (proj2
                                                     mesh_probe_outcomes))))
                         disk b mesh_dir 7))).
  - vm_compute. reflexivity.
  - vm_compute. reflexivity.
Defined.

(** * Further properties of the parser *)

Section ParserMore.

Lemma after_marker_flat_map (rows : list (list string)) :
  spec_after_marker rows =
  flat_map (fun row => spec_after_marker [row]) rows.
Proof.
  induction rows as [|row rest IH]; cbn [spec_after_marker flat_map];
    [reflexivity |].
  destruct (if spec_candidate row then spec_extract row else None);
    cbn [app]; now rewrite IH.
Qed.

Lemma parse_rows_after_marker (m : list string) (rows : list (list string)) :
  first_field_has_marker m = true ->
  parse_rows (m :: rows) = spec_after_marker rows.
Proof.
  intros Hm. rewrite parse_rows_eq. cbn [fold_left].
  rewrite fold_started; unfold after_row; rewrite Hm; reflexivity.
Qed.

Lemma minus_not_in_digits (f0 : string) (v : Z) :
  Py.isdigit (Py.strip f0) = true -> Py.int f0 = Ok v -> 0 <= v.
Proof.
  intros Hd Hint. destruct (Z.lt_ge_cases v 0) as [Hneg | Hpos]; [| exact Hpos].
  exfalso. apply (int_negative _ _ Hint) in Hneg.
  apply startswith_iff in Hneg as [r Hr].
  destruct (lskip_split Py.int_space f0) as (w & Hw & _).
  assert (Hin : In "-"%char (chars f0)).
  { rewrite Hw, Hr, chars_app. apply in_or_app. right. now left. }
  apply strip_keeps in Hin; [| reflexivity].
  unfold Py.isdigit in Hd. apply andb_true_iff in Hd as [_ Hd].
  apply (proj1 (forallb_str_chars _ _) Hd) in Hin. discriminate.
Qed.

End ParserMore.

(** X1.  Rows before the first marker row are ignored whatever they hold:
    the records of a list of rows are those of the list without a prefix
    that has no marker. *)
Theorem rows_before_marker_are_ignored (before rows : list (list string)) :
  no_marker before -> parse_rows (before ++ rows) = parse_rows rows.
Proof.
  intros H. rewrite !parse_rows_eq, fold_left_app.
  now rewrite (fold_no_marker before initial_locals H eq_refl).
Qed.

Lemma rows_before_marker_are_ignored_witness :
  parse_rows
    ([["1"; "Early"; "3"; "450"]; ["header"]] ++
     [[MARKER]; ["2"; "Jet"; "8"; "12"]]) =
  parse_rows [[MARKER]; ["2"; "Jet"; "8"; "12"]].
Proof.
  apply rows_before_marker_are_ignored.
  repeat constructor.
Defined.

(** X2.  After a marker row each row is handled on its own and in order: the
    records of the rows are the records of each row, one after the other,
    and a row gives one record at most.  Nothing is sorted, merged or left
    out for being a duplicate. *)
Theorem records_follow_the_rows (m : list string)
  (rows : list (list string)) :
  first_field_has_marker m = true ->
  parse_rows (m :: rows) = flat_map (fun row => parse_rows [m; row]) rows /\
  (forall row, (List.length (parse_rows [m; row]) <= 1)%nat) /\
  (List.length (parse_rows (m :: rows)) <= List.length rows)%nat.
Proof.
  intros Hm.
  assert (Hone : forall row, (List.length (parse_rows [m; row]) <= 1)%nat).
  { intros row. rewrite (parse_rows_after_marker _ _ Hm).
    cbn [spec_after_marker].
    destruct (if spec_candidate row then spec_extract row else None);
      cbn; lia. }
  assert (Hflat : parse_rows (m :: rows) =
                  flat_map (fun row => parse_rows [m; row]) rows).
  { rewrite (parse_rows_after_marker _ _ Hm), after_marker_flat_map.
    apply flat_map_ext. intros row.
    now rewrite (parse_rows_after_marker _ _ Hm). }
  split; [exact Hflat | split; [exact Hone |]].
  rewrite Hflat. clear Hflat.
  induction rows as [|row rest IH]; cbn [flat_map List.length]; [lia |].
  rewrite length_app. specialize (Hone row). lia.
Qed.

Lemma records_follow_the_rows_witness :
  let m := [MARKER] in
  let rows := [["2"; "Jet"; "8"; "12"]; ["x"]; ["2"; "Jet"; "8"; "12"]] in
  parse_rows (m :: rows) = flat_map (fun row => parse_rows [m; row]) rows /\
  (forall row, (List.length (parse_rows [m; row]) <= 1)%nat) /\
  (List.length (parse_rows (m :: rows)) <= List.length rows)%nat.
Proof.
  intros m rows. apply records_follow_the_rows. reflexivity.
Defined.

(** X3.  The id of every record that [parse_units_robust] returns is 0 or
    more: the first field passed [isdigit] after trimming, so [int] read no
    sign. *)
Theorem record_id_is_not_negative (fs : filesystem) (filepath : string)
  (us : list SimpleUnit) (u : SimpleUnit) :
  parse_units_robust fs filepath = Ok us -> In u us -> 0 <= id u.
Proof.
  intros Hparse Hu.
  destruct (parse_provenance _ _ _ _ Hparse Hu)
    as (lines & row & _ & _ & Hcheck & He).
  apply spec_extract_fields in He as (Hid & _).
  unfold passes_digit_check in Hcheck.
  apply andb_true_iff in Hcheck as [_ Hd].
  unfold integer_of in Hid.
  destruct (Py.int _) as [v|] eqn:Hint; [| discriminate].
  injection Hid as <-. exact (minus_not_in_digits _ _ Hd Hint).
Qed.

Lemma record_id_is_not_negative_witness :
  0 <= id (mkSimpleUnit 7 "Jet" 12 8 "air" "U").
Proof.
  apply (record_id_is_not_negative
           (one_file "default.unit"
              [line "&&UNITS"; line " 7 ,Jet,8,12,,,,,,,,,U"])
           "default.unit"
           [mkSimpleUnit 7 "Jet" 12 8 "air" "U"]).
  - vm_compute. reflexivity.
  - simpl. left. reflexivity.
Defined.

(** X4.  Fields that are blank or missing take defaults.  Every record
    that [parse_units_robust] returns is the record that the inner [try]
    makes of a row of the file, and in it a blank third field of this row
    has given class 0 and so the category land, a blank fourth field picnum
    0, and fewer than thirteen fields empty regions; a field that is not
    blank has given the integer it converts to, and a thirteenth field the
    regions, trimmed. *)
Theorem blank_fields_take_defaults (fs : filesystem) (filepath : string)
  (us : list SimpleUnit) (u : SimpleUnit) :
  parse_units_robust fs filepath = Ok us -> In u us ->
  exists lines row,
    fs filepath = Some (Readable lines) /\
    In row (fst (Csv.reader lines)) /\
    (4 <= List.length row)%nat /\
    try_block row = Ok u /\
    (Py.strip (nth 2 row EmptyString) = EmptyString ->
     unit_class u = 0 /\ category u = "land") /\
    (Py.strip (nth 2 row EmptyString) <> EmptyString ->
     Py.int (Py.strip (nth 2 row EmptyString)) = Ok (unit_class u)) /\
    (Py.strip (nth 3 row EmptyString) = EmptyString -> picnum u = 0) /\
    (Py.strip (nth 3 row EmptyString) <> EmptyString ->
     Py.int (Py.strip (nth 3 row EmptyString)) = Ok (picnum u)) /\
    regions u =
    (if (12 <? List.length row)%nat then Py.strip (nth 12 row EmptyString)
     else EmptyString) /\
    Py.strip (regions u) = regions u.
Proof.
  intros Hparse Hu.
  destruct (parse_provenance _ _ _ _ Hparse Hu)
    as (lines & row & Hfs & Hrow & Hcheck & He).
  exists lines, row. split; [exact Hfs | split; [exact Hrow |]].
  unfold passes_digit_check in Hcheck.
  apply andb_true_iff in Hcheck as [Hcheck _].
  apply andb_true_iff in Hcheck as [Hlen _]. apply Nat.leb_le in Hlen.
  split; [exact Hlen |].
  split; [now rewrite (try_block_spec row Hlen), He |].
  apply spec_extract_fields in He as (_ & _ & Hclass & Hpic & Hcat & Hreg).
  unfold integer_or_zero in Hclass, Hpic.
  split; [| split; [| split; [| split; [| split]]]].
  - intros Hblank. rewrite Hblank in Hclass. injection Hclass as Hc.
    rewrite Hcat, <- Hc. now split.
  - intros Hfield. apply nonempty_iff in Hfield. rewrite Hfield in Hclass.
    unfold integer_of in Hclass.
    destruct (Py.int _) as [c|e]; [| discriminate].
    now injection Hclass as ->.
  - intros Hblank. rewrite Hblank in Hpic. injection Hpic as Hp.
    now rewrite <- Hp.
  - intros Hfield. apply nonempty_iff in Hfield. rewrite Hfield in Hpic.
    unfold integer_of in Hpic.
    destruct (Py.int _) as [c|e]; [| discriminate].
    now injection Hpic as ->.
  - destruct (Nat.ltb_spec 12 (List.length row)); [exact Hreg |].
    rewrite Hreg. apply nth_beyond_strip. lia.
  - rewrite Hreg. apply strip_idem.
Qed.

Lemma blank_fields_take_defaults_witness :
  exists lines row,
    one_file "default.unit" [line "&&UNITS"; line "7,Jet, ,"] "default.unit" =
    Some (Readable lines) /\
    In row (fst (Csv.reader lines)) /\
    try_block row = Ok (mkSimpleUnit 7 "Jet" 0 0 "land" EmptyString) /\
    Py.strip (nth 2 row EmptyString) = EmptyString /\
    Py.strip (nth 3 row EmptyString) = EmptyString /\
    (List.length row < 13)%nat.
Proof.
  destruct (blank_fields_take_defaults
              (one_file "default.unit" [line "&&UNITS"; line "7,Jet, ,"])
              "default.unit"
              [mkSimpleUnit 7 "Jet" 0 0 "land" EmptyString]
              (mkSimpleUnit 7 "Jet" 0 0 "land" EmptyString))
    as (lines & row & Hfs & Hrow & Hlen & Htry & _).
  - vm_compute. reflexivity.
  - simpl. left. reflexivity.
  - exists lines, row. split; [exact Hfs |]. split; [exact Hrow |].
    split; [exact Htry |].
    injection Hfs as <-.
    destruct Hrow as [<- | [<- | []]]; [discriminate Htry |].
    repeat split. cbn. lia.
Defined.

(** * The reader on plain lines *)

Section CsvFacts.

Lemma length_append (a b : string) :
  String.length (a ++ b) = (String.length a + String.length b)%nat.
Proof. induction a as [|c a IH]; simpl; [reflexivity | now rewrite IH]. Qed.

Lemma plain_char_tests (c : ascii) :
  plain_char c = true ->
  Ascii.eqb c Csv.delimiter = false /\ Ascii.eqb c Csv.quotechar = false /\
  Csv.is_newline c = false.
Proof.
  unfold plain_char. rewrite !andb_true_iff, !negb_true_iff. tauto.
Qed.

Lemma add_char_within_limit (r : Csv.Reader) (c : ascii) :
  (N.of_nat (S (String.length (Csv.field r))) <= Csv.field_limit)%N ->
  Csv.parse_add_char r c =
  Ok (Csv.mkReader (Csv.state r) (Csv.fields r)
        (Csv.field r ++ String c EmptyString)).
Proof.
  intros H. unfold Csv.parse_add_char.
  destruct (N.leb_spec Csv.field_limit (N.of_nat (String.length (Csv.field r))));
    [lia | reflexivity].
Qed.

(** The characters of a plain field, read inside a field. *)
Lemma process_plain_chars (s : string) :
  forall fields field rest,
    Py.forallb_str plain_char s = true ->
    (N.of_nat (String.length field + String.length s) <= Csv.field_limit)%N ->
    Csv.process_line (Csv.mkReader Csv.IN_FIELD fields field) (s ++ rest) =
    Csv.process_line (Csv.mkReader Csv.IN_FIELD fields (field ++ s)) rest.
Proof.
  induction s as [|c s IH]; intros fields field rest Hplain Hlen.
  - now rewrite append_nil_r.
  - cbn [Py.forallb_str] in Hplain. apply andb_true_iff in Hplain as [Hc Hs].
    apply plain_char_tests in Hc as (Hd & _ & Hn).
    cbn [String.append Csv.process_line String.length] in *.
    unfold Csv.parse_process_char. cbn [Csv.state].
    rewrite Hn, Hd, add_char_within_limit by (cbn [Csv.field]; lia).
    cbn [bind Csv.state Csv.fields Csv.field].
    rewrite IH; [| exact Hs | rewrite length_append; cbn; lia].
    now rewrite append_assoc.
Qed.

Lemma plain_field_parts (f : string) :
  plain_field f = true ->
  Py.forallb_str plain_char f = true /\
  (N.of_nat (String.length f) <= Csv.field_limit)%N.
Proof.
  unfold plain_field. rewrite andb_true_iff, N.leb_le. tauto.
Qed.

(** A plain field and the comma after it. *)
Lemma process_field_comma (f : string) (r : Csv.Reader) (rest : string) :
  at_field_start r -> plain_field f = true ->
  Csv.process_line r (f ++ String "," rest) =
  Csv.process_line
    (Csv.mkReader Csv.START_FIELD (Csv.fields r ++ [f]) EmptyString) rest.
Proof.
  intros [Hfield Hstate] Hplain.
  apply plain_field_parts in Hplain as [Hplain Hlen].
  destruct r as [st fs fd]. cbn [Csv.field Csv.state Csv.fields] in *.
  subst fd. destruct f as [|c f].
  - cbn [String.append Csv.process_line].
    destruct Hstate as [-> | [-> ->]]; reflexivity.
  - cbn [Py.forallb_str] in Hplain. apply andb_true_iff in Hplain as [Hc Hs].
    apply plain_char_tests in Hc as (Hd & Hq & Hn).
    cbn [String.append Csv.process_line String.length] in *.
    assert (Hfirst :
              Csv.parse_process_char (Csv.mkReader st fs EmptyString) (Some c) =
              Ok (Csv.mkReader Csv.IN_FIELD fs (String c EmptyString))).
    { unfold Csv.parse_process_char, Csv.start_field.
      destruct Hstate as [-> | [-> ->]]; cbn [Csv.state Csv.set_state];
        rewrite ?Hn, Hq, Hd; reflexivity. }
    rewrite Hfirst. cbn [bind].
    rewrite process_plain_chars; [| exact Hs | cbn [String.length]; lia].
    reflexivity.
Qed.

(** The last plain field of a line, the line feed and the end of the
    line. *)
Lemma process_last_field (f : string) (r : Csv.Reader) :
  at_field_start r -> plain_field f = true ->
  (Csv.state r = Csv.START_RECORD -> f <> EmptyString) ->
  Csv.process_line r (f ++ UnitModelBrowser.NL) =
  Ok (Csv.mkReader Csv.START_RECORD (Csv.fields r ++ [f]) EmptyString).
Proof.
  intros [Hfield Hstate] Hplain Hne.
  apply plain_field_parts in Hplain as [Hplain Hlen].
  destruct r as [st fs fd]. cbn [Csv.field Csv.state Csv.fields] in *.
  subst fd. destruct f as [|c f].
  - destruct Hstate as [-> | [-> ->]]; [reflexivity | now destruct Hne].
  - cbn [Py.forallb_str] in Hplain. apply andb_true_iff in Hplain as [Hc Hs].
    apply plain_char_tests in Hc as (Hd & Hq & Hn).
    cbn [String.append Csv.process_line String.length] in *.
    assert (Hfirst :
              Csv.parse_process_char (Csv.mkReader st fs EmptyString) (Some c) =
              Ok (Csv.mkReader Csv.IN_FIELD fs (String c EmptyString))).
    { unfold Csv.parse_process_char, Csv.start_field.
      destruct Hstate as [-> | [-> ->]]; cbn [Csv.state Csv.set_state];
        rewrite ?Hn, Hq, Hd; reflexivity. }
    rewrite Hfirst. cbn [bind].
    rewrite process_plain_chars; [| exact Hs | cbn [String.length]; lia].
    reflexivity.
Qed.

Lemma process_csv_line (fields : list string) :
  forall r,
    at_field_start r ->
    Forall (fun f => plain_field f = true) fields -> fields <> [] ->
    (Csv.state r = Csv.START_RECORD -> fields <> [EmptyString]) ->
    Csv.process_line r (csv_line fields) =
    Ok (Csv.mkReader Csv.START_RECORD (Csv.fields r ++ fields) EmptyString).
Proof.
  induction fields as [|f rest IH]; intros r Hstart Hplain Hne Hblank;
    [now destruct Hne |].
  inversion Hplain as [|? ? Hf Hrest]; subst.
  destruct rest as [|g rest].
  - unfold csv_line. cbn [String.concat].
    apply process_last_field; [assumption | assumption |].
    intros Hs ->. now apply Hblank.
  - unfold csv_line in *.
    change (String.concat "," (f :: g :: rest))
      with (f ++ String "," (String.concat "," (g :: rest))).
    rewrite append_assoc.
    change (String "," (String.concat "," (g :: rest)) ++ UnitModelBrowser.NL)
      with (String "," (String.concat "," (g :: rest) ++ UnitModelBrowser.NL)).
    rewrite process_field_comma by assumption.
    rewrite IH.
    + cbn [Csv.fields]. now rewrite <- app_assoc.
    + split; [reflexivity | now left].
    + exact Hrest.
    + discriminate.
    + cbn [Csv.state]. discriminate.
Qed.

Lemma rows_from_plain_lines (rows : list (list string))
  (lines : list string) :
  Forall plain_row rows ->
  Csv.rows_from Csv.parse_reset (map csv_line rows ++ lines) =
  (rows ++ fst (Csv.rows_from Csv.parse_reset lines),
   snd (Csv.rows_from Csv.parse_reset lines))%list.
Proof.
  induction 1 as [|fields rest (Hplain & Hne & Hblank) _ IH];
    cbn [map app].
  - now destruct (Csv.rows_from _ _).
  - cbn [Csv.rows_from].
    rewrite process_csv_line;
      [| split; [reflexivity | right; now split] | assumption | assumption
       | intros _; assumption ].
    cbn [Csv.state Csv.fields app]. now rewrite IH.
Qed.

End CsvFacts.

(** X5.  A line of plain fields joined by commas is read as these fields:
    for lines built that way the reader yields the rows they were built
    from and raises nothing, and [parse_units_robust] on a file of these
    lines returns the records of the rows. *)
Theorem plain_lines_are_split_at_commas (path : string)
  (rows : list (list string)) :
  Forall plain_row rows ->
  Csv.reader (map csv_line rows) = (rows, None) /\
  parse_units_robust (one_file path (map csv_line rows)) path =
  Ok (parse_rows rows).
Proof.
  intros H.
  assert (Hreader : Csv.reader (map csv_line rows) = (rows, None)).
  { unfold Csv.reader.
    rewrite <- (app_nil_r (map csv_line rows)), rows_from_plain_lines by exact H.
    cbn. now rewrite app_nil_r. }
  split; [exact Hreader |].
  rewrite (parse_units_robust_readable _ _ (map csv_line rows)).
  - now rewrite Hreader.
  - unfold one_file. now rewrite String.eqb_refl.
Qed.

Lemma plain_lines_are_split_at_commas_witness :
  let rows := [[MARKER]; ["7"; "Jet"; "8"; "12"; EmptyString; "U S"]] in
  Csv.reader (map csv_line rows) = (rows, None) /\
  parse_units_robust (one_file "default.unit" (map csv_line rows))
    "default.unit" = Ok (parse_rows rows).
Proof.
  intros rows. apply plain_lines_are_split_at_commas.
  repeat constructor; try (vm_compute; reflexivity); discriminate.
Defined.

(** X6.  A line on which the reader fails ends the parse without an error:
    the records of the lines before it are returned, and the lines after it
    are not read. *)
Theorem reader_failure_keeps_earlier_records (path : string)
  (rows : list (list string)) (bad : string) (rest : list string) (e : exn) :
  Forall plain_row rows ->
  Csv.process_line Csv.parse_reset bad = Raise e ->
  parse_units_robust (one_file path (map csv_line rows ++ bad :: rest)) path =
  Ok (parse_rows rows).
Proof.
  intros H Hbad.
  rewrite (parse_units_robust_readable _ _ (map csv_line rows ++ bad :: rest)).
  - unfold Csv.reader. rewrite rows_from_plain_lines by exact H.
    cbn [Csv.rows_from]. rewrite Hbad. cbn [fst]. now rewrite app_nil_r.
  - unfold one_file. now rewrite String.eqb_refl.
Qed.

(** A carriage return inside a line, between two data lines: the second is
    lost. *)
Lemma reader_failure_keeps_earlier_records_witness :
  parse_units_robust
    (one_file "default.unit"
       (map csv_line [[MARKER]; ["1"; "Tank"; "3"; "450"]] ++
        String "a" (String "013" "b") :: [line "2,Jet,8,12"]))
    "default.unit" =
  Ok (parse_rows [[MARKER]; ["1"; "Tank"; "3"; "450"]]).
Proof.
  apply (reader_failure_keeps_earlier_records _ _ _ _ CsvError).
  - repeat constructor; try (vm_compute; reflexivity); discriminate.
  - vm_compute. reflexivity.
Defined.

(** * The list that the filters show *)

Section ListFacts.

Import UnitModelBrowser.

Lemma compare_lt_trans (s1 : string) :
  forall s2 s3,
    String.compare s1 s2 = Lt -> String.compare s2 s3 = Lt ->
    String.compare s1 s3 = Lt.
Proof.
  induction s1 as [|a s1 IH]; intros [|b s2] [|c s3]; simpl; try congruence.
  unfold Ascii.compare.
  destruct (N.compare_spec (N_of_ascii a) (N_of_ascii b)) as [E1|L1|G1];
    try discriminate;
    destruct (N.compare_spec (N_of_ascii b) (N_of_ascii c)) as [E2|L2|G2];
    try discriminate; intros H1 H2.
  - rewrite E1, E2, N.compare_refl. eauto.
  - rewrite E1. now apply N.compare_lt_iff in L2 as ->.
  - rewrite <- E2. now apply N.compare_lt_iff in L1 as ->.
  - assert (H : (N_of_ascii a < N_of_ascii c)%N) by lia.
    now apply N.compare_lt_iff in H as ->.
Qed.

Lemma string_leb_trans (s1 s2 s3 : string) :
  String.leb s1 s2 = true -> String.leb s2 s3 = true ->
  String.leb s1 s3 = true.
Proof.
  unfold String.leb. intros H1 H2.
  destruct (String.compare s1 s2) eqn:E1; [| | discriminate].
  - apply String.compare_eq_iff in E1. now subst.
  - destruct (String.compare s2 s3) eqn:E2; [| | discriminate].
    + apply String.compare_eq_iff in E2. subst. now rewrite E1.
    + now rewrite (compare_lt_trans _ _ _ E1 E2).
Qed.

Lemma string_leb_refl (s : string) : String.leb s s = true.
Proof. now destruct (String.leb_total s s). Qed.

Lemma pair_leb_total (a b : Z * string) :
  pair_leb a b = true \/ pair_leb b a = true.
Proof.
  unfold pair_leb. destruct a as [x s], b as [y t]. cbn [fst snd].
  destruct (Z.lt_total x y) as [H | [H | H]].
  - left. apply Z.ltb_lt in H. now rewrite H.
  - subst y. rewrite Z.eqb_refl, Z.ltb_irrefl. cbn [orb andb].
    apply String.leb_total.
  - right. apply Z.ltb_lt in H. now rewrite H.
Qed.

Lemma pair_leb_trans (a b c : Z * string) :
  pair_leb a b = true -> pair_leb b c = true -> pair_leb a c = true.
Proof.
  unfold pair_leb. destruct a as [x s], b as [y t], c as [z w].
  cbn [fst snd]. rewrite !orb_true_iff, !andb_true_iff, !Z.ltb_lt, !Z.eqb_eq.
  intros [H1 | [H1 L1]] [H2 | [H2 L2]]; try (left; lia).
  right. split; [lia | now apply (string_leb_trans s t w)].
Qed.

Section SortBy.

Context {K : Type} (le : K -> K -> bool) (key : SimpleUnit -> K).

Let R (u v : SimpleUnit) : Prop := le (key u) (key v) = true.

Lemma Permutation_insert_by (x : SimpleUnit) (l : list SimpleUnit) :
  Permutation (insert_by le key x l) (x :: l).
Proof.
  induction l as [|y l IH]; cbn [insert_by]; [reflexivity |].
  destruct (le (key x) (key y)); [reflexivity |].
  rewrite IH. apply perm_swap.
Qed.

Lemma Permutation_sort_by (l : list SimpleUnit) :
  Permutation (sort_by le key l) l.
Proof.
  unfold sort_by. induction l as [|x l IH]; cbn [fold_right];
    [reflexivity |].
  rewrite Permutation_insert_by. now constructor.
Qed.

Hypothesis le_total : forall a b, le a b = true \/ le b a = true.
Hypothesis le_trans :
  forall a b c, le a b = true -> le b c = true -> le a c = true.

Lemma sorted_insert_by (x : SimpleUnit) (l : list SimpleUnit) :
  StronglySorted R l -> StronglySorted R (insert_by le key x l).
Proof.
  induction 1 as [|y l Hl IH Hy]; cbn [insert_by].
  - repeat constructor.
  - destruct (le (key x) (key y)) eqn:Hxy.
    + constructor; [now constructor |].
      constructor; [exact Hxy |].
      rewrite Forall_forall in *. intros z Hz. unfold R.
      apply (le_trans _ (key y)); [exact Hxy | now apply Hy].
    + constructor; [exact IH |].
      rewrite Forall_forall in *. intros z Hz.
      apply In_insert_by in Hz as [-> | Hz]; [| now apply Hy].
      unfold R. destruct (le_total (key x) (key y)); congruence.
Qed.

Lemma sorted_sort_by (l : list SimpleUnit) :
  StronglySorted R (sort_by le key l).
Proof.
  unfold sort_by. induction l as [|x l IH]; cbn [fold_right].
  - constructor.
  - now apply sorted_insert_by.
Qed.

End SortBy.

Lemma StronglySorted_impl {A : Type} (R1 R2 : A -> A -> Prop) (l : list A) :
  (forall x y, R1 x y -> R2 x y) ->
  StronglySorted R1 l -> StronglySorted R2 l.
Proof.
  intros H. induction 1 as [|x l Hl IH Hx]; constructor; [exact IH |].
  rewrite Forall_forall in *. auto.
Qed.

(** The units with one property keep their order when the property holds of
    units of equal keys only. *)
Lemma filter_sort_by {K : Type} (le : K -> K -> bool)
  (key : SimpleUnit -> K) (p : SimpleUnit -> bool) (l : list SimpleUnit) :
  (forall x y, p x = true -> p y = true -> le (key x) (key y) = true) ->
  filter p (sort_by le key l) = filter p l.
Proof.
  intros Hp. unfold sort_by.
  induction l as [|x l IH]; cbn [fold_right filter]; [reflexivity |].
  rewrite <- IH. generalize (fold_right (insert_by le key) [] l) as s.
  intros s. induction s as [|y s IHs]; cbn [insert_by filter].
  - reflexivity.
  - destruct (le (key x) (key y)) eqn:Hxy; cbn [filter]; [reflexivity |].
    rewrite IHs. destruct (p x) eqn:Hx, (p y) eqn:Hy; try reflexivity.
    rewrite (Hp x y Hx Hy) in Hxy. discriminate.
Qed.

Lemma Permutation_sort_units (mode : string) (l : list SimpleUnit) :
  Permutation (sort_units mode l) l.
Proof.
  unfold sort_units.
  repeat (match goal with
          | |- context [if ?c then _ else _] => destruct c
          end; [apply Permutation_sort_by |]).
  reflexivity.
Qed.

Lemma converse_total {K : Type} (le : K -> K -> bool) :
  (forall a b, le a b = true \/ le b a = true) ->
  forall a b, converse le a b = true \/ converse le b a = true.
Proof. unfold converse. intros H a b. destruct (H a b); auto. Qed.

Lemma converse_trans {K : Type} (le : K -> K -> bool) :
  (forall a b c, le a b = true -> le b c = true -> le a c = true) ->
  forall a b c,
    converse le a b = true -> converse le b c = true ->
    converse le a c = true.
Proof. unfold converse. eauto. Qed.

Lemma Z_leb_total (a b : Z) : (a <=? b) = true \/ (b <=? a) = true.
Proof. rewrite !Z.leb_le. lia. Qed.

Lemma Z_leb_trans (a b c : Z) :
  (a <=? b) = true -> (b <=? c) = true -> (a <=? c) = true.
Proof. rewrite !Z.leb_le. lia. Qed.

Lemma nonempty_false_iff (s : string) :
  Py.nonempty s = false <-> s = EmptyString.
Proof. destruct s; simpl; split; congruence. Qed.

Lemma shown_show_filtered (b : Browser) (region_code : option string) :
  shown (show_filtered b region_code) =
  sort_units (sort_combo b)
    (filter (keep (Py.lower (search_input b)) (Py.lower (cat_combo b))
               region_code)
       (units b)).
Proof. apply shown_units. Qed.

End ListFacts.

(** X7.  The list that the filters show holds each unit of the window that
    passes the three tests as often as the window holds it, none twice and
    none left out, and the label under the list gives the number of
    items. *)
Theorem shown_list_is_the_filtered_units (b : UnitModelBrowser.Browser)
  (region_code : option string) :
  let b' := UnitModelBrowser.show_filtered b region_code in
  Permutation (shown b')
    (filter
       (UnitModelBrowser.keep (Py.lower (UnitModelBrowser.search_input b))
          (Py.lower (UnitModelBrowser.cat_combo b)) region_code)
       (UnitModelBrowser.units b)) /\
  UnitModelBrowser.lbl_count b' =
  Py.str (Z.of_nat (List.length (UnitModelBrowser.unit_list b'))) ++
  " units loaded" /\
  (List.length (UnitModelBrowser.unit_list b') <=
   List.length (UnitModelBrowser.units b))%nat.
Proof.
  intros b'. assert (Hperm := Permutation_sort_units
    (UnitModelBrowser.sort_combo b)
    (filter
       (UnitModelBrowser.keep (Py.lower (UnitModelBrowser.search_input b))
          (Py.lower (UnitModelBrowser.cat_combo b)) region_code)
       (UnitModelBrowser.units b))).
  rewrite <- shown_show_filtered in Hperm. fold b' in Hperm.
  split; [exact Hperm | split].
  - unfold b', UnitModelBrowser.show_filtered.
    cbn [UnitModelBrowser.lbl_count UnitModelBrowser.set_lbl_count
         UnitModelBrowser.unit_list UnitModelBrowser.set_unit_list].
    now rewrite length_map.
  - apply Permutation_length in Hperm. unfold shown in Hperm.
    rewrite length_map in Hperm. rewrite Hperm. apply filter_length_le.
Qed.

(** X8.  The three tests of the filter are joined by "and": a unit is in the
    list exactly when it is a unit of the window, its category is the
    selected one or all categories are selected, the search text is empty
    or occurs in its name in lower case or in its id, and the region test
    lets it through. *)
Theorem unit_is_shown_when_all_tests_pass (b : UnitModelBrowser.Browser)
  (region_code : option string) (u : SimpleUnit) :
  let txt := Py.lower (UnitModelBrowser.search_input b) in
  let cat := Py.lower (UnitModelBrowser.cat_combo b) in
  In u (shown (UnitModelBrowser.show_filtered b region_code)) <->
  In u (UnitModelBrowser.units b) /\
  (cat = "all" \/ category u = cat) /\
  (txt = EmptyString \/ occurs txt (Py.lower (name u)) \/
   occurs txt (Py.str (id u))) /\
  UnitModelBrowser.region_skip region_code u = false.
Proof.
  intros txt cat. rewrite shown_show_filtered, In_sort_units, filter_In.
  fold txt cat. unfold UnitModelBrowser.keep, UnitModelBrowser.category_skip,
    UnitModelBrowser.search_skip.
  rewrite !andb_true_iff, !negb_true_iff, !andb_false_iff, !negb_false_iff.
  rewrite !String.eqb_eq, !str_in_iff.
  rewrite nonempty_false_iff. tauto.
Qed.

Section SortedList.

Import UnitModelBrowser.

Lemma sort_units_modes (l : list SimpleUnit) :
  sort_units ("ID " ++ ARROW_UP) l = sort_by Z.leb id l /\
  sort_units ("ID " ++ ARROW_DOWN) l = sort_by (converse Z.leb) id l /\
  sort_units "Name A-Z" l =
  sort_by String.leb (fun u => Py.lower (name u)) l /\
  sort_units "Name Z-A" l =
  sort_by (converse String.leb) (fun u => Py.lower (name u)) l /\
  sort_units "Class" l =
  sort_by pair_leb (fun u => (unit_class u, Py.lower (name u))) l /\
  sort_units "Picnum" l = sort_by Z.leb picnum l.
Proof. repeat split. Qed.

Lemma pair_leb_spec (a b : Z * string) :
  pair_leb a b = true ->
  fst a < fst b \/ (fst a = fst b /\ String.leb (snd a) (snd b) = true).
Proof.
  unfold pair_leb. rewrite orb_true_iff, andb_true_iff, Z.ltb_lt, Z.eqb_eq.
  tauto.
Qed.

Lemma pair_leb_refl (a : Z * string) : pair_leb a a = true.
Proof. now destruct (pair_leb_total a a). Qed.

End SortedList.

(** X9.  The list is in the order that the sort box names: by id upwards or
    downwards, by name in lower case from A to Z or from Z to A, by class
    and then name, or by picnum; every item stands in that order to every
    item after it. *)
Theorem shown_list_is_sorted (b : UnitModelBrowser.Browser)
  (region_code : option string) :
  let l := shown (UnitModelBrowser.show_filtered b region_code) in
  let lname := fun u => Py.lower (name u) in
  (UnitModelBrowser.sort_combo b = "ID " ++ UnitModelBrowser.ARROW_UP ->
   StronglySorted (fun u v => id u <= id v) l) /\
  (UnitModelBrowser.sort_combo b = "ID " ++ UnitModelBrowser.ARROW_DOWN ->
   StronglySorted (fun u v => id v <= id u) l) /\
  (UnitModelBrowser.sort_combo b = "Name A-Z" ->
   StronglySorted (fun u v => String.leb (lname u) (lname v) = true) l) /\
  (UnitModelBrowser.sort_combo b = "Name Z-A" ->
   StronglySorted (fun u v => String.leb (lname v) (lname u) = true) l) /\
  (UnitModelBrowser.sort_combo b = "Class" ->
   StronglySorted
     (fun u v =>
        unit_class u < unit_class v \/
        (unit_class u = unit_class v /\
         String.leb (lname u) (lname v) = true)) l) /\
  (UnitModelBrowser.sort_combo b = "Picnum" ->
   StronglySorted (fun u v => picnum u <= picnum v) l).
Proof.
  intros l lname. unfold l. rewrite shown_show_filtered.
  set (kept := filter _ _).
  destruct (sort_units_modes kept) as (Hup & Hdown & Haz & Hza & Hclass & Hpic).
  repeat split; intros ->.
  - rewrite Hup.
    apply (StronglySorted_impl
             (fun u v => Z.leb (id u) (id v) = true) _ _
             (fun u v => proj1 (Z.leb_le _ _))).
    exact (sorted_sort_by Z.leb id Z_leb_total Z_leb_trans kept).
  - rewrite Hdown.
    apply (StronglySorted_impl
             (fun u v => UnitModelBrowser.converse Z.leb (id u) (id v) = true)
             _ _ (fun u v => proj1 (Z.leb_le _ _))).
    exact (sorted_sort_by (UnitModelBrowser.converse Z.leb) id
             (converse_total _ Z_leb_total) (converse_trans _ Z_leb_trans)
             kept).
  - rewrite Haz.
    exact (sorted_sort_by String.leb lname String.leb_total string_leb_trans
             kept).
  - rewrite Hza.
    exact (sorted_sort_by (UnitModelBrowser.converse String.leb) lname
             (converse_total _ String.leb_total)
             (converse_trans _ string_leb_trans) kept).
  - rewrite Hclass.
    apply (StronglySorted_impl
             (fun u v =>
                UnitModelBrowser.pair_leb (unit_class u, lname u)
                  (unit_class v, lname v) = true) _ _
             (fun u v => pair_leb_spec _ _)).
    exact (sorted_sort_by UnitModelBrowser.pair_leb
             (fun u => (unit_class u, lname u)) pair_leb_total pair_leb_trans
             kept).
  - rewrite Hpic.
    apply (StronglySorted_impl
             (fun u v => Z.leb (picnum u) (picnum v) = true) _ _
             (fun u v => proj1 (Z.leb_le _ _))).
    exact (sorted_sort_by Z.leb picnum Z_leb_total Z_leb_trans kept).
Qed.

(** The sample window sorted by id downwards. *)
Lemma shown_list_is_sorted_witness :
  StronglySorted (fun u v => id v <= id u)
    (shown
       (UnitModelBrowser.show_filtered
          (UnitModelBrowser.mkBrowser "SR2030" (fun _ => "Meshes") sample_units
             EmptyString "All" ("ID " ++ UnitModelBrowser.ARROW_DOWN)
             "All Regions" EmptyString [] EmptyString EmptyString EmptyString
             EmptyString false None [] [])
          None)).
Proof.
  apply (proj1 (proj2 (shown_list_is_sorted _ None))). reflexivity.
Defined.

(** X10.  Sorting is stable in every order, the downward ones too: units
    with the same sort key stay in the order they had, so each selection of
    units that share their key comes out of the sort as it went in. *)
Theorem sorting_keeps_the_order_of_equal_keys (sort_mode : string)
  (p : SimpleUnit -> bool) (l : list SimpleUnit) :
  (forall x y,
     p x = true -> p y = true -> sort_key sort_mode x = sort_key sort_mode y) ->
  filter p (UnitModelBrowser.sort_units sort_mode l) = filter p l.
Proof.
  unfold sort_key, UnitModelBrowser.sort_units. intros Hp.
  destruct (String.eqb sort_mode ("ID " ++ UnitModelBrowser.ARROW_UP)).
  { apply filter_sort_by. intros x y Hx Hy.
    specialize (Hp x y Hx Hy). cbn [orb] in Hp. injection Hp as Hk.
    apply Z.leb_le. lia. }
  destruct (String.eqb sort_mode ("ID " ++ UnitModelBrowser.ARROW_DOWN)).
  { apply filter_sort_by. intros x y Hx Hy.
    specialize (Hp x y Hx Hy). cbn [orb] in Hp. injection Hp as Hk.
    apply Z.leb_le. lia. }
  cbn [orb] in Hp.
  destruct (String.eqb sort_mode "Name A-Z").
  { apply filter_sort_by. intros x y Hx Hy.
    specialize (Hp x y Hx Hy). cbn [orb] in Hp. injection Hp as Hk.
    pose proof (string_leb_refl (Py.lower (name y))) as H.
    rewrite <- Hk in H at 1. exact H. }
  destruct (String.eqb sort_mode "Name Z-A").
  { apply filter_sort_by. intros x y Hx Hy.
    specialize (Hp x y Hx Hy). cbn [orb] in Hp. injection Hp as Hk.
    pose proof (string_leb_refl (Py.lower (name y))) as H.
    rewrite <- Hk in H at 2. exact H. }
  cbn [orb] in Hp.
  destruct (String.eqb sort_mode "Class").
  { apply filter_sort_by. intros x y Hx Hy.
    specialize (Hp x y Hx Hy).
    pose proof (pair_leb_refl (unit_class y, Py.lower (name y))) as H.
    rewrite <- Hp in H at 1. exact H. }
  destruct (String.eqb sort_mode "Picnum"); [| reflexivity].
  apply filter_sort_by. intros x y Hx Hy.
  specialize (Hp x y Hx Hy). injection Hp as Hk.
  apply Z.leb_le. lia.
Qed.

(** Two units with id 2 among others, sorted by id downwards. *)
Lemma sorting_keeps_the_order_of_equal_keys_witness :
  let l :=
    [mkSimpleUnit 2 "first" 7 3 "land" "G"; mkSimpleUnit 5 "Jet" 12 8 "air" "U";
     mkSimpleUnit 2 "second" 9 3 "land" "*"] in
  filter (fun u => id u =? 2)
    (UnitModelBrowser.sort_units ("ID " ++ UnitModelBrowser.ARROW_DOWN) l) =
  filter (fun u => id u =? 2) l.
Proof.
  intros l. apply sorting_keeps_the_order_of_equal_keys.
  intros x y Hx Hy. apply Z.eqb_eq in Hx, Hy.
  change (sort_key ("ID " ++ UnitModelBrowser.ARROW_DOWN) x)
    with (id x, EmptyString).
  change (sort_key ("ID " ++ UnitModelBrowser.ARROW_DOWN) y)
    with (id y, EmptyString).
  now rewrite Hx, Hy.
Defined.

(** * The window from one event to the next *)

Section WindowFacts.

Import UnitModelBrowser.

Lemma show_filtered_again (b : Browser) (c1 c2 : option string) :
  show_filtered (show_filtered b c1) c2 = show_filtered b c2.
Proof. reflexivity. Qed.

Lemma filter_list_all_regions (b : Browser) :
  region_combo b = "All Regions" -> filter_list b = show_filtered b None.
Proof. intros H. unfold filter_list. now rewrite H. Qed.

(** Only the custom entry of a table carries the code of the custom
    entry. *)
Lemma custom_code_label (mode label code : string) :
  table_code (REGIONS mode) label = Some code ->
  String.eqb code "CUSTOM" = true -> label = "Custom...".
Proof.
  unfold table_code. intros Hfind Hcode.
  destruct (find _ _) as [[l c]|] eqn:E; [| discriminate].
  apply find_some in E as [Hin Hl]. cbn [fst] in Hl.
  apply String.eqb_eq in Hl. subst l c.
  assert (Hall :
            forallb
              (fun entry =>
                 match snd entry with
                 | Some c =>
                     negb (String.eqb c "CUSTOM") ||
                     String.eqb (fst entry) "Custom..."
                 | None => true
                 end)
              (REGIONS mode) = true)
    by (unfold REGIONS; destruct (String.eqb mode "SRU");
        vm_compute; reflexivity).
  rewrite forallb_forall in Hall. apply Hall in Hin. cbn [fst snd] in Hin.
  rewrite Hcode in Hin. cbn [negb orb] in Hin. now apply String.eqb_eq.
Qed.

Lemma settings_getText (b : Browser) : settings (snd (getText b)) = settings b.
Proof. unfold getText. now destruct (input_dialog b). Qed.

(** [filter_list] leaves the units and the settings of the window alone. *)
Lemma settings_filter_list (b : Browser) : settings (filter_list b) = settings b.
Proof.
  unfold filter_list, reset_region_combo.
  destruct (Py.startswith _ _); [reflexivity |].
  destruct (String.eqb (region_combo b) _); [reflexivity |].
  destruct (table_code _ _) as [code|]; [| reflexivity].
  destruct (String.eqb code _); [| reflexivity].
  pose proof (settings_getText b) as H.
  destruct (getText b) as [[txt|] b']; cbn [snd] in H.
  - destruct (Py.nonempty txt); exact H.
  - exact H.
Qed.

Lemma region_filter_list_all (b : Browser) :
  region_combo b = "All Regions" ->
  region_combo (filter_list b) = "All Regions".
Proof. intros H. now rewrite (filter_list_all_regions _ H). Qed.

Lemma check_textures_settings (disk : Disk) (b : Browser) (mesh_dir : Path)
  (n : Z) :
  settings (fst (check_textures disk b mesh_dir n)) = settings b /\
  region_combo (fst (check_textures disk b mesh_dir n)) = region_combo b.
Proof. unfold check_textures. destruct (negb _); split; reflexivity. Qed.

Lemma keep_everything (u : SimpleUnit) :
  keep (Py.lower EmptyString) (Py.lower "All") None u = true.
Proof. reflexivity. Qed.

Lemma filter_all {A : Type} (f : A -> bool) (l : list A) :
  (forall x, f x = true) -> filter f l = l.
Proof.
  intros H. induction l as [|x l IH]; cbn [filter]; [reflexivity |].
  now rewrite H, IH.
Qed.

End WindowFacts.

(** X11.  Applying the filters again shows the same window: unless the
    custom entry of the region box is selected, which asks the user each
    time, [filter_list] after [filter_list] changes nothing. *)
Theorem filter_list_twice_is_filter_list_once (b : UnitModelBrowser.Browser) :
  UnitModelBrowser.region_combo b <> "Custom..." ->
  UnitModelBrowser.filter_list (UnitModelBrowser.filter_list b) =
  UnitModelBrowser.filter_list b.
Proof.
  intros Hcustom. unfold UnitModelBrowser.filter_list at 2 3.
  unfold UnitModelBrowser.reset_region_combo.
  destruct (Py.startswith _ _) eqn:Hsep.
  { now rewrite filter_list_all_regions. }
  destruct (String.eqb (UnitModelBrowser.region_combo b) _) eqn:Hall.
  { apply String.eqb_eq in Hall. now rewrite filter_list_all_regions. }
  destruct (UnitModelBrowser.table_code _ _) as [code|] eqn:Hcode.
  - destruct (String.eqb code "CUSTOM") eqn:Hc.
    + now destruct (Hcustom (custom_code_label _ _ _ Hcode Hc)).
    + unfold UnitModelBrowser.filter_list.
      change (UnitModelBrowser.region_combo
                (UnitModelBrowser.show_filtered b (Some code)))
        with (UnitModelBrowser.region_combo b).
      change (UnitModelBrowser.current_mode
                (UnitModelBrowser.show_filtered b (Some code)))
        with (UnitModelBrowser.current_mode b).
      now rewrite Hsep, Hall, Hcode, Hc.
  - unfold UnitModelBrowser.filter_list.
    change (UnitModelBrowser.region_combo
              (UnitModelBrowser.show_filtered b None))
      with (UnitModelBrowser.region_combo b).
    change (UnitModelBrowser.current_mode
              (UnitModelBrowser.show_filtered b None))
      with (UnitModelBrowser.current_mode b).
    now rewrite Hsep, Hall, Hcode.
Qed.

Lemma filter_list_twice_is_filter_list_once_witness :
  UnitModelBrowser.filter_list
    (UnitModelBrowser.filter_list (sample_browser "SR2030" EmptyString)) =
  UnitModelBrowser.filter_list (sample_browser "SR2030" EmptyString).
Proof.
  apply filter_list_twice_is_filter_list_once. discriminate.
Defined.

(** X12.  A lookup by picnum empties the search text and selects all
    categories, and Clear does not bring them back: with all regions
    selected, Clear after a lookup shows every unit of the window, whatever
    the search text and the category were before the lookup. *)
Theorem clear_after_lookup_shows_all_units (disk : UnitModelBrowser.Disk)
  (b b' : UnitModelBrowser.Browser) (asked : list UnitModelBrowser.Path)
  (target : Z) :
  UnitModelBrowser.region_combo b = "All Regions" ->
  Py.int (Py.strip (UnitModelBrowser.picnum_input b)) = Ok target ->
  UnitModelBrowser.search_by_picnum disk b = Ok (b', asked) ->
  UnitModelBrowser.search_input b' = EmptyString /\
  UnitModelBrowser.cat_combo b' = "All" /\
  UnitModelBrowser.sort_combo b' = UnitModelBrowser.sort_combo b /\
  Permutation (shown (UnitModelBrowser.clear_picnum_search b'))
    (UnitModelBrowser.units b).
Proof.
  intros Hregion Hint Hsearch.
  unfold UnitModelBrowser.search_by_picnum in Hsearch.
  rewrite (int_ok_nonempty _ _ Hint), Hint in Hsearch. cbn [negb] in Hsearch.
  set (b1 := UnitModelBrowser.search_input_clear b) in Hsearch.
  set (b2 := UnitModelBrowser.cat_combo_setCurrentIndex_0 b1) in Hsearch.
  assert (H1 : settings b1 =
               (UnitModelBrowser.current_mode b, UnitModelBrowser.units b,
                EmptyString, UnitModelBrowser.cat_combo b,
                UnitModelBrowser.sort_combo b,
                UnitModelBrowser.picnum_input b) /\
               UnitModelBrowser.region_combo b1 = "All Regions").
  { unfold b1, UnitModelBrowser.search_input_clear.
    destruct (Py.nonempty _) eqn:Hne.
    - split; [now rewrite settings_filter_list |].
      now apply region_filter_list_all.
    - apply nonempty_false_iff in Hne. unfold settings. now rewrite Hne. }
  destruct H1 as [H1 R1].
  assert (H2 : settings b2 =
               (UnitModelBrowser.current_mode b, UnitModelBrowser.units b,
                EmptyString, "All", UnitModelBrowser.sort_combo b,
                UnitModelBrowser.picnum_input b) /\
               UnitModelBrowser.region_combo b2 = "All Regions").
  { unfold b2, UnitModelBrowser.cat_combo_setCurrentIndex_0.
    destruct (String.eqb _ _) eqn:Hcat.
    - apply String.eqb_eq in Hcat. split; [| exact R1].
      unfold settings in *. congruence.
    - split; [rewrite settings_filter_list |
              apply region_filter_list_all; exact R1].
      unfold settings in *. cbn. congruence. }
  destruct H2 as [H2 R2].
  assert (Hfinal : settings b' = settings b2 /\
                   UnitModelBrowser.region_combo b' = "All Regions").
  { destruct (_ =? 0) in Hsearch.
    - injection Hsearch as <- _. split; [reflexivity | exact R2].
    - injection Hsearch as Hb. apply (f_equal fst) in Hb. cbn [fst] in Hb.
      rewrite <- Hb.
      match goal with
      | |- context [UnitModelBrowser.check_textures ?d ?w ?p ?n] =>
          destruct (check_textures_settings d w p n) as [Hs Hr]
      end.
      rewrite Hs, Hr. split; [reflexivity | exact R2]. }
  destruct Hfinal as [Hs Hr]. rewrite H2 in Hs. unfold settings in Hs.
  injection Hs as Hmode Hunits Hsearch' Hcat Hsort Hpic.
  repeat split; try assumption.
  unfold UnitModelBrowser.clear_picnum_search.
  rewrite filter_list_all_regions by exact Hr.
  rewrite shown_show_filtered.
  cbn [UnitModelBrowser.search_input UnitModelBrowser.cat_combo
       UnitModelBrowser.units UnitModelBrowser.sort_combo
       UnitModelBrowser.set_picnum_input].
  rewrite Hsearch', Hcat, Hunits.
  rewrite (filter_all _ _ keep_everything).
  apply Permutation_sort_units.
Qed.

(** The sample window, which shows the unit named Jet only before the
    lookup. *)
Lemma clear_after_lookup_shows_all_units_witness :
  let b :=
    UnitModelBrowser.mkBrowser "SR2030" (fun _ => "Meshes") sample_units
      "jet" "Air" "Name A-Z" "All Regions" "7" [] EmptyString EmptyString
      EmptyString EmptyString false None [] [] in
  exists b',
    UnitModelBrowser.search_by_picnum (disk_with []) b =
    Ok (b', [UnitModelBrowser.PathOf "Meshes"]) /\
    Permutation (shown (UnitModelBrowser.clear_picnum_search b'))
      (UnitModelBrowser.units b).
Proof.
  intros b. eexists. split.
  - vm_compute. reflexivity.
  - eapply (clear_after_lookup_shows_all_units (disk_with []) b _
              [UnitModelBrowser.PathOf "Meshes"] 7).
    + reflexivity.
    + vm_compute. reflexivity.
    + vm_compute. reflexivity.
Defined.

(** * Textures, the mesh kept for the viewer, shared meshes *)

Section TextureFacts.

Import UnitModelBrowser.

Lemma distinctb_NoDup (l : list string) : distinctb l = true -> NoDup l.
Proof.
  induction l as [|x l IH]; cbn [distinctb]; intros H; constructor.
  - apply andb_true_iff in H as [H _]. apply negb_true_iff in H.
    intros Hin. apply Bool.not_true_iff_false in H. apply H.
    apply existsb_exists. exists x. split; [exact Hin | apply String.eqb_refl].
  - apply andb_true_iff in H as [_ H]. now apply IH.
Qed.

Lemma NoDup_map_append (base : string) (l : list string) :
  NoDup l -> NoDup (map (String.append base) l).
Proof.
  induction 1 as [|x l Hx Hl IH]; cbn [map]; constructor; [| exact IH].
  rewrite in_map_iff. intros (y & Heq & Hy).
  apply append_inv_head in Heq. now subst y.
Qed.

Lemma upper_suffixes (c : ascii) :
  is_upper c = true ->
  existsb (String.eqb (String c ".dds")) (texture_patterns EmptyString) = true /\
  existsb (String.eqb (String c ".png")) (texture_patterns EmptyString) = true.
Proof.
  destruct c as [[] [] [] [] [] [] [] []]; intros H; try discriminate H;
    split; vm_compute; reflexivity.
Qed.

Lemma In_existsb_eqb (x : string) (l : list string) :
  existsb (String.eqb x) l = true -> In x l.
Proof.
  intros H. apply existsb_exists in H as (y & Hy & E).
  apply String.eqb_eq in E. now subst y.
Qed.

Lemma suffix_candidates (suffix : string) :
  In suffix (texture_patterns EmptyString) <->
  texture_candidate EmptyString suffix.
Proof.
  split.
  - assert (H : Forall (texture_candidate EmptyString)
                  (texture_patterns EmptyString)).
    { unfold texture_candidate.
      repeat constructor;
        first [ exists ".dds"; split; [now left |]; first
                  [ now left
                  | right; eexists; split; [| reflexivity]; reflexivity ]
              | exists ".png"; split; [now right |]; first
                  [ now left
                  | right; eexists; split; [| reflexivity]; reflexivity ] ]. }
    rewrite Forall_forall in H. apply H.
  - intros (ext & Hext & [-> | (c & Hc & ->)]); cbn [String.append].
    + destruct Hext as [-> | ->]; apply In_existsb_eqb; reflexivity.
    + destruct (upper_suffixes c Hc) as [Hd Hp].
      destruct Hext as [-> | ->]; now apply In_existsb_eqb.
Qed.

Lemma pattern_candidates (base name : string) :
  In name (texture_patterns base) <-> texture_candidate base name.
Proof.
  rewrite texture_patterns_suffixes, in_map_iff. split.
  - intros (suffix & <- & Hin). apply suffix_candidates in Hin.
    destruct Hin as (ext & Hext & [-> | (c & Hc & ->)]); exists ext;
      (split; [exact Hext |]).
    + now left.
    + right. now exists c.
  - intros (ext & Hext & [-> | (c & Hc & ->)]).
    + exists ext. split; [reflexivity |]. apply suffix_candidates.
      exists ext. split; [exact Hext | now left].
    + exists (String c ext). split; [reflexivity |]. apply suffix_candidates.
      exists ext. split; [exact Hext |]. right. now exists c.
Qed.

Lemma append_eq_self (s t : string) : s ++ t = s -> t = EmptyString.
Proof.
  intros H. rewrite <- (append_nil_r s) in H at 2.
  now apply append_inv_head in H.
Qed.

End TextureFacts.

(** X13.  [check_textures] asks the disk for the folder; when the folder is
    absent it asks nothing else and says so; when it is there it asks for
    54 different names and no other: the base [UNIT] and the picnum, or the
    base and one capital letter from A to Z, each with the extension [.dds]
    and with [.png].  A name with a small letter is never looked for. *)
Theorem textures_are_looked_for_by_capital_letter
  (disk : UnitModelBrowser.Disk) (b : UnitModelBrowser.Browser)
  (mesh_dir : UnitModelBrowser.Path) (n : Z) :
  let base := "UNIT" ++ Py.format_03d n in
  let asked := snd (UnitModelBrowser.check_textures disk b mesh_dir n) in
  (UnitModelBrowser.path_exists disk mesh_dir = false ->
   asked = [mesh_dir] /\
   UnitModelBrowser.txt_textures
     (fst (UnitModelBrowser.check_textures disk b mesh_dir n)) =
   "Meshes folder not found:" ++ UnitModelBrowser.NL ++
   UnitModelBrowser.path_str disk mesh_dir) /\
  (UnitModelBrowser.path_exists disk mesh_dir = true ->
   forall q,
     In q asked <->
     q = mesh_dir \/
     exists name,
       texture_candidate base name /\ q = UnitModelBrowser.Join mesh_dir name) /\
  List.length (UnitModelBrowser.texture_patterns base) = 54%nat /\
  NoDup (UnitModelBrowser.texture_patterns base) /\
  ~ texture_candidate base (base ++ "a.dds").
Proof.
  intros base asked. unfold asked, UnitModelBrowser.check_textures.
  split; [| split; [| split; [| split]]].
  - intros ->. now split.
  - intros ->. cbn [negb snd]. intros q. cbn [In]. rewrite in_map_iff.
    split.
    + intros [<- | (name & <- & Hin)]; [now left |].
      right. exists name. split; [| reflexivity].
      now apply pattern_candidates.
    + intros [-> | (name & Hc & ->)]; [now left |].
      right. exists name. split; [reflexivity |].
      now apply pattern_candidates.
  - reflexivity.
  - rewrite texture_patterns_suffixes. apply NoDup_map_append.
    apply distinctb_NoDup. vm_compute. reflexivity.
  - intros H. apply pattern_candidates in H.
    rewrite texture_patterns_suffixes, in_map_iff in H.
    destruct H as (suffix & Heq & Hin). apply append_inv_head in Heq.
    subst suffix.
    assert (Hno : existsb (String.eqb "a.dds")
                    (UnitModelBrowser.texture_patterns EmptyString) = false)
      by (vm_compute; reflexivity).
    apply Bool.not_true_iff_false in Hno. apply Hno.
    apply existsb_exists. exists "a.dds". split; [exact Hin | reflexivity].
Qed.

(** A folder that holds one regional texture for picnum 7. *)
Lemma textures_are_looked_for_by_capital_letter_witness :
  In (UnitModelBrowser.Join (UnitModelBrowser.PathOf "Meshes") "UNIT007G.dds")
    (snd
       (UnitModelBrowser.check_textures
          (disk_with
             [UnitModelBrowser.PathOf "Meshes";
              UnitModelBrowser.Join (UnitModelBrowser.PathOf "Meshes")
                "UNIT007G.dds"])
          (sample_browser "SR2030" EmptyString)
          (UnitModelBrowser.PathOf "Meshes") 7)).
Proof.
  apply (proj1 (proj2 (textures_are_looked_for_by_capital_letter
                         (disk_with
                            [UnitModelBrowser.PathOf "Meshes";
                             UnitModelBrowser.Join
                               (UnitModelBrowser.PathOf "Meshes")
                               "UNIT007G.dds"])
                         (sample_browser "SR2030" EmptyString)
                         (UnitModelBrowser.PathOf "Meshes") 7))).
  - vm_compute. reflexivity.
  - right. exists "UNIT007G.dds". split; [| reflexivity].
    exists ".dds". split; [now left |].
    right. exists "G"%char. split; reflexivity.
Defined.

(** X14.  After a selection the view button is enabled exactly when a mesh
    path is kept for the viewer; a kept path exists on the disk and is the
    file that the label names, in the mesh directory; no path is kept
    exactly when the status says that the mesh is missing. *)
Theorem view_button_follows_the_mesh (disk : UnitModelBrowser.Disk)
  (b : UnitModelBrowser.Browser) (item : UnitModelBrowser.Item)
  (sel : list UnitModelBrowser.Item) :
  let b' := fst (UnitModelBrowser.on_selection_changed disk b (item :: sel)) in
  let mesh_dir :=
    UnitModelBrowser.PathOf
      (UnitModelBrowser.meshes_path b (UnitModelBrowser.current_mode b)) in
  (UnitModelBrowser.btn_view b' = true <->
   UnitModelBrowser.selected_mesh_path b' <> None) /\
  (forall p,
     UnitModelBrowser.selected_mesh_path b' = Some p ->
     UnitModelBrowser.path_exists disk p = true /\
     p = UnitModelBrowser.Join mesh_dir (UnitModelBrowser.lbl_mesh_file b')) /\
  (UnitModelBrowser.selected_mesh_path b' = None <->
   UnitModelBrowser.status_mesh b' = MESH_MISSING).
Proof.
  intros b' mesh_dir.
  destruct (on_selection_changed_mesh disk b item sel) as [Hview _].
  fold b' mesh_dir in Hview. unfold mesh_view in Hview.
  unfold UnitModelBrowser.probe_mesh in Hview.
  destruct (UnitModelBrowser.path_exists disk
              (UnitModelBrowser.Join mesh_dir
                 (UnitModelBrowser.mesh_name _
                    (UnitModelBrowser.primary_ext _)))) eqn:Hp.
  - cbn in Hview. injection Hview as Hst Hl Hb Hs.
    rewrite Hb, Hs, Hst, Hl. repeat split; try discriminate.
    + now injection H as <-.
    + now injection H as <-.
  - destruct (UnitModelBrowser.path_exists disk
                (UnitModelBrowser.Join mesh_dir
                   (UnitModelBrowser.mesh_name _
                      (UnitModelBrowser.secondary_ext _)))) eqn:Hsec.
    + cbn in Hview. injection Hview as Hst Hl Hb Hs.
      rewrite Hb, Hs, Hst, Hl. repeat split; try discriminate.
      * now injection H as <-.
      * now injection H as <-.
    + cbn in Hview. injection Hview as Hst Hl Hb Hs.
      rewrite Hb, Hs, Hst. repeat split; try discriminate; congruence.
Qed.

(** X15.  The text about a shared mesh is added exactly when a unit of the
    window with another id uses the same picnum: when there is none,
    [show_shared_mesh_info] leaves the window as it is, and only then. *)
Theorem shared_mesh_text_needs_another_unit (b : UnitModelBrowser.Browser)
  (n current_id : Z) :
  UnitModelBrowser.show_shared_mesh_info b n current_id = b <->
  (forall u, In u (UnitModelBrowser.units b) -> picnum u = n ->
             id u = current_id).
Proof.
  unfold UnitModelBrowser.show_shared_mesh_info.
  destruct (filter _ _) as [|x rest] eqn:Hshared.
  - split; [intros _ | reflexivity]. intros u Hu Hn.
    destruct (Z.eq_dec (id u) current_id) as [E | E]; [exact E |].
    assert (Hin : In u []).
    { rewrite <- Hshared. apply filter_In. split; [exact Hu |].
      apply andb_true_iff. split; [now apply Z.eqb_eq |].
      apply negb_true_iff. now apply Z.eqb_neq. }
    destruct Hin.
  - split.
    + intros H. apply (f_equal UnitModelBrowser.txt_textures) in H.
      cbn [UnitModelBrowser.txt_textures UnitModelBrowser.set_txt_textures]
        in H.
      apply append_eq_self in H.
      destruct (10 <? _) in H; discriminate H.
    + intros H. assert (Hx : In x (x :: rest)) by now left.
      rewrite <- Hshared in Hx. apply filter_In in Hx as [Hu Hx].
      apply andb_true_iff in Hx as [Hn Hid].
      apply Z.eqb_eq in Hn. apply negb_true_iff, Z.eqb_neq in Hid.
      now destruct (Hid (H x Hu Hn)).
Qed.

(** * Loading the units *)

Section LoadFacts.

Import UnitModelBrowser.

Lemma sort_units_nil (mode : string) : sort_units mode [] = [].
Proof.
  unfold sort_units.
  repeat (match goal with
          | |- context [if ?c then _ else _] => destruct c
          end; [reflexivity |]).
  reflexivity.
Qed.

Lemma show_filtered_no_units (b : Browser) (region_code : option string) :
  units b = [] ->
  unit_list (show_filtered b region_code) = [] /\
  lbl_count (show_filtered b region_code) = "0 units loaded".
Proof.
  intros H. unfold show_filtered.
  cbn [unit_list lbl_count set_lbl_count set_unit_list].
  rewrite H. cbn [filter]. rewrite sort_units_nil. now split.
Qed.

(** What [filter_list] does, whatever the region box holds: it shows the
    filtered units of a window with the same units and settings, and opens
    no message box. *)
Lemma filter_list_shows (b : Browser) :
  exists b0 region_code,
    filter_list b = show_filtered b0 region_code /\
    settings b0 = settings b /\ message_boxes b0 = message_boxes b.
Proof.
  unfold filter_list, reset_region_combo.
  destruct (Py.startswith _ _); [now eexists; eexists |].
  destruct (String.eqb (region_combo b) _); [now eexists; eexists |].
  destruct (table_code _ _) as [code|]; [| now eexists; eexists].
  destruct (String.eqb code _); [| now eexists; eexists].
  assert (H : settings (snd (getText b)) = settings b /\
              message_boxes (snd (getText b)) = message_boxes b)
    by (unfold getText; now destruct (input_dialog b)).
  destruct (getText b) as [[txt|] b']; cbn [snd] in H; destruct H as [Hs Hm].
  - destruct (Py.nonempty txt); eexists; eexists;
      (split; [reflexivity |]); split; assumption.
  - eexists; eexists. split; [reflexivity |]. split; assumption.
Qed.

Lemma settings_units (b1 b2 : Browser) :
  settings b1 = settings b2 -> units b1 = units b2.
Proof. unfold settings. congruence. Qed.

Lemma shown_filter_list_subset (b : Browser) (u : SimpleUnit) :
  In u (shown (filter_list b)) -> In u (units b).
Proof.
  destruct (filter_list_shows b) as (b0 & code & -> & Hs & _).
  rewrite shown_show_filtered, In_sort_units, filter_In.
  intros [H _]. now rewrite <- (settings_units _ _ Hs).
Qed.

End LoadFacts.

(** X16.  Once the configuration has given the path of the unit file of
    the profile, [load_data] raises nothing.  When the file is absent it
    shows one warning and keeps the units and the list as they are;
    otherwise the units of the window become exactly what
    [parse_units_robust] returns for the file, no warning is shown and every
    unit in the list is one of them.  The tab changes only when asked to:
    to the settings after a failure, to the browser after a load. *)
Theorem load_data_replaces_the_units_or_warns (fs : filesystem)
  (unit_file : string -> string) (b : UnitModelBrowser.Browser) (tab : nat)
  (switch_tab : bool) :
  let path := unit_file (UnitModelBrowser.current_mode b) in
  exists b' tab',
    UnitModelBrowser.load_data fs unit_file b tab switch_tab =
    Ok (b', tab') /\
    (os_path_exists fs path = false ->
     UnitModelBrowser.units b' = UnitModelBrowser.units b /\
     UnitModelBrowser.unit_list b' = UnitModelBrowser.unit_list b /\
     List.length (UnitModelBrowser.message_boxes b') =
     S (List.length (UnitModelBrowser.message_boxes b)) /\
     tab' = (if switch_tab then 1 else tab)%nat) /\
    (os_path_exists fs path = true ->
     parse_units_robust fs path = Ok (UnitModelBrowser.units b') /\
     UnitModelBrowser.message_boxes b' = UnitModelBrowser.message_boxes b /\
     (forall u, In u (shown b') -> In u (UnitModelBrowser.units b')) /\
     tab' = (if switch_tab then 0 else tab)%nat).
Proof.
  intros path. unfold UnitModelBrowser.load_data. fold path.
  destruct (os_path_exists fs path) eqn:Hexists; cbn [negb].
  - assert (Hparse : exists parsed, parse_units_robust fs path = Ok parsed).
    { destruct (parse_units_robust_cases fs path) as [E | (lines & _ & E)];
        eauto. }
    destruct Hparse as [parsed Hparse]. rewrite Hparse. cbn [bind].
    eexists. eexists. split; [reflexivity |].
    split; [discriminate |]. intros _.
    set (b1 := UnitModelBrowser.set_units b parsed).
    destruct (filter_list_shows b1) as (b0 & code & Hf & Hs & Hm).
    assert (Hunits : UnitModelBrowser.units (UnitModelBrowser.filter_list b1)
                     = parsed).
    { rewrite Hf. change (UnitModelBrowser.units b0 = parsed).
      now rewrite (settings_units _ _ Hs). }
    repeat split.
    + now rewrite Hunits.
    + rewrite Hf. exact Hm.
    + intros u Hu. rewrite Hunits.
      now apply shown_filter_list_subset in Hu.
  - eexists. eexists. split; [reflexivity |].
    split; [intros _ | discriminate].
    repeat split.
    cbn [UnitModelBrowser.message_boxes UnitModelBrowser.warning].
    rewrite length_app. cbn. lia.
Qed.

(** X17.  Loading a unit file without a marker row empties the window
    without a warning: the units and the list become empty and the label
    says that 0 units are loaded, whatever the filters are. *)
Theorem loading_a_file_without_marker_empties_the_list (fs : filesystem)
  (unit_file : string -> string) (b : UnitModelBrowser.Browser) (tab : nat)
  (switch_tab : bool) (lines : list string) :
  fs (unit_file (UnitModelBrowser.current_mode b)) = Some (Readable lines) ->
  no_marker (fst (Csv.reader lines)) ->
  exists b' tab',
    UnitModelBrowser.load_data fs unit_file b tab switch_tab =
    Ok (b', tab') /\
    UnitModelBrowser.units b' = [] /\
    UnitModelBrowser.unit_list b' = [] /\
    UnitModelBrowser.lbl_count b' = "0 units loaded" /\
    UnitModelBrowser.message_boxes b' = UnitModelBrowser.message_boxes b.
Proof.
  intros Hfs Hno. unfold UnitModelBrowser.load_data, os_path_exists.
  rewrite Hfs. cbn [negb].
  rewrite (parse_units_robust_readable _ _ _ Hfs).
  rewrite parse_rows_eq, (fold_no_marker _ initial_locals Hno eq_refl).
  cbn [bind units initial_locals].
  eexists. eexists. split; [reflexivity |].
  set (b1 := UnitModelBrowser.set_units b []).
  destruct (filter_list_shows b1) as (b0 & code & Hf & Hs & Hm).
  assert (H0 : UnitModelBrowser.units b0 = [])
    by now rewrite (settings_units _ _ Hs).
  destruct (show_filtered_no_units b0 code H0) as [Hl Hc].
  rewrite Hf. repeat split; assumption.
Qed.

Lemma loading_a_file_without_marker_empties_the_list_witness :
  exists b' tab',
    UnitModelBrowser.load_data
      (one_file "default.unit" [line "1,Tank,3,450"]) (fun _ => "default.unit")
      (sample_browser "SR2030" EmptyString) 1 true = Ok (b', tab') /\
    UnitModelBrowser.units b' = [] /\
    UnitModelBrowser.unit_list b' = [] /\
    UnitModelBrowser.lbl_count b' = "0 units loaded" /\
    UnitModelBrowser.message_boxes b' =
    UnitModelBrowser.message_boxes (sample_browser "SR2030" EmptyString).
Proof.
  apply (loading_a_file_without_marker_empties_the_list _ _ _ _ _
           [line "1,Tank,3,450"]).
  - reflexivity.
  - vm_compute. repeat constructor.
Defined.

(** * The viewers *)

(** X18.  [launch_viewer] tracks a process only when [Popen] has returned
    it, and calls [kill] on none.  Without a mesh path it does nothing at
    all; when the viewer executable is absent or [Popen] raises it shows
    one error box and leaves the tracked viewers and the label as they
    are; when [Popen] returns a process, the process is put after the
    tracked ones and the running ones are counted. *)
Theorem launch_viewer_tracks_what_popen_returns (os : UnitModelBrowser.OS)
  (disk : UnitModelBrowser.Disk) (viewer : string)
  (selected : option UnitModelBrowser.Path) (v : UnitModelBrowser.Viewers) :
  let v' := UnitModelBrowser.launch_viewer os disk viewer selected v in
  let spawned mesh :=
    UnitModelBrowser.popen os [viewer; UnitModelBrowser.path_str disk mesh]
      (UnitModelBrowser.parent_dir os viewer) in
  UnitModelBrowser.killed v' = UnitModelBrowser.killed v /\
  (selected = None -> v' = v) /\
  (forall p,
     In p (UnitModelBrowser.active_viewers v') ->
     In p (UnitModelBrowser.active_viewers v) \/
     exists mesh,
       selected = Some mesh /\ UnitModelBrowser.exe_exists os viewer = true /\
       spawned mesh = inl p) /\
  (forall mesh,
     selected = Some mesh ->
     UnitModelBrowser.exe_exists os viewer = false \/
     (exists e, spawned mesh = inr e) ->
     UnitModelBrowser.active_viewers v' = UnitModelBrowser.active_viewers v /\
     UnitModelBrowser.lbl_viewers v' = UnitModelBrowser.lbl_viewers v /\
     List.length (UnitModelBrowser.critical_boxes v') =
     S (List.length (UnitModelBrowser.critical_boxes v))) /\
  (forall mesh proc,
     selected = Some mesh -> UnitModelBrowser.exe_exists os viewer = true ->
     spawned mesh = inl proc ->
     UnitModelBrowser.active_viewers v' =
     filter (UnitModelBrowser.running os)
       (UnitModelBrowser.active_viewers v ++ [proc]) /\
     UnitModelBrowser.critical_boxes v' = UnitModelBrowser.critical_boxes v).
Proof.
  intros v' spawned. unfold v', spawned, UnitModelBrowser.launch_viewer.
  destruct selected as [mesh|].
  - destruct (UnitModelBrowser.exe_exists os viewer) eqn:Hexe; cbn [negb].
    + destruct (UnitModelBrowser.popen os _ _) as [proc | e] eqn:Hpopen.
      * split; [reflexivity |]. split; [discriminate |]. split; [| split].
        -- intros p Hp.
           cbn [UnitModelBrowser.update_viewer_count
                UnitModelBrowser.active_viewers] in Hp.
           apply filter_In in Hp as [Hp _].
           apply in_app_or in Hp as [Hp | [<- | []]]; [now left |].
           right. exists mesh. now repeat split.
        -- intros m Hm [H | [e H]]; [discriminate |].
           injection Hm as <-. rewrite Hpopen in H. discriminate.
        -- intros m q Hm _ Hq. injection Hm as <-. rewrite Hpopen in Hq.
           injection Hq as <-. now split.
      * split; [reflexivity |]. split; [discriminate |]. split; [| split].
        -- intros p Hp. now left.
        -- intros m Hm _.
           cbn [UnitModelBrowser.critical UnitModelBrowser.active_viewers
                UnitModelBrowser.lbl_viewers UnitModelBrowser.critical_boxes].
           rewrite length_app. cbn. repeat split. lia.
        -- intros m q Hm _ Hq. injection Hm as <-. rewrite Hpopen in Hq.
           discriminate.
    + split; [reflexivity |]. split; [discriminate |]. split; [| split].
      * intros p Hp. now left.
      * intros m Hm _.
        cbn [UnitModelBrowser.critical UnitModelBrowser.active_viewers
             UnitModelBrowser.lbl_viewers UnitModelBrowser.critical_boxes].
        rewrite length_app. cbn. repeat split. lia.
      * intros m q Hm Hq. discriminate.
  - split; [reflexivity |]. split; [reflexivity |]. split; [| split].
    + intros p Hp. now left.
    + discriminate.
    + discriminate.
Qed.

Section ViewerEvents.

Import UnitModelBrowser.

Lemma update_viewer_count_kept (os : OS) (v : Viewers) (from : list nat) :
  (forall p, In p (active_viewers v) -> In p from) ->
  (forall p, In p (killed v) -> In p from) ->
  viewers_kept (update_viewer_count os v) from.
Proof.
  intros Ha Hk. unfold viewers_kept, update_viewer_count.
  cbn [active_viewers lbl_viewers lbl_viewers_green killed].
  split; [reflexivity |]. split; [| split].
  - unfold len. rewrite Z.ltb_lt.
    destruct (filter _ _); cbn [List.length]; split; intros H;
      try lia; try discriminate; now destruct H.
  - intros p Hp. apply filter_In in Hp as [Hp _]. now apply Ha.
  - exact Hk.
Qed.

Lemma viewers_kept_more (v : Viewers) (from more : list nat) :
  viewers_kept v from -> viewers_kept v (from ++ more).
Proof.
  intros (Hl & Hg & Ha & Hk). repeat split; try assumption;
    try (now apply Hg); intros p Hp; apply in_or_app; left; auto.
Qed.

Lemma handle_kept (v : Viewers) (e : Event) (from : list nat) :
  viewers_kept v from -> viewers_kept (handle v e) (from ++ started e).
Proof.
  intros H.
  pose proof (viewers_kept_more v from (started e) H) as (Hl & Hg & Ha & Hk).
  destruct e as [os disk viewer selected | os | os | os]; cbn [handle].
  - unfold launch_viewer.
    destruct selected as [mesh|]; [| now apply viewers_kept_more].
    cbn [started] in *.
    destruct (exe_exists os viewer); cbn [negb];
      [| exact (viewers_kept_more v from [] H)].
    destruct (popen os _ _) as [proc | err];
      [| exact (viewers_kept_more v from [] H)].
    apply update_viewer_count_kept; cbn [active_viewers killed].
    + intros p Hp. apply in_app_or in Hp as [Hp | Hp].
      * now apply Ha.
      * apply in_or_app. now right.
    + exact Hk.
  - now apply update_viewer_count_kept.
  - apply update_viewer_count_kept; cbn [active_viewers killed kill_running].
    + intros p [].
    + intros p Hp. apply in_app_or in Hp as [Hp | Hp]; [now apply Hk |].
      apply filter_In in Hp as [Hp _]. now apply Ha.
  - refine (conj Hl (conj Hg (conj Ha _))).
    cbn [closeEvent kill_running killed].
    intros p Hp. apply in_app_or in Hp as [Hp | Hp]; [now apply Hk |].
    apply filter_In in Hp as [Hp _]. now apply Ha.
Qed.

End ViewerEvents.

(** X19.  Whatever the user and the timer do, and whatever the system
    answers: the label of the viewers counts the viewers that the window
    tracks and is green exactly when there is one, and the window tracks
    and kills only processes that [Popen] has returned to it.  A timeout of
    the timer drops the tracked viewers that no longer run and keeps the
    others. *)
Theorem window_kills_only_viewers_it_started
  (events : list UnitModelBrowser.Event) :
  let v := after_events events in
  UnitModelBrowser.lbl_viewers v =
  viewers_label (List.length (UnitModelBrowser.active_viewers v)) /\
  (UnitModelBrowser.lbl_viewers_green v = true <->
   UnitModelBrowser.active_viewers v <> []) /\
  (forall p,
     In p (UnitModelBrowser.active_viewers v) ->
     In p (flat_map started events)) /\
  (forall p,
     In p (UnitModelBrowser.killed v) -> In p (flat_map started events)) /\
  (forall os p,
     In p
       (UnitModelBrowser.active_viewers
          (after_events (events ++ [UnitModelBrowser.TimerTimeout os]))) <->
     In p (UnitModelBrowser.active_viewers v) /\
     UnitModelBrowser.running os p = true).
Proof.
  cbv zeta.
  assert (Hkept : viewers_kept (after_events events)
                    (flat_map started events));
    [| split; [apply Hkept |]; split; [apply Hkept |]; split; [apply Hkept |];
       split; [apply Hkept |];
       intros os p; unfold after_events; rewrite fold_left_app;
       cbn [fold_left UnitModelBrowser.handle
            UnitModelBrowser.update_viewer_count
            UnitModelBrowser.active_viewers];
       apply filter_In].
  unfold after_events.
  induction events as [|e events IH] using rev_ind.
  - cbn [fold_left flat_map]. split; [reflexivity |].
    split; [split; [discriminate | intros H; now destruct H] |].
    split; intros p [].
  - rewrite fold_left_app, flat_map_app. cbn [fold_left flat_map].
    rewrite app_nil_r. now apply handle_kept.
Qed.

(** * The configuration *)

Section DictFacts.

Import ConfigManager.

Context {V : Type}.

Lemma dict_get_set (d : dict V) (k k' : string) (v : V) :
  dict_get (dict_set d k v) k' =
  if String.eqb k k' then Some v else dict_get d k'.
Proof.
  induction d as [|[k0 v0] d IH]; cbn [dict_set dict_get].
  - reflexivity.
  - destruct (String.eqb_spec k0 k) as [-> | Hne]; cbn [dict_get].
    + destruct (String.eqb k k'); reflexivity.
    + rewrite IH. destruct (String.eqb_spec k0 k') as [-> | Hne'].
      * destruct (String.eqb_spec k k'); [congruence | reflexivity].
      * reflexivity.
Qed.

Lemma dict_get_set_same (d : dict V) (k : string) (v : V) :
  dict_get (dict_set d k v) k = Some v.
Proof. now rewrite dict_get_set, String.eqb_refl. Qed.

Lemma dict_get_set_other (d : dict V) (k k' : string) (v : V) :
  k <> k' -> dict_get (dict_set d k v) k' = dict_get d k'.
Proof.
  intros H. rewrite dict_get_set.
  now destruct (String.eqb_spec k k').
Qed.

Lemma dict_get_app (d1 d2 : dict V) (k : string) :
  dict_get (d1 ++ d2)%list k =
  match dict_get d1 k with
  | Some v => Some v
  | None => dict_get d2 k
  end.
Proof.
  induction d1 as [|[k0 v0] d1 IH]; cbn [dict_get app]; [reflexivity |].
  now destruct (String.eqb k0 k).
Qed.

Lemma dict_get_None (d : dict V) (k : string) :
  dict_get d k = None <-> ~ In k (map fst d).
Proof.
  induction d as [|[k0 v0] d IH]; cbn [dict_get map fst In].
  - tauto.
  - destruct (String.eqb_spec k0 k) as [-> | Hne].
    + split; [discriminate | intros H; exfalso; apply H; now left].
    + rewrite IH. tauto.
Qed.

Lemma dict_get_In (d : dict V) (k : string) (v : V) :
  dict_get d k = Some v -> In (k, v) d.
Proof.
  induction d as [|[k0 v0] d IH]; cbn [dict_get In]; [discriminate |].
  destruct (String.eqb_spec k0 k) as [-> | Hne].
  - intros H. injection H as ->. now left.
  - intros H. right. now apply IH.
Qed.

Lemma keys_set (d : dict V) (k k' : string) (v : V) :
  In k' (map fst (dict_set d k v)) <-> k' = k \/ In k' (map fst d).
Proof.
  induction d as [|[k0 v0] d IH]; cbn [dict_set map fst In].
  - split; [intros [H | []]; now left | intros [H | []]; now left].
  - destruct (String.eqb_spec k0 k) as [-> | Hne]; cbn [map fst In].
    + split; [tauto |]. intros [-> | H]; [now left | exact H].
    + rewrite IH. tauto.
Qed.

Lemma NoDup_keys_set (d : dict V) (k : string) (v : V) :
  NoDup (map fst d) -> NoDup (map fst (dict_set d k v)).
Proof.
  induction d as [|[k0 v0] d IH]; cbn [dict_set map fst]; intros H.
  - constructor; [intros [] | constructor].
  - destruct (String.eqb_spec k0 k) as [-> | Hne]; cbn [map fst].
    + exact H.
    + inversion H as [|? ? Hnot Hrest]; subst. constructor.
      * rewrite keys_set. intros [-> | Hin]; [now apply Hne | now apply Hnot].
      * now apply IH.
Qed.

(** In a dict the item that is found last is the item that is found
    first. *)
Lemma dict_get_rev (d : dict V) (k : string) :
  NoDup (map fst d) -> dict_get (rev d) k = dict_get d k.
Proof.
  induction d as [|[k0 v0] d IH]; cbn [rev map fst dict_get]; intros H.
  - reflexivity.
  - inversion H as [|? ? Hnot Hrest]; subst.
    rewrite dict_get_app, (IH Hrest). cbn [dict_get].
    destruct (String.eqb_spec k0 k) as [-> | Hne].
    + apply dict_get_None in Hnot. now rewrite Hnot.
    + now destruct (dict_get d k).
Qed.

Lemma dict_get_update (d other : dict V) (k : string) :
  dict_get (dict_update d other) k =
  match dict_get (rev other) k with
  | Some v => Some v
  | None => dict_get d k
  end.
Proof.
  unfold dict_update. revert d.
  induction other as [|[k0 v0] other IH]; intros d; cbn [fold_left rev].
  - reflexivity.
  - rewrite IH, dict_get_app, dict_get_set. cbn [fst snd dict_get].
    destruct (dict_get (rev other) k); [reflexivity |].
    now destruct (String.eqb k0 k).
Qed.

End DictFacts.

Section HeapFacts.

Import ConfigManager.

Lemma dict_get_map {A B : Type} (f : A -> B) (d : dict A) (k : string) :
  dict_get (map (fun kv => (fst kv, f (snd kv))) d) k =
  option_map f (dict_get d k).
Proof.
  induction d as [|[k0 v0] d IH]; cbn [map dict_get fst snd];
    [reflexivity |].
  now destruct (String.eqb k0 k).
Qed.

Lemma keys_map {A B : Type} (f : A -> B) (d : dict A) :
  map fst (map (fun kv => (fst kv, f (snd kv))) d) = map fst d.
Proof. rewrite map_map. reflexivity. Qed.

Lemma deref_old (h more : Heap) (a : nat) :
  (a < List.length h)%nat -> deref (h ++ more)%list a = deref h a.
Proof. intros H. unfold deref. now apply app_nth1. Qed.

Lemma deref_new (h : Heap) (d : dict JSON) :
  deref (h ++ [d])%list (List.length h) = d.
Proof. unfold deref. now rewrite nth_middle. Qed.

Lemma heap_set_length (h : Heap) (a : nat) (d : dict JSON) :
  List.length (heap_set h a d) = List.length h.
Proof.
  revert a. induction h as [|x h IH]; intros [|a]; cbn [heap_set List.length];
    try reflexivity.
  now rewrite IH.
Qed.

Lemma deref_heap_set_same (h : Heap) (a : nat) (d : dict JSON) :
  (a < List.length h)%nat -> deref (heap_set h a d) a = d.
Proof.
  unfold deref. revert a.
  induction h as [|x h IH]; intros [|a]; cbn [heap_set List.length nth];
    intros H; try lia; [reflexivity |].
  apply IH. lia.
Qed.

Lemma deref_heap_set_other (h : Heap) (a b : nat) (d : dict JSON) :
  a <> b -> deref (heap_set h a d) b = deref h b.
Proof.
  unfold deref. revert a b.
  induction h as [|x h IH]; intros [|a] [|b] H; cbn [heap_set nth];
    try reflexivity; try congruence.
  apply IH. congruence.
Qed.

Lemma setitem_length (h : Heap) (a : nat) (key : string) (j : JSON) :
  List.length (setitem h a key j) = List.length h.
Proof. apply heap_set_length. Qed.

Lemma deref_setitem_same (h : Heap) (a : nat) (key : string) (j : JSON) :
  (a < List.length h)%nat ->
  deref (setitem h a key j) a = dict_set (deref h a) key j.
Proof. intros H. now apply deref_heap_set_same. Qed.

Lemma deref_setitem_other (h : Heap) (a b : nat) (key : string) (j : JSON) :
  a <> b -> deref (setitem h a key j) b = deref h b.
Proof. intros H. now apply deref_heap_set_other. Qed.

End HeapFacts.

Section ConfigFacts.

Import ConfigManager.

Lemma view_eq (c : Self) (k : string) :
  view c k = option_map (json_of (heap c)) (dict_get (data c) k).
Proof. unfold view, json_dump. apply dict_get_map. Qed.

Lemma DEFAULTS_refs (k : string) (a : nat) :
  dict_get DEFAULTS k = Some (Ref a) ->
  (k = "SRU" /\ a = 0%nat) \/ (k = "SR2030" /\ a = 1%nat).
Proof.
  unfold DEFAULTS. cbn [dict_get].
  destruct (String.eqb_spec "mode" k); [discriminate |].
  destruct (String.eqb_spec "SRU" k).
  - intros H. injection H as <-. now left.
  - destruct (String.eqb_spec "SR2030" k); [| discriminate].
    intros H. injection H as <-. now right.
Qed.

Lemma sound_defaults (file : File) (can_write : bool) :
  sound (mkSelf DEFAULTS class_heap file can_write).
Proof.
  constructor; cbn [data heap].
  - intros k a H. apply DEFAULTS_refs in H as [[_ ->] | [_ ->]]; cbn; lia.
  - intros k k' a H H'.
    apply DEFAULTS_refs in H as [[-> ->] | [-> ->]];
      apply DEFAULTS_refs in H' as [[-> E] | [-> E]];
      try reflexivity; discriminate.
  - intros k a H _. exact H.
  - cbn. lia.
  - intros k H. exact H.
  - cbn. repeat constructor; cbn; intuition discriminate.
  - intros k items. unfold DEFAULTS. cbn [dict_get].
    repeat (destruct (String.eqb _ k); [discriminate |]). discriminate.
Qed.

Lemma sound_file (c : Self) (file : File) (can_write : bool) :
  sound c -> sound (mkSelf (data c) (heap c) file can_write).
Proof. intros []. now constructor. Qed.

Lemma sound_save (c : Self) : sound c -> sound (save c).
Proof.
  intros H. unfold save. destruct (writable c); [| exact H].
  now apply sound_file.
Qed.

Lemma sound_heap (c : Self) (h : Heap) :
  sound c -> List.length h = List.length (heap c) ->
  sound (mkSelf (data c) h (config_json c) (writable c)).
Proof. intros [] E. constructor; cbn [data heap]; rewrite ?E; assumption. Qed.

Lemma sound_plain (c : Self) (k : string) (j : JSON) :
  sound c -> (forall items, j <> JObject items) ->
  sound
    (mkSelf (dict_set (data c) k (Plain j)) (heap c) (config_json c)
       (writable c)).
Proof.
  intros [Hv Ha Hd He Hk Ho Hp] Hj. constructor; cbn [data heap].
  - intros k' a. rewrite dict_get_set.
    destruct (String.eqb k k'); [discriminate | apply Hv].
  - intros k1 k2 a. rewrite !dict_get_set.
    destruct (String.eqb k k1); [discriminate |].
    destruct (String.eqb k k2); [discriminate | apply Ha].
  - intros k' a. rewrite dict_get_set.
    destruct (String.eqb k k'); [discriminate | apply Hd].
  - exact He.
  - intros k' H. rewrite dict_get_set.
    destruct (String.eqb k k'); [discriminate | now apply Hk].
  - now apply NoDup_keys_set.
  - intros k' items. rewrite dict_get_set.
    destruct (String.eqb k k'); [| apply Hp].
    intros H. injection H as H. now apply (Hj items).
Qed.

Lemma sound_new (c : Self) (k : string) (d : dict JSON) :
  sound c ->
  sound
    (mkSelf (dict_set (data c) k (Ref (List.length (heap c))))
       (heap c ++ [d])%list (config_json c) (writable c)).
Proof.
  intros [Hv Ha Hd He Hk Ho Hp]. constructor; cbn [data heap];
    rewrite ?length_app; cbn [List.length].
  - intros k' a. rewrite dict_get_set.
    destruct (String.eqb k k').
    + intros H. injection H as <-. lia.
    + intros H. apply Hv in H. lia.
  - intros k1 k2 a. rewrite !dict_get_set.
    destruct (String.eqb_spec k k1) as [<- | H1];
      destruct (String.eqb_spec k k2) as [<- | H2].
    + reflexivity.
    + intros H H'. injection H as <-. apply Hv in H'. lia.
    + intros H H'. injection H' as <-. apply Hv in H. lia.
    + apply Ha.
  - intros k' a. rewrite dict_get_set.
    destruct (String.eqb k k'); [| apply Hd].
    intros H. injection H as <-. lia.
  - lia.
  - intros k' H. rewrite dict_get_set.
    destruct (String.eqb k k'); [discriminate | now apply Hk].
  - now apply NoDup_keys_set.
  - intros k' items. rewrite dict_get_set.
    destruct (String.eqb k k'); [discriminate | apply Hp].
Qed.

Lemma load_item_object (c : Self) (k : string) (items : dict JSON) :
  load_item c (k, JObject items) =
  mkSelf (dict_set (data c) k (Ref (List.length (heap c))))
    (heap c ++ [items])%list (config_json c) (writable c).
Proof. reflexivity. Qed.

Lemma load_item_plain (c : Self) (k : string) (j : JSON) :
  (forall items, j <> JObject items) ->
  load_item c (k, j) =
  mkSelf (dict_set (data c) k (Plain j)) (heap c) (config_json c)
    (writable c).
Proof. intros H. destruct j; try reflexivity. now destruct (H items). Qed.

Lemma object_or_plain (j : JSON) :
  (exists items, j = JObject items) \/ (forall items, j <> JObject items).
Proof. destruct j; try (right; discriminate). left. now eexists. Qed.

Lemma sound_load_item (c : Self) (kv : string * JSON) :
  sound c -> sound (load_item c kv).
Proof.
  intros H. destruct kv as [k j].
  destruct (object_or_plain j) as [[items ->] | Hj].
  - rewrite load_item_object. now apply sound_new.
  - rewrite (load_item_plain c k j Hj). now apply sound_plain.
Qed.

Lemma view_load_item (c : Self) (k k' : string) (j : JSON) :
  sound c ->
  view (load_item c (k, j)) k' =
  if String.eqb k k' then Some j else view c k'.
Proof.
  intros Hc. rewrite !view_eq.
  destruct (object_or_plain j) as [[items ->] | Hj].
  - rewrite load_item_object. cbn [data heap]. rewrite dict_get_set.
    destruct (String.eqb k k'); cbn [option_map json_of].
    + now rewrite deref_new.
    + destruct (dict_get (data c) k') as [[a|j']|] eqn:E; cbn [option_map];
        try reflexivity.
      cbn [json_of]. rewrite deref_old; [reflexivity |].
      exact (refs_valid c Hc k' a E).
  - rewrite (load_item_plain c k j Hj). cbn [data heap].
    rewrite dict_get_set. now destruct (String.eqb k k').
Qed.

Lemma load_item_data (c : Self) (k k' : string) (j : JSON) :
  k <> k' ->
  dict_get (data (load_item c (k, j))) k' = dict_get (data c) k'.
Proof.
  intros H. destruct (object_or_plain j) as [[items ->] | Hj].
  - rewrite load_item_object. cbn [data]. now apply dict_get_set_other.
  - rewrite (load_item_plain c k j Hj). now apply dict_get_set_other.
Qed.

Lemma load_item_ref (c : Self) (k : string) (j : JSON) (a : nat) :
  dict_get (data (load_item c (k, j))) k = Some (Ref a) ->
  a = List.length (heap c).
Proof.
  destruct (object_or_plain j) as [[items ->] | Hj].
  - rewrite load_item_object. cbn [data]. rewrite dict_get_set_same.
    intros H. now injection H as <-.
  - rewrite (load_item_plain c k j Hj). cbn [data].
    rewrite dict_get_set_same. discriminate.
Qed.

Lemma load_item_heap (c : Self) (kv : string * JSON) :
  exists more, heap (load_item c kv) = (heap c ++ more)%list.
Proof.
  destruct kv as [k j]. destruct (object_or_plain j) as [[items ->] | Hj].
  - rewrite load_item_object. now eexists.
  - rewrite (load_item_plain c k j Hj). exists []. cbn [heap].
    now rewrite app_nil_r.
Qed.

Lemma load_items_heap (loaded : dict JSON) (c : Self) :
  exists more,
    heap (fold_left load_item loaded c) = (heap c ++ more)%list.
Proof.
  revert c. induction loaded as [|kv rest IH]; intros c; cbn [fold_left].
  - exists []. now rewrite app_nil_r.
  - destruct (IH (load_item c kv)) as [more ->].
    destruct (load_item_heap c kv) as [more' ->].
    exists (more' ++ more)%list. now rewrite app_assoc.
Qed.

Lemma sound_load_items (loaded : dict JSON) (c : Self) :
  sound c -> sound (fold_left load_item loaded c).
Proof.
  revert c. induction loaded as [|kv rest IH]; intros c H; cbn [fold_left].
  - exact H.
  - apply IH. now apply sound_load_item.
Qed.

Lemma view_load_items (loaded : dict JSON) (c : Self) (k : string) :
  sound c ->
  view (fold_left load_item loaded c) k =
  match dict_get (rev loaded) k with
  | Some j => Some j
  | None => view c k
  end.
Proof.
  revert c. induction loaded as [|[k0 j0] rest IH]; intros c H;
    cbn [fold_left rev].
  - reflexivity.
  - rewrite IH by now apply sound_load_item.
    rewrite dict_get_app, view_load_item by exact H. cbn [dict_get].
    destruct (dict_get (rev rest) k); [reflexivity |].
    now destruct (String.eqb k0 k).
Qed.

Lemma load_items_data (loaded : dict JSON) (c : Self) (k : string) :
  ~ In k (map fst loaded) ->
  dict_get (data (fold_left load_item loaded c)) k = dict_get (data c) k.
Proof.
  revert c. induction loaded as [|[k0 j0] rest IH]; intros c H;
    cbn [fold_left].
  - reflexivity.
  - cbn [map fst In] in H. rewrite IH by tauto.
    apply load_item_data. tauto.
Qed.

Lemma load_items_ref (loaded : dict JSON) (c : Self) (k : string) (a : nat) :
  In k (map fst loaded) ->
  dict_get (data (fold_left load_item loaded c)) k = Some (Ref a) ->
  (List.length (heap c) <= a)%nat.
Proof.
  revert c. induction loaded as [|[k0 j0] rest IH]; intros c H;
    cbn [fold_left]; [now destruct H |].
  destruct (in_dec string_dec k (map fst rest)) as [Hin | Hout].
  - intros E. apply (IH _ Hin) in E.
    destruct (load_item_heap c (k0, j0)) as [more Hm].
    rewrite Hm, length_app in E. lia.
  - destruct H as [H | H]; [| contradiction]. cbn [fst] in H. subst k0.
    rewrite (load_items_data rest _ k Hout). intros E.
    apply load_item_ref in E. lia.
Qed.

Lemma load_items_world (loaded : dict JSON) (c : Self) :
  config_json (fold_left load_item loaded c) = config_json c /\
  writable (fold_left load_item loaded c) = writable c.
Proof.
  revert c. induction loaded as [|[k0 j0] rest IH]; intros c;
    cbn [fold_left]; [now split |].
  destruct (IH (load_item c (k0, j0))) as [-> ->].
  unfold load_item. now destruct (object _ _).
Qed.

(** The two steps of [load] take the items in one after the other. *)
Lemma json_load_items (loaded : dict JSON) :
  forall (h : Heap) (d : dict value) (file : File) (can_write : bool),
    mkSelf (dict_update d (snd (json_load h loaded)))
      (fst (json_load h loaded)) file can_write =
    fold_left load_item loaded (mkSelf d h file can_write).
Proof.
  induction loaded as [|[k j] rest IH]; intros h d file can_write;
    cbn [json_load fold_left].
  - reflexivity.
  - unfold load_item at 2. cbn [fst snd heap data config_json writable].
    destruct (object h j) as [h1 v].
    rewrite <- IH. destruct (json_load h1 rest) as [h' r]. reflexivity.
Qed.

Lemma start_holds (loaded : dict JSON) (can_write : bool) :
  start (Holds loaded) can_write =
  fold_left load_item loaded
    (mkSelf DEFAULTS class_heap (Holds loaded) can_write).
Proof.
  unfold start, __init__, load. cbn [config_json heap data writable].
  rewrite <- json_load_items. now destruct (json_load class_heap loaded).
Qed.

Lemma start_data (file : File) (can_write : bool) :
  (forall loaded, file <> Holds loaded) ->
  data (start file can_write) = DEFAULTS /\
  heap (start file can_write) = class_heap.
Proof.
  intros H. destruct file as [| |loaded]; [| | now destruct (H loaded)].
  - unfold start, __init__, load, save. cbn [config_json writable].
    now destruct can_write.
  - now split.
Qed.

Lemma sound_start (file : File) (can_write : bool) :
  sound (start file can_write).
Proof.
  destruct file as [| |loaded].
  - apply (sound_save (mkSelf DEFAULTS class_heap Absent can_write)).
    apply sound_defaults.
  - apply sound_defaults.
  - rewrite start_holds. apply sound_load_items, sound_defaults.
Qed.

End ConfigFacts.

Section ConfigCalls.

Import ConfigManager.

Lemma update_game_config_eq (c : Self) (mode u m v : string) :
  update_game_config c mode u m v =
  let c1 := with_profile c mode in
  match dict_get (data c1) mode with
  | Some (Ref a) =>
      Return
        (save
           (mkSelf (data c1) (with_paths (heap c1) a u m v) (config_json c1)
              (writable c1)))
  | Some (Plain _) => Raises TypeError
  | None => Raises KeyError
  end.
Proof. reflexivity. Qed.

Lemma with_profile_sound (c : Self) (mode : string) :
  sound c -> sound (with_profile c mode).
Proof.
  intros H. unfold with_profile.
  destruct (dict_get (data c) mode); [exact H | now apply sound_new].
Qed.

Lemma with_profile_get (c : Self) (mode : string) :
  dict_get (data (with_profile c mode)) mode =
  match dict_get (data c) mode with
  | Some v => Some v
  | None => Some (Ref (List.length (heap c)))
  end.
Proof.
  unfold with_profile. destruct (dict_get (data c) mode) eqn:E.
  - exact E.
  - cbn [data]. apply dict_get_set_same.
Qed.

Lemma with_profile_other (c : Self) (mode k : string) :
  k <> mode ->
  dict_get (data (with_profile c mode)) k = dict_get (data c) k.
Proof.
  intros H. unfold with_profile. destruct (dict_get (data c) mode).
  - reflexivity.
  - cbn [data]. apply dict_get_set_other. congruence.
Qed.

Lemma with_profile_keeps (c : Self) (mode k : string) (v : value) :
  dict_get (data c) k = Some v ->
  dict_get (data (with_profile c mode)) k = Some v.
Proof.
  intros H. destruct (String.eqb_spec k mode) as [-> | Hne].
  - now rewrite with_profile_get, H.
  - now rewrite with_profile_other.
Qed.

Lemma with_profile_heap (c : Self) (mode : string) (a : nat) :
  (a < List.length (heap c))%nat ->
  deref (heap (with_profile c mode)) a = deref (heap c) a.
Proof.
  intros H. unfold with_profile. destruct (dict_get (data c) mode).
  - reflexivity.
  - cbn [heap]. now apply deref_old.
Qed.

Lemma with_profile_writable (c : Self) (mode : string) :
  writable (with_profile c mode) = writable c.
Proof. unfold with_profile. now destruct (dict_get (data c) mode). Qed.

Lemma with_paths_length (h : Heap) (a : nat) (u m v : string) :
  List.length (with_paths h a u m v) = List.length h.
Proof. unfold with_paths. now rewrite !setitem_length. Qed.

Lemma deref_with_paths_same (h : Heap) (a : nat) (u m v : string) :
  (a < List.length h)%nat ->
  deref (with_paths h a u m v) a =
  dict_set
    (dict_set (dict_set (deref h a) "unit_file" (JString u)) "meshes_path"
       (JString m))
    "viewer_path" (JString v).
Proof.
  intros H. unfold with_paths.
  rewrite !deref_setitem_same; rewrite ?setitem_length; auto.
Qed.

Lemma deref_with_paths_other (h : Heap) (a b : nat) (u m v : string) :
  a <> b -> deref (with_paths h a u m v) b = deref h b.
Proof.
  intros H. unfold with_paths. now rewrite !deref_setitem_other.
Qed.

Lemma save_fields (c : Self) :
  data (save c) = data c /\ heap (save c) = heap c /\
  writable (save c) = writable c.
Proof. unfold save. destruct (writable c) eqn:E; cbn; auto. Qed.

Lemma save_saved (c : Self) : saved (save c).
Proof.
  unfold saved, save. destruct (writable c) eqn:E; cbn [writable config_json].
  - reflexivity.
  - congruence.
Qed.

Lemma update_game_config_returns (c c' : Self) (mode u m v : string) :
  sound c -> update_game_config c mode u m v = Return c' ->
  exists a,
    dict_get (data (with_profile c mode)) mode = Some (Ref a) /\
    (a < List.length (heap (with_profile c mode)))%nat /\
    data c' = data (with_profile c mode) /\
    heap c' = with_paths (heap (with_profile c mode)) a u m v /\
    writable c' = writable c /\ saved c' /\ sound c'.
Proof.
  intros Hc. rewrite update_game_config_eq. cbv zeta.
  pose proof (with_profile_sound c mode Hc) as H1.
  destruct (dict_get (data (with_profile c mode)) mode) as [[a|j]|] eqn:E;
    try discriminate.
  intros H. injection H as <-. exists a.
  set (x := mkSelf _ _ _ _).
  destruct (save_fields x) as (Hd & Hh & Hw).
  split; [reflexivity |].
  split; [exact (refs_valid _ H1 mode a E) |].
  split; [exact Hd |]. split; [exact Hh |].
  split; [rewrite Hw; apply with_profile_writable |].
  split; [apply save_saved |].
  apply sound_save. apply sound_heap; [exact H1 |].
  apply with_paths_length.
Qed.

Lemma set_mode_fields (c : Self) (mode : string) :
  data (set_mode c mode) = dict_set (data c) "mode" (Plain (JString mode)) /\
  heap (set_mode c mode) = heap c /\
  writable (set_mode c mode) = writable c.
Proof.
  unfold set_mode. set (x := mkSelf _ _ _ _). exact (save_fields x).
Qed.

Lemma set_mode_sound (c : Self) (mode : string) :
  sound c -> sound (set_mode c mode).
Proof.
  intros H. unfold set_mode. apply sound_save.
  now apply sound_plain.
Qed.

Lemma call_sound (c c' : Self) (x : Call) :
  sound c -> call c x = Return c' ->
  sound c' /\ writable c' = writable c /\ saved c'.
Proof.
  intros Hc. destruct x as [mode u m v | mode]; cbn [call]; intros H.
  - destruct (update_game_config_returns c c' mode u m v Hc H)
      as (a & _ & _ & _ & _ & Hw & Hs & Hc').
    exact (conj Hc' (conj Hw Hs)).
  - injection H as <-. split; [now apply set_mode_sound |].
    split; [apply set_mode_fields | apply save_saved].
Qed.

(** What the window keeps of the manager over its calls. *)
Lemma calls_keep (P : Self -> Prop) :
  (forall c c' x, sound c -> P c -> call c x = Return c' -> P c') ->
  forall l c c', sound c -> P c -> calls c l = Return c' -> P c'.
Proof.
  intros Hstep. induction l as [|x l IH]; intros c c' Hc HP; cbn [calls].
  - intros H. now injection H as <-.
  - destruct (call c x) as [c1|e] eqn:E; [| discriminate].
    apply IH.
    + now apply (call_sound c c1 x Hc E).
    + now apply (Hstep c c1 x).
Qed.

Lemma calls_sound (l : list Call) (c c' : Self) :
  sound c -> calls c l = Return c' -> sound c'.
Proof.
  intros Hc. apply (calls_keep sound); [| exact Hc | exact Hc].
  intros c0 c1 x H0 _ E. now apply (call_sound c0 c1 x).
Qed.

Lemma calls_writable (l : list Call) (c c' : Self) :
  sound c -> calls c l = Return c' -> writable c' = writable c.
Proof.
  intros Hc.
  apply (calls_keep (fun c0 => writable c0 = writable c)); auto.
  intros c0 c1 x H0 Hw E. destruct (call_sound c0 c1 x H0 E) as (_ & -> & _).
  exact Hw.
Qed.

Lemma calls_saved (l : list Call) (c c' : Self) :
  sound c -> l <> [] \/ saved c -> calls c l = Return c' -> saved c'.
Proof.
  intros Hc Hl. destruct l as [|x l].
  - destruct Hl as [Hl | Hl]; [now destruct Hl |].
    cbn [calls]. intros H. now injection H as <-.
  - cbn [calls]. destruct (call c x) as [c1|e] eqn:E; [| discriminate].
    destruct (call_sound c c1 x Hc E) as (Hc1 & _ & Hs1).
    apply (calls_keep saved); auto.
    intros c0 c2 y H0 _ E0. now apply (call_sound c0 c2 y).
Qed.

Lemma call_keeps (c c' : Self) (x : Call) (k : string) (v : value) :
  sound c -> call c x = Return c' -> k <> "mode" ->
  dict_get (data c) k = Some v -> dict_get (data c') k = Some v.
Proof.
  intros Hc H Hk E. destruct x as [mode u m w | mode]; cbn [call] in H.
  - destruct (update_game_config_returns c c' mode u m w Hc H)
      as (a & _ & _ & -> & _).
    now apply with_profile_keeps.
  - injection H as <-. destruct (set_mode_fields c mode) as (-> & _).
    rewrite dict_get_set_other; [exact E | congruence].
Qed.

Lemma call_default_apart (c c' : Self) (x : Call) :
  sound c -> default_apart c -> call c x = Return c' -> default_apart c'.
Proof.
  intros Hc [Hd Hh] H. destruct x as [mode u m w | mode]; cbn [call] in H.
  - destruct (update_game_config_returns c c' mode u m w Hc H)
      as (a & Ha & _ & Hdata & Hheap & _).
    assert (Hd1 : forall k, dict_get (data (with_profile c mode)) k <>
                            Some (Ref 1)).
    { intros k. destruct (String.eqb_spec k mode) as [-> | Hne].
      - rewrite with_profile_get.
        destruct (dict_get (data c) mode) eqn:E.
        + rewrite <- E. apply Hd.
        + pose proof (defaults_exist c Hc). intros E1. injection E1 as E1.
          lia.
      - rewrite with_profile_other by exact Hne. apply Hd. }
    split.
    + intros k. rewrite Hdata. apply Hd1.
    + rewrite Hheap, deref_with_paths_other.
      * rewrite with_profile_heap; [exact Hh |].
        pose proof (defaults_exist c Hc). lia.
      * intros ->. now apply (Hd1 mode).
  - injection H as <-.
    destruct (set_mode_fields c mode) as (Hdata & Hheap & _). split.
    + intros k. rewrite Hdata, dict_get_set.
      destruct (String.eqb "mode" k); [discriminate | apply Hd].
    + now rewrite Hheap.
Qed.

Lemma existsb_eqb_In (k : string) (l : list string) :
  existsb (String.eqb k) l = true <-> In k l.
Proof.
  rewrite existsb_exists. split.
  - intros (x & Hx & E). apply String.eqb_eq in E. now subst.
  - intros H. exists k. split; [exact H | apply String.eqb_refl].
Qed.

Lemma start_default_apart (loaded : dict JSON) (can_write : bool) :
  In "SR2030" (map fst loaded) ->
  default_apart (start (Holds loaded) can_write).
Proof.
  intros Hin. rewrite start_holds.
  set (c0 := mkSelf DEFAULTS class_heap (Holds loaded) can_write).
  assert (H0 : sound c0) by apply sound_defaults.
  pose proof (sound_load_items loaded c0 H0) as H1.
  split.
  - intros k E.
    pose proof (default_refs _ H1 k 1%nat E ltac:(lia)) as Hk.
    apply DEFAULTS_refs in Hk as [[_ Hk] | [-> _]]; [discriminate |].
    apply (load_items_ref loaded c0 _ _ Hin) in E. cbn in E. lia.
  - destruct (load_items_heap loaded c0) as [more ->].
    now rewrite deref_old by (cbn; lia).
Qed.

Lemma start_default_shared (file : File) (can_write : bool) :
  has_key file "SR2030" = false ->
  dict_get (data (start file can_write)) "SR2030" = Some (Ref 1).
Proof.
  intros H. destruct file as [| |loaded].
  - now rewrite (proj1 (start_data Absent can_write ltac:(discriminate))).
  - reflexivity.
  - rewrite start_holds, load_items_data; [reflexivity |].
    intros Hin. apply existsb_eqb_In in Hin. cbn [has_key] in H. congruence.
Qed.

End ConfigCalls.

Section ConfigTheorems.

Import ConfigManager.

(** X20.  A profile of the configuration file replaces the profile of
    [DEFAULTS] whole, it is not merged with it: when the file gives the
    mode a dict, every setting of the mode is read from that dict, and a
    key that the dict lacks reads as the empty text, whatever [DEFAULTS]
    has for it. *)
Theorem profile_of_the_file_replaces_the_default (loaded : dict JSON)
  (can_write : bool) (mode : string) (items : dict JSON) :
  NoDup (map fst loaded) ->
  dict_get loaded mode = Some (JObject items) ->
  forall key,
    setting (start (Holds loaded) can_write) mode key =
    Return (read items key).
Proof.
  intros Hkeys Hmode key.
  pose proof (sound_start (Holds loaded) can_write) as Hc.
  assert (Hview : view (start (Holds loaded) can_write) mode =
                  Some (JObject items)).
  { rewrite start_holds, view_load_items by apply sound_defaults.
    now rewrite (dict_get_rev loaded mode Hkeys), Hmode. }
  rewrite view_eq in Hview. unfold setting, get_game_config.
  destruct (dict_get (data (start (Holds loaded) can_write)) mode)
    as [[a|j]|] eqn:E; cbn [option_map json_of] in Hview.
  - injection Hview as Hview. cbn [get]. now rewrite Hview.
  - injection Hview as ->. now destruct (plain_values _ Hc mode items).
  - discriminate.
Qed.

Lemma profile_of_the_file_replaces_the_default_witness :
  setting
    (start (Holds [("SRU", JObject [("unit_file", JString "my.unit")])]) true)
    "SRU" "viewer_path" =
  Return (JString EmptyString).
Proof.
  apply (profile_of_the_file_replaces_the_default
           [("SRU", JObject [("unit_file", JString "my.unit")])] true "SRU"
           [("unit_file", JString "my.unit")]).
  - repeat constructor. intros [].
  - reflexivity.
Defined.

(** X21.  What [update_game_config] stores is what the window reads
    afterwards: when the call returns, the three paths of the mode read as
    given, the other keys of its profile read as before, and so does every
    setting of every other mode that has an item.  No other item of [data]
    changes, the mode in use among them. *)
Theorem stored_paths_are_read_back (file : File) (can_write : bool)
  (l : list Call) (c c' : Self) (mode unit_file meshes_path viewer_path : string) :
  calls (start file can_write) l = Return c ->
  update_game_config c mode unit_file meshes_path viewer_path = Return c' ->
  setting c' mode "unit_file" = Return (JString unit_file) /\
  setting c' mode "meshes_path" = Return (JString meshes_path) /\
  setting c' mode "viewer_path" = Return (JString viewer_path) /\
  (forall key,
     dict_get (data c) mode <> None ->
     ~ In key ["unit_file"; "meshes_path"; "viewer_path"] ->
     setting c' mode key = setting c mode key) /\
  (forall mode' key,
     mode' <> mode -> dict_get (data c) mode' <> None ->
     setting c' mode' key = setting c mode' key) /\
  (forall k, k <> mode -> dict_get (data c') k = dict_get (data c) k).
Proof.
  intros Hreach Hcall.
  pose proof (calls_sound l _ c (sound_start file can_write) Hreach) as Hc.
  destruct (update_game_config_returns c c' mode unit_file meshes_path
              viewer_path Hc Hcall)
    as (a & Ha & Hlt & Hdata & Hheap & _).
  assert (Hmode : get_game_config c' mode = Ref a)
    by (unfold get_game_config; now rewrite Hdata, Ha).
  assert (Hderef := deref_with_paths_same (heap (with_profile c mode)) a
                      unit_file meshes_path viewer_path Hlt).
  unfold setting. rewrite Hmode. cbn [get]. rewrite Hheap, Hderef.
  split; [now rewrite !dict_get_set |].
  split; [now rewrite !dict_get_set |].
  split; [now rewrite !dict_get_set |].
  split; [| split].
  - intros key Hthere Hkey. cbn [In] in Hkey.
    rewrite !dict_get_set_other by (intros <-; tauto).
    rewrite with_profile_get in Ha. unfold get_game_config.
    destruct (dict_get (data c) mode) as [x|] eqn:E; [| now destruct Hthere].
    injection Ha as ->. cbn [get]. unfold with_profile. now rewrite E.
  - intros mode' key Hne Hthere. unfold get_game_config.
    rewrite Hdata, (with_profile_other c mode mode' Hne).
    destruct (dict_get (data c) mode') as [[b|j]|] eqn:E;
      [| reflexivity | now destruct Hthere].
    cbn [get]. f_equal.
    assert (Hb : (b < List.length (heap c))%nat)
      by exact (refs_valid c Hc mode' b E).
    assert (Hab : a <> b).
    { intros <-. rewrite with_profile_get in Ha.
      destruct (dict_get (data c) mode) as [x|] eqn:E'.
      - injection Ha as ->. now apply Hne, (refs_apart c Hc mode' mode a).
      - injection Ha as Ha. lia. }
    rewrite (deref_with_paths_other _ a b) by exact Hab.
    now rewrite with_profile_heap.
  - intros k Hk. rewrite Hdata. now apply with_profile_other.
Qed.

Lemma stored_paths_are_read_back_witness :
  exists c',
    update_game_config (start Absent true) "SRU" "a.unit" "Meshes" "v.exe" =
    Return c' /\
    setting c' "SRU" "unit_file" = Return (JString "a.unit").
Proof.
  eexists. split; [reflexivity |].
  exact (proj1 (stored_paths_are_read_back Absent true [] _ _ "SRU" "a.unit"
                  "Meshes" "v.exe" eq_refl eq_refl)).
Defined.

(** X22.  A mode that has no item in [data] is given the profile dict of
    [DEFAULTS] for SR2030 as it is at that time, and this dict is shared
    with [data] unless the configuration file had an item for SR2030.  So
    without such an item the mode reads whatever SR2030 reads, the paths
    stored for it too; with such an item it reads the paths of the class
    statement, whatever was stored. *)
Theorem mode_without_item_reads_the_default_dict (file : File)
  (can_write : bool) (l : list Call) (c : Self) (mode key : string) :
  calls (start file can_write) l = Return c ->
  dict_get (data c) mode = None ->
  setting c mode key =
  if has_key file "SR2030" then Return (read SR2030_PROFILE key)
  else setting c "SR2030" key.
Proof.
  intros Hreach Hnone.
  pose proof (sound_start file can_write) as H0.
  unfold setting at 1. unfold get_game_config. rewrite Hnone. cbn [get].
  destruct (has_key file "SR2030") eqn:Hkey.
  - destruct file as [| |loaded]; try discriminate.
    cbn [has_key] in Hkey. apply existsb_eqb_In in Hkey.
    assert (Hapart : default_apart c).
    { apply (calls_keep default_apart call_default_apart l _ c H0);
        [| exact Hreach].
      now apply start_default_apart. }
    destruct Hapart as [_ ->]. reflexivity.
  - assert (Hshared : dict_get (data c) "SR2030" = Some (Ref 1)).
    { apply (calls_keep
               (fun c => dict_get (data c) "SR2030" = Some (Ref 1)))
        with (l := l) (c := start file can_write); auto.
      - intros c0 c1 x Hc0 E Hx.
        apply (call_keeps c0 c1 x "SR2030" _ Hc0 Hx); [discriminate | exact E].
      - now apply start_default_shared. }
    unfold setting, get_game_config. now rewrite Hshared.
Qed.

Lemma mode_without_item_reads_the_default_dict_witness :
  exists c,
    calls (start (Holds [("mode", JString "SR2020")]) true)
      [UpdateGameConfig "SR2030" "a.unit" "Meshes" "v.exe"] = Return c /\
    setting c "SR2020" "unit_file" = Return (JString "a.unit").
Proof.
  eexists. split; [reflexivity |].
  exact (mode_without_item_reads_the_default_dict
           (Holds [("mode", JString "SR2020")]) true
           [UpdateGameConfig "SR2030" "a.unit" "Meshes" "v.exe"] _ "SR2020"
           "unit_file" eq_refl eq_refl).
Defined.

(** X23.  What the manager holds when it has written the file is what the
    manager of the next run holds: after a first run without a file, or
    after any call of the window, a new manager that starts from the file
    holds under every key the value that the old one held. *)
Theorem next_run_reads_what_was_stored (file : File) (l : list Call)
  (c : Self) (can_write : bool) (key : string) :
  calls (start file true) l = Return c ->
  l <> [] \/ file = Absent ->
  view (start (config_json c) can_write) key = view c key.
Proof.
  intros Hreach Hl.
  pose proof (sound_start file true) as H0.
  pose proof (calls_sound l _ c H0 Hreach) as Hc.
  assert (Hsaved : saved c).
  { apply (calls_saved l _ c H0); [| exact Hreach].
    destruct Hl as [Hl | ->]; [now left | right].
    apply (save_saved (mkSelf DEFAULTS class_heap Absent true)). }
  assert (Hw : writable c = true).
  { rewrite (calls_writable l _ c H0 Hreach).
    destruct file as [| |loaded]; try reflexivity.
    rewrite start_holds.
    now rewrite (proj2 (load_items_world loaded _)). }
  rewrite (Hsaved Hw), start_holds, view_load_items by apply sound_defaults.
  assert (Hkeys : NoDup (map fst (json_dump c))).
  { unfold json_dump. rewrite keys_map. exact (keys_once c Hc). }
  rewrite (dict_get_rev _ key Hkeys). fold (view c key).
  destruct (view c key) as [j|] eqn:E; [reflexivity |].
  rewrite view_eq in E |- *. cbn [data heap].
  destruct (dict_get DEFAULTS key) as [v|] eqn:Ed; [| reflexivity].
  assert (Hthere : dict_get (data c) key <> None).
  { apply (defaults_kept c Hc). now rewrite Ed. }
  destruct (dict_get (data c) key); [discriminate | now destruct Hthere].
Qed.

Lemma next_run_reads_what_was_stored_witness :
  view
    (start
       (config_json
          (set_mode
             (start (Holds [("SRU", JObject [("unit_file", JString "x")])])
                true)
             "SRU"))
       false)
    "SRU" =
  Some (JObject [("unit_file", JString "x")]).
Proof.
  rewrite (next_run_reads_what_was_stored
             (Holds [("SRU", JObject [("unit_file", JString "x")])])
             [SetMode "SRU"] _ false "SRU" eq_refl).
  - reflexivity.
  - left. discriminate.
Defined.

End ConfigTheorems.
